(** * Bolometer: the profiling control loop, embedded and verified

    A shallow embedding of the Go packages [internal/metrics],
    [internal/profiler], [internal/uploader] and [internal/controller] of the
    Bolometer operator, followed by the properties of the specification that
    are about them.

    Conventions of the embedding:
    - Go [map[string]T] is a [gmap string T]; a nil map and an empty map are
      both [∅] (the code only reads maps, and reading a nil map finds nothing).
    - Go [float64] is the kernel's binary64 [float]; [int] is a [Z].
    - [(T, error)] results are [result T]; a nil error is [Ok].
    - A pointer is modelled by the object it points to; where the code
      writes to an object that several holders point to, the write is made
      in every holder ([writeConfig]).
    - A call that may wait for ever says so in its outcome: [None] for the
      port-forward and the capture, [Blocked] for the calls of the
      controller, [Hung] for a monitor goroutine.
    - [range] over a map takes the entries in the order of [map_to_list];
      Go leaves that order open.
    - The cluster, the metrics server, the pprof HTTP endpoint, the object
      store and the wall clock are outside the program: they appear as
      oracles (section variables) or as explicit fields of the state that is
      threaded through the code. *)

From Stdlib Require Import ZArith Lia Floats Ascii.
From stdpp Require Import gmap strings list pretty.

Local Open Scope string_scope.
Local Open Scope Z_scope.

(** ** Results *)

Inductive result (A : Type) : Type :=
| Ok (a : A)
| Err (msg : string).
Arguments Ok {A} a.
Arguments Err {A} msg.

Definition is_ok {A} (r : result A) : bool :=
  match r with Ok _ => true | Err _ => false end.

(** ** Kubernetes objects (the fields the operator reads) *)

Module resource.
(** [resource.Quantity]: a fixed-point decimal.  Canonical quantities have
    at most nine fractional digits, so a quantity is its count of
    nano-units. *)
Definition Quantity : Type := Z.

Definition zero : Quantity := 0.
Definition Add (q r : Quantity) : Quantity := q + r.
Definition IsZero (q : Quantity) : bool := q =? 0.

(** Scaling to a coarser unit rounds away from zero.  [Value] and
    [MilliValue] return an [int64] in the source; the model leaves the result
    unbounded, and agrees with the source for every quantity whose scaled
    value fits an [int64]. *)
Definition scaled (q : Quantity) (unit : Z) : Z :=
  if q `rem` unit =? 0 then q `quot` unit else q `quot` unit + Z.sgn q.

Definition MilliValue (q : Quantity) : Z := scaled q 1000000.
Definition Value (q : Quantity) : Z := scaled q 1000000000.
End resource.

Module corev1.
Definition ResourceCPU : string := "cpu".
Definition ResourceMemory : string := "memory".
Definition PodRunning : string := "Running".

Record OwnerReference : Type := mkOwnerReference {
  Kind : string;
  OwnerName : string
}.

Record Container : Type := mkContainer {
  ContainerName : string;
  Requests : gmap string resource.Quantity
}.

Record Pod : Type := mkPod {
  Name : string;
  Namespace : string;
  Labels : gmap string string;
  Annotations : gmap string string;
  OwnerReferences : list OwnerReference;
  Containers : list Container;
  Phase : string
}.
End corev1.

Module v1beta1.
Record ContainerMetrics : Type := mkContainerMetrics {
  Usage : gmap string resource.Quantity
}.

Record PodMetrics : Type := mkPodMetrics {
  Containers : list ContainerMetrics
}.
End v1beta1.

(** ** Package [metrics] *)

Module metrics.

(** [float64(n)] for an [int]: round to nearest, ties to even. *)
Definition float64_of_int (n : Z) : float :=
  SF2Prim (binary_normalize prec emax n 0 false).

Record PodMetrics : Type := mkPodMetrics {
  CPUUsagePercent : float;
  MemoryUsagePercent : float;
  CPUUsage : resource.Quantity;
  MemoryUsage : resource.Quantity
}.

(** The two aggregation loops of [calculateMetrics]: a resource that a
    container does not list adds nothing. *)
Definition addResource (name : string) (total : resource.Quantity)
    (rl : gmap string resource.Quantity) : resource.Quantity :=
  match rl !! name with
  | Some q => resource.Add total q
  | None => total
  end.

Definition totalUsage (name : string) (cs : list v1beta1.ContainerMetrics)
    : resource.Quantity :=
  fold_left (fun total c => addResource name total (v1beta1.Usage c))
            cs resource.zero.

Definition totalRequest (name : string) (cs : list corev1.Container)
    : resource.Quantity :=
  fold_left (fun total c => addResource name total (corev1.Requests c))
            cs resource.zero.

Definition calculateMetrics (pod : corev1.Pod) (podMetrics : v1beta1.PodMetrics)
    : result PodMetrics :=
  let totalCPUUsage := totalUsage corev1.ResourceCPU (v1beta1.Containers podMetrics) in
  let totalMemoryUsage := totalUsage corev1.ResourceMemory (v1beta1.Containers podMetrics) in
  let totalCPURequest := totalRequest corev1.ResourceCPU (corev1.Containers pod) in
  let totalMemoryRequest := totalRequest corev1.ResourceMemory (corev1.Containers pod) in
  let cpuPercent :=
    if negb (resource.IsZero totalCPURequest)
    then (float64_of_int (resource.MilliValue totalCPUUsage)
          / float64_of_int (resource.MilliValue totalCPURequest) * 100)%float
    else 0%float in
  let memoryPercent :=
    if negb (resource.IsZero totalMemoryRequest)
    then (float64_of_int (resource.Value totalMemoryUsage)
          / float64_of_int (resource.Value totalMemoryRequest) * 100)%float
    else 0%float in
  Ok {| CPUUsagePercent := cpuPercent;
        MemoryUsagePercent := memoryPercent;
        CPUUsage := totalCPUUsage;
        MemoryUsage := totalMemoryUsage |}.

Section CheckThresholds.
(** The rendering of the [%.2f] verb of [fmt.Sprintf]. *)
Variable fmt_f2 : float -> string.

Definition CheckThresholds (pm : PodMetrics) (cpuThreshold memoryThreshold : Z)
    : bool * string :=
  if (float64_of_int cpuThreshold <? CPUUsagePercent pm)%float then
    (true, "CPU usage " +:+ fmt_f2 (CPUUsagePercent pm)
             +:+ "% exceeds threshold " +:+ pretty cpuThreshold +:+ "%")
  else if (float64_of_int memoryThreshold <? MemoryUsagePercent pm)%float then
    (true, "Memory usage " +:+ fmt_f2 (MemoryUsagePercent pm)
             +:+ "% exceeds threshold " +:+ pretty memoryThreshold +:+ "%")
  else (false, "").
End CheckThresholds.

End metrics.

(** ** Package [time] (the part the operator uses) *)

Module time.

(** A [time.Time]: an instant (nanoseconds since the Unix epoch) together
    with the offset, in seconds east of UTC, that its location has at that
    instant. *)
Record Time : Type := mkTime {
  unixNano : Z;
  zoneOffset : Z
}.

(** [time.Duration]: a signed 64-bit count of nanoseconds. *)
Definition minDuration : Z := - 2 ^ 63.
Definition maxDuration : Z := 2 ^ 63 - 1.
Definition Second : Z := 1000000000.

Definition wrap64 (n : Z) : Z := (n + 2 ^ 63) `mod` 2 ^ 64 - 2 ^ 63.

(** [time.Duration(n) * time.Second] on an [int] [n]. *)
Definition Seconds (n : Z) : Z := wrap64 (wrap64 n * Second).

(** [t.Sub(u)]: the difference, saturated to the range of a duration. *)
Definition Sub (t u : Time) : Z :=
  let d := unixNano t - unixNano u in
  if d <? minDuration then minDuration
  else if maxDuration <? d then maxDuration
  else d.

(** Number of digits is at least [width], zero padded ([appendInt]). *)
Definition appendInt (x : Z) (width : nat) : string :=
  let digits := pretty (Z.abs x) in
  let padded := String.concat "" (replicate (width - String.length digits)%nat "0")
                +:+ digits in
  if x <? 0 then "-" +:+ padded else padded.

(** Civil date of a day count since 1970-01-01 (proleptic Gregorian). *)
Definition civil (days : Z) : Z * Z * Z :=
  let z := days + 719468 in
  let era := z `div` 146097 in
  let doe := z - era * 146097 in
  let yoe := (doe - doe `div` 1460 + doe `div` 36524 - doe `div` 146096) `div` 365 in
  let doy := doe - (365 * yoe + yoe `div` 4 - yoe `div` 100) in
  let mp := (5 * doy + 2) `div` 153 in
  let d := doy - (153 * mp + 2) `div` 5 + 1 in
  let m := if mp <? 10 then mp + 3 else mp - 9 in
  let y := yoe + era * 400 + (if m <=? 2 then 1 else 0) in
  (y, m, d).

(** Seconds since the epoch on the wall clock of the time's location. *)
Definition localSeconds (t : Time) : Z :=
  unixNano t `div` 1000000000 + zoneOffset t.

Definition Date (t : Time) : Z * Z * Z := civil (localSeconds t `div` 86400).

Definition Clock (t : Time) : Z * Z * Z :=
  let s := localSeconds t `mod` 86400 in
  (s `div` 3600, (s `mod` 3600) `div` 60, s `mod` 60).

(** [t.Format("2006-01-02")]. *)
Definition FormatDate (t : Time) : string :=
  let '(y, m, d) := Date t in
  appendInt y 4 +:+ "-" +:+ appendInt m 2 +:+ "-" +:+ appendInt d 2.

(** [t.Format("20060102-150405")]. *)
Definition FormatStamp (t : Time) : string :=
  let '(y, m, d) := Date t in
  let '(hh, mm, ss) := Clock t in
  appendInt y 4 +:+ appendInt m 2 +:+ appendInt d 2 +:+ "-"
    +:+ appendInt hh 2 +:+ appendInt mm 2 +:+ appendInt ss 2.

(** The [Z07:00] element of a layout. *)
Definition formatZone (offset : Z) : string :=
  if offset =? 0 then "Z"
  else
    let zone := offset `quot` 60 in
    let sign := if zone <? 0 then "-" else "+" in
    let zone := Z.abs zone in
    sign +:+ appendInt (zone `quot` 60) 2 +:+ ":" +:+ appendInt (zone `rem` 60) 2.

(** [t.Format(time.RFC3339)], layout [2006-01-02T15:04:05Z07:00]. *)
Definition FormatRFC3339 (t : Time) : string :=
  let '(hh, mm, ss) := Clock t in
  FormatDate t +:+ "T" +:+ appendInt hh 2 +:+ ":" +:+ appendInt mm 2
    +:+ ":" +:+ appendInt ss 2 +:+ formatZone (zoneOffset t).

End time.

(** ** Package [profiler] *)

Module profiler.

Definition DefaultPprofPort : Z := 6060.
Definition PprofPortAnnotation : string := "bolometer.io/port".

Record Profile : Type := mkProfile {
  Type_ : string;
  Data : list Byte.byte;
  Timestamp : time.Time
}.

(** [getProfileEndpoint] *)
Definition getProfileEndpoint (profileType : string) : string :=
  if String.eqb profileType "heap" then "/debug/pprof/heap"
  else if String.eqb profileType "cpu" then "/debug/pprof/profile?seconds=30"
  else if String.eqb profileType "goroutine" then "/debug/pprof/goroutine"
  else if String.eqb profileType "mutex" then "/debug/pprof/mutex"
  else if String.eqb profileType "block" then "/debug/pprof/block"
  else if String.eqb profileType "threadcreate" then "/debug/pprof/threadcreate"
  else "/debug/pprof/" +:+ profileType.

Definition minInt : Z := - 2 ^ 63.
Definition maxInt : Z := 2 ^ 63 - 1.

(** [strconv.Atoi]: an optional sign and at least one decimal digit, the
    value within the range of a 64-bit [int]. *)
Definition digit (c : Ascii.ascii) : option Z :=
  let n := Z.of_N (Ascii.N_of_ascii c) in
  if (48 <=? n) && (n <=? 57) then Some (n - 48) else None.

Fixpoint digits (s : string) (acc : Z) : option Z :=
  match s with
  | EmptyString => Some acc
  | String c s' =>
      match digit c with
      | Some d => digits s' (10 * acc + d)
      | None => None
      end
  end.

Definition Atoi (s : string) : option Z :=
  let '(neg, body) :=
    match s with
    | String "-"%char s' => (true, s')
    | String "+"%char s' => (false, s')
    | _ => (false, s)
    end in
  match body with
  | EmptyString => None
  | _ =>
      match digits body 0 with
      | Some n =>
          let v := if neg : bool then - n else n in
          if (minInt <=? v) && (v <=? maxInt) then Some v else None
      | None => None
      end
  end.

(** [getPprofPort] *)
Definition getPprofPort (pod : corev1.Pod) : Z :=
  match corev1.Annotations pod !! PprofPortAnnotation with
  | None => DefaultPprofPort
  | Some portStr =>
      match Atoi portStr with
      | None => DefaultPprofPort
      | Some port =>
          if (port <=? 0) || (65535 <? port) then DefaultPprofPort else port
      end
  end.

(** What one pprof request can come to. *)
Inductive HttpReply : Type :=
| RequestFailed (msg : string)
    (** building the request or [client.Do] failed (connection, deadline,
        cancellation) *)
| Response (status : Z) (body : result (list Byte.byte))
    (** a response with this status; [body] is what [io.ReadAll] gives *).

(** One entry of the log of requests made. *)
Record Exchange : Type := mkExchange {
  url : string;
  reply : HttpReply;
  finished : time.Time
}.

(** The state threaded through a capture: the wall clock and the requests
    made so far (oldest first). *)
Record World : Type := mkWorld {
  clock : time.Time;
  requests : list Exchange
}.

Inductive WaitOutcome : Type :=
| Ready
| TimedOut
| Cancelled (msg : string).

Definition StatusOK : Z := 200.

Section Capture.
(** The target's HTTP server, through the tunnel: the reply to a GET of
    a URL issued at a given time, and the time when the call (with the
    read of the body, if any) returns. *)
Variable http_get : string -> time.Time -> HttpReply * time.Time.
(** [setupPortForward]: the local port of the tunnel, or an error, with the
    time at which the call returns; [None] when it never returns.  The call
    receives from the ready channel with no alternative, and nothing closes
    that channel when [ForwardPorts] fails. *)
Variable setupPortForward :
  corev1.Pod -> Z -> time.Time -> option (result Z * time.Time).
(** Which case of the [select] on readiness fires. *)
Variable waitReady : time.Time -> WaitOutcome * time.Time.

(** [captureProfile] *)
Definition captureProfile (localPort : Z) (profileType : string) (w : World)
    : result Profile * World :=
  let endpoint := getProfileEndpoint profileType in
  let url := "http://localhost:" +:+ pretty localPort +:+ endpoint in
  let '(rep, t) := http_get url (clock w) in
  let w' := {| clock := t;
               requests := requests w ++ [mkExchange url rep t] |} in
  match rep with
  | RequestFailed msg => (Err msg, w')
  | Response status body =>
      if negb (status =? StatusOK) then
        (Err ("unexpected status code: " +:+ pretty status), w')
      else
        match body with
        | Err msg => (Err msg, w')
        | Ok data =>
            (Ok {| Type_ := profileType; Data := data; Timestamp := clock w' |}, w')
        end
  end.

(** The loop of [CaptureProfiles] over the requested kinds. *)
Fixpoint captureEach (localPort : Z) (profileTypes : list string)
    (profiles : list Profile) (w : World) : result (list Profile) * World :=
  match profileTypes with
  | [] => (Ok profiles, w)
  | profileType :: rest =>
      match captureProfile localPort profileType w with
      | (Err msg, w') =>
          (Err ("failed to capture " +:+ profileType +:+ " profile: " +:+ msg), w')
      | (Ok profile, w') => captureEach localPort rest (profiles ++ [profile]) w'
      end
  end.

(** [CaptureProfiles]: what the call returns, or [None] when it never
    returns. *)
Definition CaptureProfiles (pod : corev1.Pod) (profileTypes : list string)
    (w : World) : option (result (list Profile) * World) :=
  let port := getPprofPort pod in
  match setupPortForward pod port (clock w) with
  | None => None
  | Some (Err msg, t) =>
      Some (Err ("failed to setup port forward: " +:+ msg),
            {| clock := t; requests := requests w |})
  | Some (Ok localPort, t) =>
      match waitReady t with
      | (TimedOut, t') =>
          Some (Err "timeout waiting for port forward",
                {| clock := t'; requests := requests w |})
      | (Cancelled msg, t') =>
          Some (Err msg, {| clock := t'; requests := requests w |})
      | (Ready, t') =>
          Some (captureEach localPort profileTypes []
                  {| clock := t'; requests := requests w |})
      end
  end.
End Capture.

End profiler.

(** ** Package [path/filepath] (Unix), the part [generateKey] uses *)

Module filepath.

(** The elements of a path: the pieces between separators. *)
Fixpoint splitOn (sep : ascii) (s : string) : list string :=
  match s with
  | EmptyString => [""]
  | String c s' =>
      if Ascii.eqb c sep then "" :: splitOn sep s'
      else match splitOn sep s' with
           | h :: t => String c h :: t
           | [] => [String c ""]
           end
  end.

Definition elements (path : string) : list string := splitOn "/" path.

(** One element of the path met by [Clean], on the stack of the elements
    kept so far (innermost first): empty and [.] elements are dropped, [..]
    removes the element before it when there is one to remove, is dropped
    at the root, and is kept in front of a relative path. *)
Definition cleanStep (rooted : bool) (kept : list string) (e : string)
    : list string :=
  if String.eqb e "" || String.eqb e "." then kept
  else if String.eqb e ".." then
    match kept with
    | top :: below => if String.eqb top ".." then e :: kept else below
    | [] => if rooted then [] else [e]
    end
  else e :: kept.

(** [filepath.Clean] *)
Definition Clean (path : string) : string :=
  let rooted := match path with String "/" _ => true | _ => false end in
  let kept := fold_left (cleanStep rooted) (elements path) [] in
  let body := String.concat "/" (rev kept) in
  if rooted then "/" +:+ body
  else if String.eqb body "" then "." else body.

(** [filepath.Join]: the elements from the first non-empty one on, joined
    with the separator and cleaned; empty when there is none. *)
Fixpoint Join (elem : list string) : string :=
  match elem with
  | [] => ""
  | e :: rest =>
      if String.eqb e "" then Join rest
      else Clean (String.concat "/" elem)
  end.

End filepath.

(** ** Package [uploader] *)

Module uploader.

Record S3Uploader : Type := mkS3Uploader {
  bucket : string;
  prefix : string
}.

Record PutObjectInput : Type := mkPutObjectInput {
  Bucket : string;
  Key : string;
  Body : list Byte.byte;
  ContentType : string;
  Metadata : gmap string string
}.

(** [m[k]] read with [v, ok := m[k]; ok && v != ""]. *)
Definition nonEmptyLabel (labels : gmap string string) (k : string) : option string :=
  match labels !! k with
  | Some v => if String.eqb v "" then None else Some v
  | None => None
  end.

Definition isDash (name : string) (i : nat) : bool :=
  match String.get i name with
  | Some c => Ascii.eqb c "-"
  | None => false
  end.

(** [for i := n - 1; i >= 0; i-- { if name[i] == '-' { lastDash = i; break } }]
    entered with [lastDash = initial]. *)
Fixpoint lastDashBelow (name : string) (n : nat) (initial : Z) : Z :=
  match n with
  | O => initial
  | S i => if isDash name i then Z.of_nat i else lastDashBelow name i initial
  end.

(** The same loop counting dashes and stopping at the second one. *)
Fixpoint secondLastDashBelow (name : string) (n : nat) (dashCount : Z)
    (initial : Z) : Z :=
  match n with
  | O => initial
  | S i =>
      if isDash name i then
        if dashCount + 1 =? 2 then Z.of_nat i
        else secondLastDashBelow name i (dashCount + 1) initial
      else secondLastDashBelow name i dashCount initial
  end.

(** [name[:n]] *)
Definition upTo (name : string) (n : Z) : string :=
  String.substring 0 (Z.to_nat n) name.

(** [getServiceName] *)
Definition getServiceName (pod : corev1.Pod) : string :=
  match nonEmptyLabel (corev1.Labels pod) "app.kubernetes.io/name" with
  | Some name => name
  | None =>
  match nonEmptyLabel (corev1.Labels pod) "app" with
  | Some app => app
  | None =>
  match nonEmptyLabel (corev1.Labels pod) "k8s-app" with
  | Some app => app
  | None =>
  match corev1.OwnerReferences pod with
  | owner :: _ =>
      if String.eqb (corev1.Kind owner) "ReplicaSet" then
        let name := corev1.OwnerName owner in
        let lastDash :=
          lastDashBelow name (String.length name) (Z.of_nat (String.length name) - 1) in
        if 0 <? lastDash then upTo name lastDash
        else corev1.OwnerName owner
      else corev1.OwnerName owner
  | [] =>
      let name := corev1.Name pod in
      let lastDash := secondLastDashBelow name (String.length name) 0 (-1) in
      if 0 <? lastDash then upTo name lastDash
      else name
  end end end end.

(** [generateKey] *)
Definition generateKey (u : S3Uploader) (pod : corev1.Pod) (profile : profiler.Profile)
    : string :=
  let date := time.FormatDate (profiler.Timestamp profile) in
  let serviceName := getServiceName pod in
  let timestamp := time.FormatStamp (profiler.Timestamp profile) in
  let filename := timestamp +:+ "-" +:+ profiler.Type_ profile +:+ ".pprof" in
  let parts := [prefix u; date; serviceName; filename] in
  filepath.Join parts.

(** The metadata map of [UploadProfile]: the five fixed entries, then one
    entry per pod label. *)
Definition metadataOf (pod : corev1.Pod) (profile : profiler.Profile) (reason : string)
    : gmap string string :=
  let metadata : gmap string string :=
    <["timestamp" := time.FormatRFC3339 (profiler.Timestamp profile)]>
    (<["reason" := reason]>
    (<["profile-type" := profiler.Type_ profile]>
    (<["pod-namespace" := corev1.Namespace pod]>
    (<["pod-name" := corev1.Name pod]> ∅)))) in
  foldr (fun kv metadata => <["pod-label-" +:+ kv.1 := kv.2]> metadata)
        metadata (map_to_list (corev1.Labels pod)).

(** The request [UploadProfile] hands to the S3 client. *)
Definition putObjectInput (u : S3Uploader) (pod : corev1.Pod)
    (profile : profiler.Profile) (reason : string) : PutObjectInput :=
  {| Bucket := bucket u;
     Key := generateKey u pod profile;
     Body := profiler.Data profile;
     ContentType := "application/octet-stream";
     Metadata := metadataOf pod profile reason |}.

Section Upload.
(** The object store and its client: what a PUT comes to, in a store
    state of some type [Store]. *)
Variable Store : Type.
Variable PutObject : PutObjectInput -> Store -> result unit * Store.

(** [UploadProfile] *)
Definition UploadProfile (u : S3Uploader) (pod : corev1.Pod)
    (profile : profiler.Profile) (reason : string) (s : Store)
    : result unit * Store :=
  match PutObject (putObjectInput u pod profile reason) s with
  | (Err msg, s') => (Err ("failed to upload to S3: " +:+ msg), s')
  | (Ok _, s') => (Ok tt, s')
  end.

(** [UploadProfiles] *)
Fixpoint UploadProfiles (u : S3Uploader) (pod : corev1.Pod)
    (profiles : list profiler.Profile) (reason : string) (s : Store)
    : result unit * Store :=
  match profiles with
  | [] => (Ok tt, s)
  | profile :: rest =>
      match UploadProfile u pod profile reason s with
      | (Err msg, s') => (Err msg, s')
      | (Ok _, s') => UploadProfiles u pod rest reason s'
      end
  end.
End Upload.

End uploader.

(** ** Package [v1alpha1]: the ProfilingConfig resource *)

Module v1alpha1.

Record PodSelector : Type := mkPodSelector {
  SelectorNamespace : string;
  LabelSelector : gmap string string
}.

Record ThresholdConfig : Type := mkThresholdConfig {
  CPUThresholdPercent : Z;
  MemoryThresholdPercent : Z;
  CheckIntervalSeconds : Z;
  CooldownSeconds : Z
}.

Record OnDemandConfig : Type := mkOnDemandConfig {
  Enabled : bool;
  IntervalSeconds : Z
}.

Record S3Configuration : Type := mkS3Configuration {
  Bucket : string;
  Prefix : string;
  Region : string;
  Endpoint : string
}.

Record ProfilingConfigSpec : Type := mkProfilingConfigSpec {
  Selector : PodSelector;
  Thresholds : ThresholdConfig;
  OnDemand : option OnDemandConfig;
  S3Config : S3Configuration;
  ProfileTypes : list string
}.

(** The [Conditions] of the status are never written by the controller and
    are left out. *)
Record ProfilingConfigStatus : Type := mkProfilingConfigStatus {
  ActivePods : Z;
  LastProfileTime : option time.Time;
  TotalProfiles : Z;
  TotalUploads : Z
}.

Record ProfilingConfig : Type := mkProfilingConfig {
  Name : string;
  Namespace : string;
  Spec : ProfilingConfigSpec;
  Status : ProfilingConfigStatus
}.

End v1alpha1.

(** ** Package [controller]: the pod watcher *)

Module controller.

Definition ProfilingEnabledAnnotation : string := "bolometer.io/enabled".

(** A [TrackedPod] as [TrackPod] builds it.  Its [StopChan] and
    [OnDemandTicker] are nil in every entry the program creates, so the two
    guarded releases of [stopTrackingLocked] never run and the fields are
    left out, as is the never-written [LastProfileTime] field. *)
(** [Pod] and [Config] are pointers in the source.  The record holds the
    objects they point to; a later write to such an object is made in every
    entry that points to it (see [writeConfig] and [Reconcile]). *)
Record TrackedPod : Type := mkTrackedPod {
  Pod : corev1.Pod;
  Config : v1alpha1.ProfilingConfig
}.

(** The two maps of a [PodWatcher]; its mutex makes every method atomic,
    which is how the methods are modelled. *)
Record PodWatcher : Type := mkPodWatcher {
  trackedPods : gmap string TrackedPod;
  lastProfileTime : gmap string time.Time
}.

Definition NewPodWatcher : PodWatcher :=
  {| trackedPods := ∅; lastProfileTime := ∅ |}.

(** [getPodKey] *)
Definition getPodKey (pod : corev1.Pod) : string :=
  corev1.Namespace pod +:+ "/" +:+ corev1.Name pod.

(** [isPodProfilingEnabled] *)
Definition isPodProfilingEnabled (pod : corev1.Pod) : bool :=
  match corev1.Annotations pod !! ProfilingEnabledAnnotation with
  | Some value => String.eqb value "true"
  | None => false
  end.

(** [stopTrackingLocked] *)
Definition stopTrackingLocked (pw : PodWatcher) (key : string) (tracked : TrackedPod)
    : PodWatcher :=
  {| trackedPods := delete key (trackedPods pw);
     lastProfileTime := delete key (lastProfileTime pw) |}.

(** [TrackPod] *)
Definition TrackPod (pw : PodWatcher) (pod : corev1.Pod)
    (config : v1alpha1.ProfilingConfig) : PodWatcher :=
  let key := getPodKey pod in
  let pw :=
    match trackedPods pw !! key with
    | Some existing => stopTrackingLocked pw key existing
    | None => pw
    end in
  let tracked := {| Pod := pod; Config := config |} in
  {| trackedPods := <[key := tracked]> (trackedPods pw);
     lastProfileTime := lastProfileTime pw |}.

(** [StopTrackingPod] *)
Definition StopTrackingPod (pw : PodWatcher) (pod : corev1.Pod) : PodWatcher :=
  let key := getPodKey pod in
  match trackedPods pw !! key with
  | Some tracked => stopTrackingLocked pw key tracked
  | None => pw
  end.

(** [GetTrackedPods]: the entries, in the order the map yields them. *)
Definition GetTrackedPods (pw : PodWatcher) : list TrackedPod :=
  (map_to_list (trackedPods pw)).*2.

(** [CanProfile], at wall time [now]. *)
Definition CanProfile (pw : PodWatcher) (pod : corev1.Pod) (cooldownSeconds : Z)
    (now : time.Time) : bool :=
  let key := getPodKey pod in
  match lastProfileTime pw !! key with
  | None => true
  | Some lastTime =>
      let cooldown := time.Seconds cooldownSeconds in
      cooldown <? time.Sub now lastTime
  end.

(** [UpdateLastProfileTime], at wall time [now]. *)
Definition UpdateLastProfileTime (pw : PodWatcher) (pod : corev1.Pod)
    (now : time.Time) : PodWatcher :=
  let key := getPodKey pod in
  {| trackedPods := trackedPods pw;
     lastProfileTime := <[key := now]> (lastProfileTime pw) |}.

(** [GetActivePodCount] *)
Definition GetActivePodCount (pw : PodWatcher) : Z :=
  Z.of_nat (size (trackedPods pw)).

(** A write to the [ProfilingConfig] object that the entries under [keys]
    point to: every one of them shows the object as written. *)
Definition writeConfig (keys : list string) (config : v1alpha1.ProfilingConfig)
    (pw : PodWatcher) : PodWatcher :=
  {| trackedPods :=
       fold_left (fun m key =>
                    alter (fun tracked => {| Pod := Pod tracked; Config := config |}) key m)
                 keys (trackedPods pw);
     lastProfileTime := lastProfileTime pw |}.

(** *** The reconciler *)

Inductive MonitorKind : Type :=
| ThresholdMonitor
| OnDemandMonitor.

(** A monitor goroutine: what it runs, under which context, for which
    configuration. *)
Record Monitor : Type := mkMonitor {
  monitorKind : MonitorKind;
  monitorContext : nat;
  monitorConfig : v1alpha1.ProfilingConfig
}.

(** The start of one capture-and-publish sequence. *)
Record Capture : Type := mkCapture {
  capturePod : string;
  captureReason : string;
  captureStart : time.Time
}.

(** Everything the reconciler and its monitors read and write: the
    reconciler's own fields ([podWatcher], [activeMonitors]), the
    ProfilingConfig objects of the API server, the goroutines started and
    the contexts cancelled so far, the wall clock with the pprof requests
    made, the objects put in the store and the captures begun. *)
Record State : Type := mkState {
  podWatcher : PodWatcher;
  activeMonitors : gmap string nat;
  configs : gmap string v1alpha1.ProfilingConfig;
  goroutines : list Monitor;
  cancelled : list nat;
  nextContext : nat;
  net : profiler.World;
  puts : list uploader.PutObjectInput;
  captures : list Capture
}.

Definition now (s : State) : time.Time := profiler.clock (net s).

Definition setPodWatcher (pw : PodWatcher) (s : State) : State :=
  {| podWatcher := pw; activeMonitors := activeMonitors s; configs := configs s;
     goroutines := goroutines s; cancelled := cancelled s;
     nextContext := nextContext s; net := net s; puts := puts s;
     captures := captures s |}.

Definition setConfigs (cs : gmap string v1alpha1.ProfilingConfig) (s : State) : State :=
  {| podWatcher := podWatcher s; activeMonitors := activeMonitors s; configs := cs;
     goroutines := goroutines s; cancelled := cancelled s;
     nextContext := nextContext s; net := net s; puts := puts s;
     captures := captures s |}.

Definition setNet (w : profiler.World) (s : State) : State :=
  {| podWatcher := podWatcher s; activeMonitors := activeMonitors s;
     configs := configs s; goroutines := goroutines s; cancelled := cancelled s;
     nextContext := nextContext s; net := w; puts := puts s;
     captures := captures s |}.

Definition namespacedName (namespace name : string) : string :=
  namespace +:+ "/" +:+ name.

Definition withStatus (config : v1alpha1.ProfilingConfig)
    (status : v1alpha1.ProfilingConfigStatus) : v1alpha1.ProfilingConfig :=
  {| v1alpha1.Name := v1alpha1.Name config;
     v1alpha1.Namespace := v1alpha1.Namespace config;
     v1alpha1.Spec := v1alpha1.Spec config;
     v1alpha1.Status := status |}.

Inductive GetOutcome : Type :=
| Found (config : v1alpha1.ProfilingConfig)
| NotFound
| GetFailed (msg : string).

(** What a select of a monitor loop receives: a tick of its ticker, at
    some wall time, or the cancellation of its context. *)
Inductive Event : Type :=
| Tick (t : time.Time)
| Done.

(** A call that may wait for ever: it returns, with a value and the state
    it leaves, or it never does, and the goroutine that made it stays where
    it is, in the state reached. *)
Inductive Call (A : Type) : Type :=
| Returned (a : A) (s : State)
| Blocked (s : State).
Arguments Returned {A} a s.
Arguments Blocked {A} s.

(** A [for ... range] loop whose body may wait for ever. *)
Fixpoint forEach {A : Type} (body : State -> A -> Call unit) (items : list A)
    (s : State) : Call unit :=
  match items with
  | [] => Returned tt s
  | item :: items =>
      match body s item with
      | Returned _ s => forEach body items s
      | Blocked s => Blocked s
      end
  end.

(** How far a monitor goroutine got: its context was cancelled, it waits
    for its next event, it panicked, or it waits for ever inside a tick. *)
Inductive Exit : Type :=
| Stopped (s : State)
| Waiting (s : State)
| Panicked (msg : string) (s : State)
| Hung (s : State).

Section Reconciler.
(** The environment.  Each oracle is asked at the wall time of the call. *)
Variable fmt_f2 : float -> string.
Variable http_get : string -> time.Time -> profiler.HttpReply * time.Time.
Variable setupPortForward :
  corev1.Pod -> Z -> time.Time -> option (result Z * time.Time).
Variable waitReady : time.Time -> profiler.WaitOutcome * time.Time.
(** The pods of a namespace that match a label selector, or the failure
    of the list call. *)
Variable listPods : string -> gmap string string -> time.Time -> result (list corev1.Pod).
(** The metrics server's sample for a pod. *)
Variable getPodMetricses : string -> string -> time.Time -> result v1beta1.PodMetrics.
(** A failure of the API server other than not-found, on a read and on a
    status update of the object with the given key. *)
Variable getError : string -> time.Time -> option string.
Variable statusUpdateError : string -> time.Time -> option string.
(** A failure to load the AWS configuration. *)
Variable loadConfigError : time.Time -> option string.
(** What the object store answers to a PUT. *)
Variable putObject : uploader.PutObjectInput -> time.Time -> result unit.

(** [r.Get(ctx, key, config)] *)
Definition Get (key : string) (s : State) : GetOutcome :=
  match getError key (now s) with
  | Some msg => GetFailed msg
  | None =>
      match configs s !! key with
      | Some config => Found config
      | None => NotFound
      end
  end.

(** [r.Status().Update(ctx, config)]: the status of the stored object is
    replaced by the status of [config].  The client writes the server's
    reply back into [config]; for an object read from this store the reply
    has the name, the specification and the status that [config] has. *)
Definition StatusUpdate (config : v1alpha1.ProfilingConfig) (s : State)
    : result unit * State :=
  let key := namespacedName (v1alpha1.Namespace config) (v1alpha1.Name config) in
  match statusUpdateError key (now s) with
  | Some msg => (Err msg, s)
  | None =>
      match configs s !! key with
      | None => (Err "not found", s)
      | Some stored =>
          (Ok tt,
           setConfigs (<[key := withStatus stored (v1alpha1.Status config)]> (configs s)) s)
      end
  end.

(** [ListMatchingPods] *)
Definition ListMatchingPods (config : v1alpha1.ProfilingConfig) (s : State)
    : result (list corev1.Pod) :=
  let selector := v1alpha1.Selector (v1alpha1.Spec config) in
  let namespace :=
    if String.eqb (v1alpha1.SelectorNamespace selector) ""
    then v1alpha1.Namespace config
    else v1alpha1.SelectorNamespace selector in
  match listPods namespace (v1alpha1.LabelSelector selector) (now s) with
  | Err msg => Err msg
  | Ok items =>
      Ok (List.filter
            (fun pod => isPodProfilingEnabled pod
                        && String.eqb (corev1.Phase pod) corev1.PodRunning)
            items)
  end.

(** [validateConfig] *)
Definition validateConfig (config : v1alpha1.ProfilingConfig) : option string :=
  let s3 := v1alpha1.S3Config (v1alpha1.Spec config) in
  if String.eqb (v1alpha1.Bucket s3) "" then Some "s3 bucket is required"
  else if String.eqb (v1alpha1.Region s3) "" then Some "s3 region is required"
  else None.

(** [stopMonitoring] *)
Definition stopMonitoring (configKey : string) (s : State) : State :=
  match activeMonitors s !! configKey with
  | Some cancel =>
      {| podWatcher := podWatcher s;
         activeMonitors := delete configKey (activeMonitors s);
         configs := configs s; goroutines := goroutines s;
         cancelled := cancelled s ++ [cancel];
         nextContext := nextContext s; net := net s; puts := puts s;
         captures := captures s |}
  | None => s
  end.

(** [startMonitoring] *)
Definition startMonitoring (config : v1alpha1.ProfilingConfig) (s : State) : State :=
  let configKey := v1alpha1.Namespace config +:+ "/" +:+ v1alpha1.Name config in
  let ctx := nextContext s in
  let onDemand :=
    match v1alpha1.OnDemand (v1alpha1.Spec config) with
    | Some od => if v1alpha1.Enabled od then [mkMonitor OnDemandMonitor ctx config] else []
    | None => []
    end in
  {| podWatcher := podWatcher s;
     activeMonitors := <[configKey := ctx]> (activeMonitors s);
     configs := configs s;
     goroutines := goroutines s ++ mkMonitor ThresholdMonitor ctx config :: onDemand;
     cancelled := cancelled s;
     nextContext := S ctx; net := net s; puts := puts s;
     captures := captures s |}.

Definition RequeueAfter : Z := 30 * time.Second.

(** [Reconcile], for the request [namespace/name]: the requeue delay, or
    the error returned. *)
Definition Reconcile (namespace name : string) (s : State) : result Z * State :=
  let key := namespacedName namespace name in
  match Get key s with
  | NotFound => (Ok 0, stopMonitoring key s)
  | GetFailed msg => (Err msg, s)
  | Found config =>
      match validateConfig config with
      | Some msg => (Err msg, s)
      | None =>
          match ListMatchingPods config s with
          | Err msg => (Err msg, s)
          | Ok pods =>
              let s :=
                fold_left (fun s pod => setPodWatcher (TrackPod (podWatcher s) pod config) s)
                          pods s in
              let config :=
                withStatus config
                  {| v1alpha1.ActivePods := Z.of_nat (length pods);
                     v1alpha1.LastProfileTime :=
                       v1alpha1.LastProfileTime (v1alpha1.Status config);
                     v1alpha1.TotalProfiles :=
                       v1alpha1.TotalProfiles (v1alpha1.Status config);
                     v1alpha1.TotalUploads :=
                       v1alpha1.TotalUploads (v1alpha1.Status config) |} in
              (* the entries just made point to the object written *)
              let s :=
                setPodWatcher (writeConfig (map getPodKey pods) config (podWatcher s)) s in
              let s := (StatusUpdate config s).2 in
              let s := stopMonitoring key s in
              let s := startMonitoring config s in
              (Ok RequeueAfter, s)
          end
      end
  end.

(** The S3 client of an uploader, working on the state: a PUT that the
    store accepts is recorded. *)
Definition PutObject (input : uploader.PutObjectInput) (s : State)
    : result unit * State :=
  match putObject input (now s) with
  | Err msg => (Err msg, s)
  | Ok _ =>
      (Ok tt,
       {| podWatcher := podWatcher s; activeMonitors := activeMonitors s;
          configs := configs s; goroutines := goroutines s;
          cancelled := cancelled s; nextContext := nextContext s;
          net := net s; puts := puts s ++ [input]; captures := captures s |})
  end.

Definition beginCapture (pod : corev1.Pod) (reason : string) (s : State) : State :=
  {| podWatcher := podWatcher s; activeMonitors := activeMonitors s;
     configs := configs s; goroutines := goroutines s;
     cancelled := cancelled s; nextContext := nextContext s;
     net := net s; puts := puts s;
     captures := captures s ++ [mkCapture (getPodKey pod) reason (now s)] |}.

(** [captureAndUpload] *)
Definition captureAndUpload (pod : corev1.Pod) (config : v1alpha1.ProfilingConfig)
    (reason : string) (s : State) : Call (result unit) :=
  let s := beginCapture pod reason s in
  let profileTypes :=
    match v1alpha1.ProfileTypes (v1alpha1.Spec config) with
    | [] => ["heap"; "cpu"; "goroutine"; "mutex"]
    | profileTypes => profileTypes
    end in
  match profiler.CaptureProfiles http_get setupPortForward waitReady
          pod profileTypes (net s) with
  | None => Blocked s
  | Some (Err msg, w) =>
      Returned (Err ("failed to capture profiles: " +:+ msg)) (setNet w s)
  | Some (Ok profiles, w) =>
      let s := setNet w s in
      match loadConfigError (now s) with
      | Some msg =>
          Returned
            (Err ("failed to create S3 uploader: failed to load AWS config: " +:+ msg)) s
      | None =>
          let s3 := v1alpha1.S3Config (v1alpha1.Spec config) in
          let s3Uploader :=
            {| uploader.bucket := v1alpha1.Bucket s3;
               uploader.prefix := v1alpha1.Prefix s3 |} in
          match uploader.UploadProfiles State PutObject s3Uploader pod profiles reason s with
          | (Err msg, s) => Returned (Err ("failed to upload profiles: " +:+ msg)) s
          | (Ok _, s) => Returned (Ok tt) s
          end
      end
  end.

(** [updateProfileStats] *)
Definition updateProfileStats (config : v1alpha1.ProfilingConfig) (s : State) : State :=
  let key := namespacedName (v1alpha1.Namespace config) (v1alpha1.Name config) in
  match Get key s with
  | Found latest =>
      let status := v1alpha1.Status latest in
      let latest :=
        withStatus latest
          {| v1alpha1.ActivePods := v1alpha1.ActivePods status;
             v1alpha1.LastProfileTime := Some (now s);
             v1alpha1.TotalProfiles := time.wrap64 (v1alpha1.TotalProfiles status + 1);
             v1alpha1.TotalUploads := time.wrap64 (v1alpha1.TotalUploads status + 1) |} in
      (StatusUpdate latest s).2
  | NotFound | GetFailed _ => s
  end.

(** The body of the loop of [checkPodsThresholds], for one tracked pod. *)
Definition checkPodThresholds (config : v1alpha1.ProfilingConfig) (s : State)
    (tracked : TrackedPod) : Call unit :=
  let pod := Pod tracked in
  let thresholds := v1alpha1.Thresholds (v1alpha1.Spec config) in
  if negb (CanProfile (podWatcher s) pod (v1alpha1.CooldownSeconds thresholds) (now s))
  then Returned tt s
  else
    match getPodMetricses (corev1.Namespace pod) (corev1.Name pod) (now s) with
    | Err _ => Returned tt s
    | Ok podMetrics =>
        match metrics.calculateMetrics pod podMetrics with
        | Err _ => Returned tt s
        | Ok podMetrics =>
            let '(exceeded, reason) :=
              metrics.CheckThresholds fmt_f2 podMetrics
                (v1alpha1.CPUThresholdPercent thresholds)
                (v1alpha1.MemoryThresholdPercent thresholds) in
            if exceeded : bool then
              match captureAndUpload pod config reason s with
              | Blocked s => Blocked s
              | Returned (Err _) s => Returned tt s
              | Returned (Ok _) s =>
                  let s :=
                    setPodWatcher (UpdateLastProfileTime (podWatcher s) pod (now s)) s in
                  Returned tt (updateProfileStats config s)
              end
            else Returned tt s
        end
    end.

(** [checkPodsThresholds] *)
Definition checkPodsThresholds (config : v1alpha1.ProfilingConfig) (s : State)
    : Call unit :=
  let trackedPods := GetTrackedPods (podWatcher s) in
  forEach (checkPodThresholds config) trackedPods s.

(** The body of the loop of the ticker case of [monitorOnDemand], for one
    tracked pod. *)
Definition profileOnDemand (config : v1alpha1.ProfilingConfig) (s : State)
    (tracked : TrackedPod) : Call unit :=
  match captureAndUpload (Pod tracked) config "on-demand" s with
  | Blocked s => Blocked s
  | Returned (Err _) s => Returned tt s
  | Returned (Ok _) s => Returned tt (updateProfileStats config s)
  end.

(** The ticker case of [monitorOnDemand]. *)
Definition onDemandTick (config : v1alpha1.ProfilingConfig) (s : State) : Call unit :=
  let trackedPods := GetTrackedPods (podWatcher s) in
  forEach (profileOnDemand config) trackedPods s.

Definition atTime (t : time.Time) (s : State) : State :=
  setNet {| profiler.clock := t; profiler.requests := profiler.requests (net s) |} s.

(** The select loop of [monitorThresholds], over the events it receives:
    stopped by the cancellation of its context, still waiting when the
    events run out, or waiting for ever inside a check that does not
    return. *)
Fixpoint thresholdLoop (config : v1alpha1.ProfilingConfig) (events : list Event)
    (s : State) : Exit :=
  match events with
  | [] => Waiting s
  | Done :: _ => Stopped s
  | Tick t :: events =>
      match checkPodsThresholds config (atTime t s) with
      | Returned _ s => thresholdLoop config events s
      | Blocked s => Hung s
      end
  end.

(** [monitorThresholds]; [time.NewTicker] panics on an interval that is not
    positive. *)
Definition monitorThresholds (config : v1alpha1.ProfilingConfig) (events : list Event)
    (s : State) : Exit :=
  let checkInterval :=
    time.Seconds (v1alpha1.CheckIntervalSeconds
                    (v1alpha1.Thresholds (v1alpha1.Spec config))) in
  if checkInterval <=? 0 then Panicked "non-positive interval for NewTicker" s
  else thresholdLoop config events s.

(** The select loop of [monitorOnDemand]. *)
Fixpoint onDemandLoop (config : v1alpha1.ProfilingConfig) (events : list Event)
    (s : State) : Exit :=
  match events with
  | [] => Waiting s
  | Done :: _ => Stopped s
  | Tick t :: events =>
      match onDemandTick config (atTime t s) with
      | Returned _ s => onDemandLoop config events s
      | Blocked s => Hung s
      end
  end.

(** [monitorOnDemand]; it reads the interval through the [OnDemand] pointer
    ([startMonitoring] starts it only when that pointer is set). *)
Definition monitorOnDemand (config : v1alpha1.ProfilingConfig) (events : list Event)
    (s : State) : Exit :=
  match v1alpha1.OnDemand (v1alpha1.Spec config) with
  | None =>
      Panicked "runtime error: invalid memory address or nil pointer dereference" s
  | Some onDemand =>
      let interval := time.Seconds (v1alpha1.IntervalSeconds onDemand) in
      if interval <=? 0 then Panicked "non-positive interval for NewTicker" s
      else onDemandLoop config events s
  end.
End Reconciler.

End controller.

(* ===================================================================== *)
(** * Vocabulary of the properties *)
(* ===================================================================== *)

(** ** Profile acquirer *)

(** What a returned profile has to do with the request that produced it. *)
Definition captured_by (localPort : Z) (p : profiler.Profile) (e : profiler.Exchange)
    : Prop :=
  profiler.url e = "http://localhost:" +:+ pretty localPort
                     +:+ profiler.getProfileEndpoint (profiler.Type_ p)
  /\ profiler.reply e = profiler.Response profiler.StatusOK (Ok (profiler.Data p))
  /\ profiler.Timestamp p = profiler.finished e.

Definition refused (e : profiler.Exchange) : Prop :=
  exists status body,
    profiler.reply e = profiler.Response status body /\ status <> profiler.StatusOK.

(** ** Service names *)

Definition dashAt (name : string) (i : nat) : Prop :=
  String.get i name = Some "-"%char.

(** The last dash of [name] is at index [i]. *)
Definition lastDashAt (name : string) (i : nat) : Prop :=
  dashAt name i /\ forall j, (i < j)%nat -> ~ dashAt name j.

(** The last dash but one of [name] is at index [i]. *)
Definition secondLastDashAt (name : string) (i : nat) : Prop :=
  exists j, (i < j)%nat /\ dashAt name i /\ lastDashAt name j
            /\ forall m, (i < m < j)%nat -> ~ dashAt name m.

Definition fewerThanTwoDashes (name : string) : Prop :=
  forall i j, dashAt name i -> dashAt name j -> i = j.

(** A label that is absent or empty is passed over. *)
Definition noLabel (pod : corev1.Pod) (k : string) : Prop :=
  corev1.Labels pod !! k = None \/ corev1.Labels pod !! k = Some "".

(** The derivation as the specification words it: the candidate values in
    order, of which the first non-empty one is the service name. *)
Definition stripLastSegments (n : nat) (name : string) : string :=
  let segments := filepath.splitOn "-" name in
  String.concat "-" (take (length segments - n) segments).

Definition labelValue (pod : corev1.Pod) (k : string) : string :=
  default "" (corev1.Labels pod !! k).

Definition serviceNameCandidates (pod : corev1.Pod) : list string :=
  [ labelValue pod "app.kubernetes.io/name";
    labelValue pod "app";
    labelValue pod "k8s-app";
    match corev1.OwnerReferences pod with
    | owner :: _ =>
        if String.eqb (corev1.Kind owner) "ReplicaSet"
        then stripLastSegments 1 (corev1.OwnerName owner)
        else corev1.OwnerName owner
    | [] => ""
    end;
    stripLastSegments 2 (corev1.Name pod) ].

Definition firstNonEmpty (values : list string) : option string :=
  head (filter (fun v => v <> "") values).

(** ** Object keys *)

(** A path element that [filepath.Clean] keeps as it is. *)
Definition plainElement (e : string) : Prop :=
  e <> "" /\ e <> "." /\ e <> "..".

(** A part of a key that is either absent or a relative path of plain
    elements: no leading, trailing or doubled slash, no [.] and no [..]. *)
Definition cleanPart (part : string) : Prop :=
  part = "" \/ Forall plainElement (filepath.elements part).

Fixpoint noSlash (s : string) : bool :=
  match s with
  | EmptyString => true
  | String c s' => negb (Ascii.eqb c "/") && noSlash s'
  end.

(** The key layout as the specification words it: the parts joined with
    slashes, empty parts left out. *)
Definition joinNonEmpty (parts : list string) : string :=
  String.concat "/" (filter (fun part => part <> "") parts).

Definition partElements (part : string) : list string :=
  if String.eqb part "" then [] else filepath.elements part.

(** ** Reconciler *)

(** A step of the program that neither reads nor writes the pod watcher:
    it does the same whatever pod watcher the state holds, and hands it
    back untouched. *)
Definition ignoresPodWatcher (f : controller.State -> controller.State) : Prop :=
  forall pw s, f (controller.setPodWatcher pw s) = controller.setPodWatcher pw (f s).

Definition ignoresPodWatcherR {A} (f : controller.State -> result A * controller.State)
    : Prop :=
  forall pw s, f (controller.setPodWatcher pw s) = ((f s).1, controller.setPodWatcher pw (f s).2).

(** The state a call leaves behind, whether it returns or not. *)
Definition stateOf {A} (c : controller.Call A) : controller.State :=
  match c with
  | controller.Returned _ s | controller.Blocked s => s
  end.

Definition returns {A} (c : controller.Call A) : bool :=
  match c with
  | controller.Returned _ _ => true
  | controller.Blocked _ => false
  end.

(** The call returned without error. *)
Definition succeeds {A} (c : controller.Call (result A)) : bool :=
  match c with
  | controller.Returned (Ok _) _ => true
  | _ => false
  end.

(** The capture returned profiles. *)
Definition acquired {A B} (o : option (result A * B)) : bool :=
  match o with
  | Some (r, _) => is_ok r
  | None => false
  end.

(** The same outcome, in another state. *)
Definition inState {A} (f : controller.State -> controller.State)
    (c : controller.Call A) : controller.Call A :=
  match c with
  | controller.Returned a s => controller.Returned a (f s)
  | controller.Blocked s => controller.Blocked (f s)
  end.

(** Capture-and-publish sequences run for one tracked pod after the other:
    each is followed by the update of the counters when it succeeds, the
    next pod is taken up when it returns, and nothing more happens when it
    does not. *)
Inductive sequences
    (sequence : corev1.Pod -> controller.State -> controller.Call (result unit))
    (counted : controller.State -> controller.State)
  : list controller.TrackedPod -> controller.State -> controller.Call unit -> Prop :=
| sequences_none s :
    sequences sequence counted [] s (controller.Returned tt s)
| sequences_published tracked rest s s1 out :
    sequence (controller.Pod tracked) s = controller.Returned (Ok tt) s1 ->
    sequences sequence counted rest (counted s1) out ->
    sequences sequence counted (tracked :: rest) s out
| sequences_failed tracked rest s msg s1 out :
    sequence (controller.Pod tracked) s = controller.Returned (Err msg) s1 ->
    sequences sequence counted rest s1 out ->
    sequences sequence counted (tracked :: rest) s out
| sequences_blocked tracked rest s s1 :
    sequence (controller.Pod tracked) s = controller.Blocked s1 ->
    sequences sequence counted (tracked :: rest) s (controller.Blocked s1).

(** The same for a call that may wait for ever. *)
Definition ignoresPodWatcherC {A} (f : controller.State -> controller.Call A) : Prop :=
  forall pw s,
    f (controller.setPodWatcher pw s) = inState (controller.setPodWatcher pw) (f s).

Definition onDemandEnabled (config : v1alpha1.ProfilingConfig) : bool :=
  match v1alpha1.OnDemand (v1alpha1.Spec config) with
  | Some onDemand => v1alpha1.Enabled onDemand
  | None => false
  end.

(** The monitors started between two states. *)
Definition startedBetween (s s' : controller.State) : list controller.Monitor :=
  drop (length (controller.goroutines s)) (controller.goroutines s').

(** The state a monitor goroutine left behind. *)
Definition exitState (e : controller.Exit) : controller.State :=
  match e with
  | controller.Stopped s | controller.Waiting s | controller.Panicked _ s
  | controller.Hung s => s
  end.

Definition hung (e : controller.Exit) : bool :=
  match e with
  | controller.Hung _ => true
  | _ => false
  end.

(** ** Scenarios *)

(** The literal scenarios of the specification, as environments to run the
    program in. *)
Module scenario.

Definition at_ (seconds : Z) : time.Time := time.mkTime (seconds * 1000000000) 0.

(** 2024-01-15 12:30:45 UTC. *)
Definition t0 : Z := 1705321845.

Definition later (seconds : Z) (t : time.Time) : time.Time :=
  time.mkTime (time.unixNano t + seconds * 1000000000) (time.zoneOffset t).

(** A running, opted-in pod of a Deployment, requesting one core and
    512Mi. *)
Definition webPod : corev1.Pod :=
  {| corev1.Name := "web-app-7d8f9c5b6d-xyz456";
     corev1.Namespace := "default";
     corev1.Labels := {[ "app" := "svc" ]};
     corev1.Annotations := {[ "bolometer.io/enabled" := "true" ]};
     corev1.OwnerReferences := [corev1.mkOwnerReference "ReplicaSet" "web-app-7d8f9c5b6d"];
     corev1.Containers :=
       [corev1.mkContainer "app"
          (<["cpu" := 1000000000]> (<["memory" := 536870912000000000]> ∅))];
     corev1.Phase := "Running" |}.

Definition webPodKey : string := "default/web-app-7d8f9c5b6d-xyz456".

(** Thresholds 30/30, sampling every 10 s, cooldown 60 s, heap profiles. *)
Definition intent (bucket region : string) : v1alpha1.ProfilingConfig :=
  {| v1alpha1.Name := "cfg";
     v1alpha1.Namespace := "default";
     v1alpha1.Spec :=
       {| v1alpha1.Selector := v1alpha1.mkPodSelector "" {[ "app" := "svc" ]};
          v1alpha1.Thresholds := v1alpha1.mkThresholdConfig 30 30 10 60;
          v1alpha1.OnDemand := None;
          v1alpha1.S3Config := v1alpha1.mkS3Configuration bucket "profiles" region "";
          v1alpha1.ProfileTypes := ["heap"] |};
     v1alpha1.Status := v1alpha1.mkProfilingConfigStatus 0 None 0 0 |}.

(** A target that serves its heap profile in a second and refuses the CPU
    profile after thirty. *)
Definition target (url : string) (t : time.Time) : profiler.HttpReply * time.Time :=
  if String.eqb url "http://localhost:40001/debug/pprof/heap"
  then (profiler.Response 200 (Ok [Byte.x70; Byte.x62]), later 1 t)
  else if String.eqb url "http://localhost:40001/debug/pprof/profile?seconds=30"
  then (profiler.Response 503 (Ok []), later 30 t)
  else (profiler.Response 404 (Ok []), t).

Definition tunnel (pod : corev1.Pod) (port : Z) (t : time.Time)
    : option (result Z * time.Time) :=
  Some (Ok 40001, t).

Definition ready (t : time.Time) : profiler.WaitOutcome * time.Time := (profiler.Ready, t).

Definition cluster (namespace : string) (selector : gmap string string) (t : time.Time)
    : result (list corev1.Pod) :=
  Ok [webPod].

Definition clusterDown (namespace : string) (selector : gmap string string)
    (t : time.Time) : result (list corev1.Pod) :=
  Err "pods is forbidden".

(** The pod at 850m of CPU (85%) and 51Mi of memory (10%). *)
Definition busy (namespace name : string) (t : time.Time) : result v1beta1.PodMetrics :=
  Ok (v1beta1.mkPodMetrics
        [v1beta1.mkContainerMetrics
           (<["cpu" := 850000000]> (<["memory" := 53477376000000000]> ∅))]).

Definition noError (key : string) (t : time.Time) : option string := None.
Definition awsReady (t : time.Time) : option string := None.
Definition store (input : uploader.PutObjectInput) (t : time.Time) : result unit := Ok tt.
Definition fmt_f2 (x : float) : string := "85.00".

Definition initial (config : v1alpha1.ProfilingConfig) : controller.State :=
  {| controller.podWatcher := controller.NewPodWatcher;
     controller.activeMonitors := ∅;
     controller.configs := {[ "default/cfg" := config ]};
     controller.goroutines := [];
     controller.cancelled := [];
     controller.nextContext := 0;
     controller.net := {| profiler.clock := at_ t0; profiler.requests := [] |};
     controller.puts := [];
     controller.captures := [] |}.

Definition reconcile (s : controller.State) : controller.State :=
  (controller.Reconcile cluster noError noError "default" "cfg" s).2.

Definition thresholdTick (seconds : Z) (s : controller.State) : controller.State :=
  stateOf
    (controller.checkPodsThresholds fmt_f2 target tunnel ready busy noError noError
       awsReady store (intent "b" "us-west-2") (controller.atTime (at_ (t0 + seconds)) s)).

(** A second replica, opted in and running when it is listed, gone by the
    time the monitors run. *)
Definition gonePod : corev1.Pod :=
  {| corev1.Name := "web-app-7d8f9c5b6d-abc12";
     corev1.Namespace := "default";
     corev1.Labels := {[ "app" := "svc" ]};
     corev1.Annotations := {[ "bolometer.io/enabled" := "true" ]};
     corev1.OwnerReferences := [];
     corev1.Containers := [];
     corev1.Phase := "Running" |}.

Definition gonePodKey : string := "default/web-app-7d8f9c5b6d-abc12".

Definition clusterOfTwo (namespace : string) (selector : gmap string string)
    (t : time.Time) : result (list corev1.Pod) :=
  Ok [gonePod; webPod].

(** The intent with on-demand profiling every 35 s. *)
Definition onDemandIntent : v1alpha1.ProfilingConfig :=
  {| v1alpha1.Name := "cfg";
     v1alpha1.Namespace := "default";
     v1alpha1.Spec :=
       {| v1alpha1.Selector := v1alpha1.mkPodSelector "" {[ "app" := "svc" ]};
          v1alpha1.Thresholds := v1alpha1.mkThresholdConfig 30 30 10 60;
          v1alpha1.OnDemand := Some (v1alpha1.mkOnDemandConfig true 35);
          v1alpha1.S3Config := v1alpha1.mkS3Configuration "b" "profiles" "us-west-2" "";
          v1alpha1.ProfileTypes := ["heap"] |};
     v1alpha1.Status := v1alpha1.mkProfilingConfigStatus 0 None 0 0 |}.

(** A tunnel that comes up for every pod but the one that is gone: for that
    one [ForwardPorts] fails, and the set-up never returns. *)
Definition tunnelToLive (pod : corev1.Pod) (port : Z) (t : time.Time)
    : option (result Z * time.Time) :=
  if String.eqb (corev1.Name pod) "web-app-7d8f9c5b6d-abc12" then None
  else Some (Ok 40001, t).

End scenario.

(** ** Requests of a capture *)

(** A request that was answered 200 with a body that could be read. *)
Definition succeeded (e : profiler.Exchange) : Prop :=
  exists data, profiler.reply e = profiler.Response profiler.StatusOK (Ok data).

Definition pprofURL (localPort : Z) (kind : string) : string :=
  "http://localhost:" +:+ pretty localPort +:+ profiler.getProfileEndpoint kind.

(** ** Monitors and the store *)

(** The key under which [startMonitoring] registers the monitors of an
    intent. *)
Definition configKey (config : v1alpha1.ProfilingConfig) : string :=
  v1alpha1.Namespace config +:+ "/" +:+ v1alpha1.Name config.

(** Every object of the API server is stored under its own namespace and
    name. *)
Definition storeNamed (s : controller.State) : Prop :=
  forall key config, controller.configs s !! key = Some config -> configKey config = key.

(** Every monitor goroutine started so far either runs under the context
    registered for its intent or has had its context cancelled. *)
Definition monitorsAccounted (s : controller.State) : Prop :=
  forall m, m ∈ controller.goroutines s ->
    controller.monitorContext m ∈ controller.cancelled s
    \/ controller.activeMonitors s !! configKey (controller.monitorConfig m)
       = Some (controller.monitorContext m).

Definition isTracked (s : controller.State) (key : string) : Prop :=
  is_Some (controller.trackedPods (controller.podWatcher s) !! key).

(** ** Capture and publish *)

(** The kinds a capture asks for: the intent's own, or the four default ones
    when it names none. *)
Definition effectiveKinds (config : v1alpha1.ProfilingConfig) : list string :=
  match v1alpha1.ProfileTypes (v1alpha1.Spec config) with
  | [] => ["heap"; "cpu"; "goroutine"; "mutex"]
  | kinds => kinds
  end.

(** The captures begun between two states. *)
Definition begunBetween (s s' : controller.State) : list controller.Capture :=
  drop (length (controller.captures s)) (controller.captures s').

(** A state with more objects in the store. *)
Definition withPuts (s : controller.State) (new : list uploader.PutObjectInput)
    : controller.State :=
  {| controller.podWatcher := controller.podWatcher s;
     controller.activeMonitors := controller.activeMonitors s;
     controller.configs := controller.configs s;
     controller.goroutines := controller.goroutines s;
     controller.cancelled := controller.cancelled s;
     controller.nextContext := controller.nextContext s;
     controller.net := controller.net s;
     controller.puts := controller.puts s ++ new;
     controller.captures := controller.captures s |}.

(** A tracked pod for which a threshold tick has nothing to do in a state: it
    is within its cooldown, or its metrics cannot be fetched, or its sample is
    at or under both thresholds. *)
Definition quietPod (fmt_f2 : float -> string)
    (getPodMetricses : string -> string -> time.Time -> result v1beta1.PodMetrics)
    (config : v1alpha1.ProfilingConfig) (s : controller.State)
    (tracked : controller.TrackedPod) : Prop :=
  let pod := controller.Pod tracked in
  let thresholds := v1alpha1.Thresholds (v1alpha1.Spec config) in
  controller.CanProfile (controller.podWatcher s) pod
    (v1alpha1.CooldownSeconds thresholds) (controller.now s) = false
  \/ is_ok (getPodMetricses (corev1.Namespace pod) (corev1.Name pod) (controller.now s))
     = false
  \/ exists sample podMetrics,
       getPodMetricses (corev1.Namespace pod) (corev1.Name pod) (controller.now s)
         = Ok sample
       /\ metrics.calculateMetrics pod sample = Ok podMetrics
       /\ (metrics.CheckThresholds fmt_f2 podMetrics
             (v1alpha1.CPUThresholdPercent thresholds)
             (v1alpha1.MemoryThresholdPercent thresholds)).1 = false.

#[global] Instance Time_eq_dec : EqDecision time.Time.
Proof. solve_decision. Defined.

(* ===================================================================== *)
(** * Properties *)
(* ===================================================================== *)

(** ** Utilization sampler *)

Lemma float_ltb_irrefl (x : float) : (x <? x)%float = false.
Proof.
  rewrite ltb_spec. unfold SFltb.
  destruct (Prim2SF x) as [s|s| |s m e]; simpl; try reflexivity.
  - destruct s; reflexivity.
  - destruct s; rewrite Z.compare_refl, ?Pos.compare_refl; try reflexivity.
    all: rewrite ?Pos.compare_cont_refl; reflexivity.
Qed.

(** C4.  For all sampled percentages and integer thresholds, [CheckThresholds]
    reports exceeded iff the CPU percent is strictly above the CPU threshold or
    the memory percent is strictly above the memory threshold; a percentage
    equal to its threshold does not count as exceeding it; and when both
    exceed, the reason is the CPU one. *)
Theorem CheckThresholds_exceeded_iff
    (fmt_f2 : float -> string) (pm : metrics.PodMetrics) (ct mt : Z) :
  let cpu := metrics.CPUUsagePercent pm in
  let mem := metrics.MemoryUsagePercent pm in
  let cpu_over := (metrics.float64_of_int ct <? cpu)%float in
  let mem_over := (metrics.float64_of_int mt <? mem)%float in
  let r := metrics.CheckThresholds fmt_f2 pm ct mt in
  (r.1 = true <-> cpu_over = true \/ mem_over = true)
  /\ (cpu = metrics.float64_of_int ct -> r.1 = mem_over)
  /\ (mem = metrics.float64_of_int mt -> r.1 = cpu_over)
  /\ (cpu_over = true -> mem_over = true ->
      exists rest, r.2 = "CPU usage " +:+ rest).
Proof.
  intros cpu mem cpu_over mem_over r.
  subst r. unfold metrics.CheckThresholds. fold cpu mem. fold cpu_over mem_over.
  repeat split.
  - destruct cpu_over, mem_over; simpl; intros; auto; discriminate.
  - destruct cpu_over, mem_over; simpl; intros [?|?]; congruence.
  - intros Heq. subst cpu_over. rewrite Heq, float_ltb_irrefl.
    destruct mem_over; reflexivity.
  - intros Heq. subst mem_over. rewrite Heq, float_ltb_irrefl.
    destruct cpu_over; reflexivity.
  - intros -> _. simpl. eexists. reflexivity.
Qed.

(** At CPU 80 and memory 90 against thresholds 80 and 90 nothing is exceeded. *)
Lemma CheckThresholds_exceeded_iff_witness :
  (metrics.CheckThresholds (fun _ => "80.00")
     (metrics.mkPodMetrics 80 90 0 0) 80 90).1 = false.
Proof.
  pose proof (CheckThresholds_exceeded_iff (fun _ => "80.00")
                (metrics.mkPodMetrics 80 90 0 0) 80 90) as H.
  cbv zeta in H. destruct H as (_ & Hcpu & _ & _).
  rewrite Hcpu; vm_compute; reflexivity.
Defined.

Lemma fold_addResource_sum (A : Type) (get : A -> gmap string resource.Quantity)
    (name : string) (cs : list A) (acc : resource.Quantity) :
  fold_left (fun total c => metrics.addResource name total (get c)) cs acc
  = acc + foldr Z.add 0 (map (fun c => default 0 (get c !! name)) cs).
Proof.
  revert acc. induction cs as [|c cs IH]; intros acc; simpl.
  - lia.
  - rewrite IH. unfold metrics.addResource, resource.Add.
    destruct (get c !! name); simpl; lia.
Qed.

(** C10.  [calculateMetrics] always returns metrics and no error; when the
    CPU (memory) requests declared by the pod's containers sum to zero, the CPU
    (memory) percent of the result is 0. *)
Theorem calculateMetrics_zero_request
    (pod : corev1.Pod) (podMetrics : v1beta1.PodMetrics) :
  let declared name :=
    foldr Z.add 0
      (map (fun c => default 0 (corev1.Requests c !! name)) (corev1.Containers pod)) in
  exists pm, metrics.calculateMetrics pod podMetrics = Ok pm
    /\ (declared corev1.ResourceCPU = 0 -> metrics.CPUUsagePercent pm = 0%float)
    /\ (declared corev1.ResourceMemory = 0 -> metrics.MemoryUsagePercent pm = 0%float).
Proof.
  intros declared. eexists. split; [reflexivity|]. simpl.
  unfold metrics.totalRequest. rewrite !fold_addResource_sum.
  fold (declared corev1.ResourceCPU) (declared corev1.ResourceMemory).
  split; intros ->; reflexivity.
Qed.

(** A pod whose only container declares no requests, using 500m CPU and
    256Mi of memory: both percentages are 0. *)
Lemma calculateMetrics_zero_request_witness :
  exists pm,
    metrics.calculateMetrics
      (corev1.mkPod "web-0" "default" ∅ ∅ [] [corev1.mkContainer "app" ∅] "Running")
      (v1beta1.mkPodMetrics
         [v1beta1.mkContainerMetrics
            (<["cpu" := 500000000]> (<["memory" := 268435456000000000]> ∅))])
    = Ok pm
    /\ metrics.CPUUsagePercent pm = 0%float
    /\ metrics.MemoryUsagePercent pm = 0%float.
Proof.
  destruct (calculateMetrics_zero_request
      (corev1.mkPod "web-0" "default" ∅ ∅ [] [corev1.mkContainer "app" ∅] "Running")
      (v1beta1.mkPodMetrics
         [v1beta1.mkContainerMetrics
            (<["cpu" := 500000000]> (<["memory" := 268435456000000000]> ∅))]))
    as (pm & Hok & Hcpu & Hmem).
  exists pm. split; [exact Hok|]. split; [apply Hcpu | apply Hmem]; reflexivity.
Defined.

(** ** Profile acquirer *)

(** C9 (as amended).  The endpoint table is fixed: heap, cpu, goroutine,
    mutex and block map to their pprof paths, the kind spelled [threadcreate]
    maps to [/debug/pprof/threadcreate], and every other kind [k], the
    hyphenated [thread-create] included, maps to [/debug/pprof/k]. *)
Theorem getProfileEndpoint_table :
  profiler.getProfileEndpoint "heap" = "/debug/pprof/heap"
  /\ profiler.getProfileEndpoint "cpu" = "/debug/pprof/profile?seconds=30"
  /\ profiler.getProfileEndpoint "goroutine" = "/debug/pprof/goroutine"
  /\ profiler.getProfileEndpoint "mutex" = "/debug/pprof/mutex"
  /\ profiler.getProfileEndpoint "block" = "/debug/pprof/block"
  /\ profiler.getProfileEndpoint "threadcreate" = "/debug/pprof/threadcreate"
  /\ forall k : string,
       k ∉ ["heap"; "cpu"; "goroutine"; "mutex"; "block"; "threadcreate"] ->
       profiler.getProfileEndpoint k = "/debug/pprof/" +:+ k.
Proof.
  repeat (split; [reflexivity|]).
  intros k Hk. unfold profiler.getProfileEndpoint.
  repeat match goal with
         | |- context [String.eqb k ?s] =>
             destruct (String.eqb_spec k s) as [->|_];
             [exfalso; apply Hk; set_solver|]
         end.
  reflexivity.
Qed.

Lemma getProfileEndpoint_table_witness :
  profiler.getProfileEndpoint "thread-create" = "/debug/pprof/thread-create".
Proof.
  apply (proj2 (proj2 (proj2 (proj2 (proj2 (proj2 getProfileEndpoint_table)))))).
  intros H. repeat (apply elem_of_cons in H as [H|H]; [discriminate H|]).
  inversion H.
Defined.

(** The claim as written fails: the hyphenated kind falls to the default
    branch. *)
Lemma getProfileEndpoint_thread_create_counterexample :
  profiler.getProfileEndpoint "thread-create" <> "/debug/pprof/threadcreate".
Proof. vm_compute. discriminate. Qed.

Section CaptureFacts.
Variable http_get : string -> time.Time -> profiler.HttpReply * time.Time.
Variable setupPortForward :
  corev1.Pod -> Z -> time.Time -> option (result Z * time.Time).
Variable waitReady : time.Time -> profiler.WaitOutcome * time.Time.

Lemma captureProfile_inv localPort kind w r w' :
  profiler.captureProfile http_get localPort kind w = (r, w') ->
  exists e,
    profiler.requests w' = (profiler.requests w ++ [e])%list
    /\ (refused e -> exists msg, r = Err msg)
    /\ (forall p, r = Ok p -> profiler.Type_ p = kind /\ captured_by localPort p e).
Proof.
  unfold profiler.captureProfile.
  destruct (http_get _ _) as [rep t] eqn:Hget.
  destruct rep as [msg|status body].
  - intros [= <- <-]. eexists. split; [reflexivity|].
    split; [eauto|]. intros p [=].
  - destruct (status =? profiler.StatusOK) eqn:Hst; simpl.
    + apply Z.eqb_eq in Hst. subst status.
      destruct body as [data|msg]; intros [= <- <-];
        (eexists; split; [reflexivity|]); split.
      * intros (st & b & Hrep & Hne). simpl in Hrep.
        injection Hrep as <- _. contradiction.
      * intros p [= <-]. split; [reflexivity|]. repeat split.
      * eauto.
      * intros p [=].
    + intros [= <- <-]. eexists. split; [reflexivity|].
      split; [eauto|]. intros p [=].
Qed.

Lemma captureEach_inv localPort kinds : forall acc w r w',
  profiler.captureEach http_get localPort kinds acc w = (r, w') ->
  exists made,
    profiler.requests w' = (profiler.requests w ++ made)%list
    /\ (Exists refused made -> exists msg, r = Err msg)
    /\ (forall profiles, r = Ok profiles ->
          exists new, profiles = (acc ++ new)%list
            /\ map profiler.Type_ new = kinds
            /\ Forall2 (captured_by localPort) new made).
Proof.
  induction kinds as [|kind kinds IH]; intros acc w r w'; simpl.
  - intros [= <- <-]. exists []. rewrite app_nil_r. split; [reflexivity|].
    split.
    + intros H. inversion H.
    + intros profiles [= <-]. exists []. rewrite app_nil_r. repeat split. constructor.
  - destruct (profiler.captureProfile _ _ _ _) as [r1 w1] eqn:H1.
    apply captureProfile_inv in H1 as (e & Hreq & Hbad & Hgood).
    destruct r1 as [p|msg].
    + intros Hrest. apply IH in Hrest as (made & Hreq' & Hbad' & Hgood').
      exists (e :: made). split.
      { rewrite Hreq', Hreq, <- app_assoc. reflexivity. }
      split.
      * intros Hex. apply Exists_cons in Hex as [He|Hex]; [|auto].
        destruct (Hbad He) as [m [=]].
      * intros profiles Hr. destruct (Hgood' _ Hr) as (new & -> & Hty & Hall).
        destruct (Hgood p eq_refl) as [Hk Hcap].
        exists (p :: new). rewrite <- app_assoc. split; [reflexivity|].
        split; [simpl; congruence|]. constructor; assumption.
    + intros [= <- <-]. exists [e]. split; [assumption|].
      split; [eauto|]. intros profiles [=].
Qed.
End CaptureFacts.


(** ** Object-store publisher: service names *)

Lemma isDash_true name i : uploader.isDash name i = true <-> dashAt name i.
Proof.
  unfold uploader.isDash, dashAt. destruct (String.get i name) as [c|].
  - destruct (Ascii.eqb_spec c "-"%char) as [->|Hne]; split; intros H; try done.
    congruence.
  - split; intros H; discriminate H.
Qed.

Lemma isDash_false name i : uploader.isDash name i = false <-> ~ dashAt name i.
Proof.
  rewrite <- isDash_true. destruct (uploader.isDash name i); split; intros H;
    try done; try discriminate H.
Qed.

Lemma get_beyond_length name i : (String.length name <= i)%nat -> String.get i name = None.
Proof.
  revert i. induction name as [|c name IH]; intros i Hi; [done|].
  destruct i as [|i]; simpl in *; [lia|]. apply IH. lia.
Qed.

Lemma dashAt_lt_length name i : dashAt name i -> (i < String.length name)%nat.
Proof.
  intros H. destruct (Nat.lt_ge_cases i (String.length name)) as [?|Hge]; [done|].
  unfold dashAt in H. by rewrite get_beyond_length in H.
Qed.

Lemma lastDashBelow_none name n initial :
  (forall m, (m < n)%nat -> ~ dashAt name m) ->
  uploader.lastDashBelow name n initial = initial.
Proof.
  induction n as [|n IH]; intros Hno; simpl; [done|].
  replace (uploader.isDash name n) with false
    by (symmetry; apply isDash_false, Hno; lia).
  apply IH. intros m Hm. apply Hno. lia.
Qed.

Lemma lastDashBelow_found name n initial i :
  (i < n)%nat -> dashAt name i ->
  (forall j, (i < j < n)%nat -> ~ dashAt name j) ->
  uploader.lastDashBelow name n initial = Z.of_nat i.
Proof.
  induction n as [|n IH]; intros Hi Hd Hno; [lia|]. simpl.
  destruct (decide (i = n)) as [->|Hne].
  - by replace (uploader.isDash name n) with true by (symmetry; by apply isDash_true).
  - replace (uploader.isDash name n) with false
      by (symmetry; apply isDash_false, Hno; lia).
    apply IH; [lia|done|]. intros j Hj. apply Hno. lia.
Qed.

Lemma secondLastDashBelow_none name n dashCount initial :
  (forall m, (m < n)%nat -> ~ dashAt name m) ->
  uploader.secondLastDashBelow name n dashCount initial = initial.
Proof.
  induction n as [|n IH]; intros Hno; simpl; [done|].
  replace (uploader.isDash name n) with false
    by (symmetry; apply isDash_false, Hno; lia).
  apply IH. intros m Hm. apply Hno. lia.
Qed.

Lemma secondLastDashBelow_counted name n initial i :
  (i < n)%nat -> dashAt name i ->
  (forall j, (i < j < n)%nat -> ~ dashAt name j) ->
  uploader.secondLastDashBelow name n 1 initial = Z.of_nat i.
Proof.
  induction n as [|n IH]; intros Hi Hd Hno; [lia|]. simpl.
  destruct (decide (i = n)) as [->|Hne].
  - by replace (uploader.isDash name n) with true by (symmetry; by apply isDash_true).
  - replace (uploader.isDash name n) with false
      by (symmetry; apply isDash_false, Hno; lia).
    apply IH; [lia|done|]. intros j Hj. apply Hno. lia.
Qed.

Lemma secondLastDashBelow_found name n initial i j :
  (i < j < n)%nat -> dashAt name i -> dashAt name j ->
  (forall m, (i < m < n)%nat -> m <> j -> ~ dashAt name m) ->
  uploader.secondLastDashBelow name n 0 initial = Z.of_nat i.
Proof.
  induction n as [|n IH]; intros Hij Hi Hj Hno; [lia|]. simpl.
  destruct (decide (j = n)) as [->|Hne].
  - replace (uploader.isDash name n) with true by (symmetry; by apply isDash_true).
    simpl. apply secondLastDashBelow_counted; [lia|done|].
    intros m Hm. apply Hno; lia.
  - replace (uploader.isDash name n) with false
      by (symmetry; apply isDash_false, Hno; lia).
    apply IH; [lia|done|done|]. intros m Hm. apply Hno. lia.
Qed.

Lemma secondLastDashBelow_few name n initial :
  fewerThanTwoDashes name ->
  uploader.secondLastDashBelow name n 0 initial = initial.
Proof.
  intros Hfew. induction n as [|n IH]; simpl; [done|].
  destruct (uploader.isDash name n) eqn:Hd; [|done].
  simpl. apply isDash_true in Hd. apply secondLastDashBelow_none.
  intros m Hm Hdm. specialize (Hfew _ _ Hd Hdm). lia.
Qed.

Lemma nonEmptyLabel_Some (labels : gmap string string) k v :
  labels !! k = Some v -> v <> "" -> uploader.nonEmptyLabel labels k = Some v.
Proof.
  intros Hk Hv. unfold uploader.nonEmptyLabel. rewrite Hk.
  by destruct (String.eqb_spec v "").
Qed.

Lemma nonEmptyLabel_None pod k :
  noLabel pod k -> uploader.nonEmptyLabel (corev1.Labels pod) k = None.
Proof. unfold uploader.nonEmptyLabel. by intros [-> | ->]. Qed.

(** C5 (as amended).  The service name depends on the labels, the owner
    references and the name of the pod only, and is: the value of the first of
    the labels [app.kubernetes.io/name], [app], [k8s-app] that is present and not
    empty; else, when the pod has an owner, the name of the first owner: as it
    is (empty or not) when the owner is not a ReplicaSet, and, for a ReplicaSet
    whose name contains a dash, cut before its last dash, or as it is when
    that dash is its first character; else the pod name cut before its last
    dash but one when there is one and it is not the first character, and the
    whole pod name when that dash is the first character or the name has
    fewer than two dashes.  A ReplicaSet owner whose name contains no dash is
    not covered here.  The three literal cases of the specification follow. *)
Theorem getServiceName_derivation :
  (forall pod : corev1.Pod,
     let name := uploader.getServiceName pod in
     (forall v, corev1.Labels pod !! "app.kubernetes.io/name" = Some v -> v <> "" ->
        name = v)
     /\ (noLabel pod "app.kubernetes.io/name" ->
         forall v, corev1.Labels pod !! "app" = Some v -> v <> "" -> name = v)
     /\ (noLabel pod "app.kubernetes.io/name" -> noLabel pod "app" ->
         forall v, corev1.Labels pod !! "k8s-app" = Some v -> v <> "" -> name = v)
     /\ (noLabel pod "app.kubernetes.io/name" -> noLabel pod "app" ->
         noLabel pod "k8s-app" ->
         (forall owner others, corev1.OwnerReferences pod = owner :: others ->
            (corev1.Kind owner <> "ReplicaSet" -> name = corev1.OwnerName owner)
            /\ (corev1.Kind owner = "ReplicaSet" ->
                forall i, lastDashAt (corev1.OwnerName owner) i ->
                  (i = 0%nat -> name = corev1.OwnerName owner)
                  /\ ((0 < i)%nat ->
                      name = String.substring 0 i (corev1.OwnerName owner))))
         /\ (corev1.OwnerReferences pod = [] ->
             (forall i, secondLastDashAt (corev1.Name pod) i ->
                (i = 0%nat -> name = corev1.Name pod)
                /\ ((0 < i)%nat -> name = String.substring 0 i (corev1.Name pod)))
             /\ (fewerThanTwoDashes (corev1.Name pod) -> name = corev1.Name pod))))
  /\ (forall p q : corev1.Pod,
        corev1.Labels p = corev1.Labels q ->
        corev1.OwnerReferences p = corev1.OwnerReferences q ->
        corev1.Name p = corev1.Name q ->
        uploader.getServiceName p = uploader.getServiceName q)
  /\ (let owners := [corev1.mkOwnerReference "ReplicaSet" "web-app-7d8f9c5b6d"] in
      let pod labels :=
        corev1.mkPod "web-app-7d8f9c5b6d-xyz456" "default" labels ∅ owners [] "Running" in
      uploader.getServiceName
        (pod (<["app.kubernetes.io/name" := "my-service"]> (<["app" := "other"]> ∅)))
        = "my-service"
      /\ uploader.getServiceName (pod (<["app" := "other"]> ∅)) = "other"
      /\ uploader.getServiceName (pod ∅) = "web-app").
Proof.
  split; [|split].
  - intros pod name. subst name. unfold uploader.getServiceName.
    split; [|split; [|split]].
    + intros v Hv Hne. by rewrite (nonEmptyLabel_Some _ _ _ Hv Hne).
    + intros H1 v Hv Hne.
      by rewrite (nonEmptyLabel_None _ _ H1), (nonEmptyLabel_Some _ _ _ Hv Hne).
    + intros H1 H2 v Hv Hne.
      by rewrite (nonEmptyLabel_None _ _ H1), (nonEmptyLabel_None _ _ H2),
                 (nonEmptyLabel_Some _ _ _ Hv Hne).
    + intros H1 H2 H3.
      rewrite (nonEmptyLabel_None _ _ H1), (nonEmptyLabel_None _ _ H2),
              (nonEmptyLabel_None _ _ H3).
      split.
      * intros owner others ->. split.
        -- intros Hkind. by destruct (String.eqb_spec (corev1.Kind owner) "ReplicaSet").
        -- intros -> i [Hd Hlast]. simpl.
           rewrite (lastDashBelow_found _ _ _ i);
             [|by apply dashAt_lt_length|done|intros j Hj; apply Hlast; lia].
           split.
           ++ by intros ->.
           ++ intros Hpos. unfold uploader.upTo. rewrite Nat2Z.id.
              by replace (0 <? Z.of_nat i) with true by (symmetry; apply Z.ltb_lt; lia).
      * intros ->. split.
        -- intros i (j & Hij & Hdi & [Hdj Hlast] & Hbetween).
           rewrite (secondLastDashBelow_found _ _ _ i j);
             [|split; [done|by apply dashAt_lt_length]|done|done|].
           2:{ intros m Hm Hmj. destruct (decide (m < j)%nat).
               - apply Hbetween. lia.
               - apply Hlast. lia. }
           split.
           ++ by intros ->.
           ++ intros Hpos. unfold uploader.upTo. rewrite Nat2Z.id.
              by replace (0 <? Z.of_nat i) with true by (symmetry; apply Z.ltb_lt; lia).
        -- intros Hfew. by rewrite secondLastDashBelow_few.
  - intros p q HL HO HN. unfold uploader.getServiceName. by rewrite HL, HO, HN.
  - vm_compute. done.
Qed.

(** The ReplicaSet [web-app-7d8f9c5b6d] has its last dash at index 7. *)
Lemma getServiceName_derivation_witness :
  uploader.getServiceName
    (corev1.mkPod "web-app-7d8f9c5b6d-xyz456" "default" ∅ ∅
       [corev1.mkOwnerReference "ReplicaSet" "web-app-7d8f9c5b6d"] [] "Running")
  = "web-app".
Proof.
  pose proof (proj1 getServiceName_derivation
    (corev1.mkPod "web-app-7d8f9c5b6d-xyz456" "default" ∅ ∅
       [corev1.mkOwnerReference "ReplicaSet" "web-app-7d8f9c5b6d"] [] "Running")) as H.
  cbv zeta in H. destruct H as (_ & _ & _ & H).
  destruct H as [H _]; [by left | by left | by left |].
  destruct (H _ _ eq_refl) as [_ Hrs].
  destruct (Hrs eq_refl 7%nat) as [_ Hcut].
  - split; [reflexivity|]. intros j Hj Hd.
    pose proof (dashAt_lt_length _ _ Hd) as Hlen. simpl in Hlen.
    do 18 (destruct j as [|j]; [first [lia | discriminate Hd]|]). lia.
  - rewrite Hcut; [reflexivity | lia].
Defined.

(** The claim as written fails: a pod name with a single dash is kept whole,
    which is none of the listed values. *)
Lemma getServiceName_counterexample :
  let pod := corev1.mkPod "simple-pod" "default" ∅ ∅ [] [] "Running" in
  uploader.getServiceName pod = "simple-pod"
  /\ stripLastSegments 2 (corev1.Name pod) = ""
  /\ firstNonEmpty (serviceNameCandidates pod) <> Some (uploader.getServiceName pod).
Proof. vm_compute. repeat split. discriminate. Qed.

(** ** Object-store publisher: keys and metadata *)

Lemma splitOn_not_nil sep s : filepath.splitOn sep s <> [].
Proof.
  destruct s as [|c s]; simpl; [done|].
  destruct (Ascii.eqb c sep); [done|]. by destruct (filepath.splitOn sep s).
Qed.

Lemma splitOn_app sep a b :
  filepath.splitOn sep (a +:+ String sep b)
  = (filepath.splitOn sep a ++ filepath.splitOn sep b)%list.
Proof.
  induction a as [|c a IH]; simpl.
  - by rewrite Ascii.eqb_refl.
  - destruct (Ascii.eqb c sep); [by rewrite IH|].
    rewrite IH. pose proof (splitOn_not_nil sep a).
    by destruct (filepath.splitOn sep a).
Qed.

Lemma concat_cons_cons sep x y l :
  String.concat sep (x :: y :: l) = x +:+ sep +:+ String.concat sep (y :: l).
Proof. reflexivity. Qed.

Lemma append_cons c (a b : string) : String c a +:+ b = String c (a +:+ b).
Proof. reflexivity. Qed.

Lemma string_app_assoc (a b c : string) : (a +:+ b) +:+ c = a +:+ (b +:+ c).
Proof.
  induction a as [|x a IH]; [reflexivity|]. by rewrite !append_cons, IH.
Qed.

Lemma string_app_nil_r (a : string) : a +:+ "" = a.
Proof.
  induction a as [|x a IH]; [reflexivity|]. by rewrite append_cons, IH.
Qed.

Lemma elements_concat (l : list string) :
  l <> [] ->
  filepath.elements (String.concat "/" l) = mjoin (filepath.elements <$> l).
Proof.
  induction l as [|x l IH]; [done|]. intros _.
  destruct l as [|y l].
  - simpl. by rewrite app_nil_r.
  - change (String.concat "/" (x :: y :: l))
      with (x +:+ String "/"%char (String.concat "/" (y :: l))).
    unfold filepath.elements in *. rewrite splitOn_app, IH by done. reflexivity.
Qed.

Lemma concat_app sep (xs ys : list string) :
  xs <> [] -> ys <> [] ->
  String.concat sep (xs ++ ys) = String.concat sep xs +:+ sep +:+ String.concat sep ys.
Proof.
  intros Hxs Hys. induction xs as [|x xs IH]; [done|].
  destruct xs as [|x' xs].
  - destruct ys; [done|]. reflexivity.
  - change ((x :: x' :: xs) ++ ys)%list with (x :: (x' :: xs ++ ys))%list.
    simpl app in IH. rewrite !concat_cons_cons, IH by done.
    by rewrite !string_app_assoc.
Qed.

Lemma concat_elements s : String.concat "/" (filepath.elements s) = s.
Proof.
  unfold filepath.elements. induction s as [|c s IH]; [done|]. simpl.
  destruct (Ascii.eqb_spec c "/"%char) as [->|Hne].
  - pose proof (splitOn_not_nil "/" s).
    destruct (filepath.splitOn "/" s) as [|h t] eqn:E; [done|].
    rewrite concat_cons_cons, IH. reflexivity.
  - pose proof (splitOn_not_nil "/" s).
    destruct (filepath.splitOn "/" s) as [|h t] eqn:E; [done|].
    destruct t as [|h' t]; simpl in *; by rewrite <- IH.
Qed.

Lemma concat_mjoin_elements (l : list string) :
  String.concat "/" (mjoin (filepath.elements <$> l)) = String.concat "/" l.
Proof.
  induction l as [|x l IH]; [done|].
  destruct l as [|y l].
  - simpl. rewrite app_nil_r. apply concat_elements.
  - change (mjoin (filepath.elements <$> x :: y :: l))
      with (filepath.elements x ++ mjoin (filepath.elements <$> y :: l))%list.
    rewrite concat_app, IH, concat_elements; [done|apply splitOn_not_nil|].
    simpl. intros H. apply app_eq_nil in H as [H _]. by apply splitOn_not_nil in H.
Qed.

Lemma plainElement_eqb e :
  plainElement e ->
  String.eqb e "" = false /\ String.eqb e "." = false /\ String.eqb e ".." = false.
Proof.
  intros (H1 & H2 & H3). repeat split; by apply String.eqb_neq.
Qed.

Lemma cleanStep_fold rooted (es kept : list string) :
  Forall (fun e => e = "" \/ plainElement e) es ->
  fold_left (filepath.cleanStep rooted) es kept
  = (rev (filter (fun e => e <> "") es) ++ kept)%list.
Proof.
  intros Hes. revert kept. induction Hes as [|e es [->|He] _ IH]; intros kept.
  - reflexivity.
  - simpl. rewrite IH. by rewrite filter_cons_False by (intros H; by apply H).
  - simpl. rewrite IH. destruct (plainElement_eqb _ He) as (E1 & E2 & E3).
    unfold filepath.cleanStep. rewrite E1, E2, E3. simpl.
    rewrite filter_cons_True by apply He. simpl. by rewrite <- app_assoc.
Qed.

Lemma cleanPart_elements (l : list string) :
  Forall cleanPart l ->
  Forall (fun e => e = "" \/ plainElement e) (mjoin (filepath.elements <$> l)).
Proof.
  induction 1 as [|part l [->|Hpart] _ IH]; simpl.
  - constructor.
  - constructor; [by left|done].
  - apply Forall_app. split; [|done].
    eapply Forall_impl; [exact Hpart|]. intros e He. by right.
Qed.

Lemma filter_elements (l : list string) :
  Forall cleanPart l ->
  filter (fun e => e <> "") (mjoin (filepath.elements <$> l))
  = mjoin (filepath.elements <$> filter (fun part => part <> "") l).
Proof.
  induction 1 as [|part l Hpart _ IH]; [done|].
  change (mjoin (filepath.elements <$> part :: l))
    with (filepath.elements part ++ mjoin (filepath.elements <$> l))%list.
  rewrite filter_app, IH.
  destruct (decide (part = "")) as [->|Hne].
  - by rewrite filter_cons_False by (intros H; by apply H).
  - rewrite (filter_cons_True _ part) by done.
    destruct Hpart as [->|Hplain]; [done|].
    change (mjoin (filepath.elements <$> part :: ?r))
      with (filepath.elements part ++ mjoin (filepath.elements <$> r))%list.
    f_equal. clear -Hplain. induction Hplain as [|e es He _ IH]; [done|].
    rewrite filter_cons_True by apply He. by rewrite IH.
Qed.

Lemma cleanPart_first_char part :
  part <> "" -> cleanPart part ->
  exists c rest, part = String c rest /\ c <> "/"%char.
Proof.
  intros Hne [->|Hplain]; [done|].
  destruct part as [|c rest]; [done|]. exists c, rest. split; [done|].
  intros ->. unfold filepath.elements in Hplain. simpl in Hplain.
  apply Forall_cons in Hplain as [(H & _) _]. by apply H.
Qed.

Lemma concat_first_char c rest (l : list string) :
  exists rest', String.concat "/" (String c rest :: l) = String c rest'.
Proof.
  destruct l as [|y l]; [by eexists|].
  rewrite concat_cons_cons, append_cons. by eexists.
Qed.

Lemma Clean_concat part (l : list string) :
  part <> "" -> Forall cleanPart (part :: l) ->
  filepath.Clean (String.concat "/" (part :: l))
  = String.concat "/" (filter (fun p => p <> "") (part :: l)).
Proof.
  intros Hne Hall.
  destruct (cleanPart_first_char part Hne) as (c & rest & -> & Hc).
  { by apply Forall_cons in Hall as [? _]. }
  assert (filepath.elements (String.concat "/" (String c rest :: l))
          = mjoin (filepath.elements <$> String c rest :: l)) as Hel
    by by apply elements_concat.
  unfold filepath.Clean. rewrite Hel.
  rewrite cleanStep_fold by by apply cleanPart_elements.
  rewrite app_nil_r, rev_involutive, filter_elements, concat_mjoin_elements by done.
  destruct (concat_first_char c rest l) as [rest' ->].
  destruct (Ascii.eqb_spec c "/"%char) as [->|_]; [done|].
  rewrite filter_cons_True by done.
  destruct (concat_first_char c rest (filter (fun p => p <> "") l)) as [rest'' E].
  rewrite E. simpl.
  destruct c as [[] [] [] [] [] [] [] []]; try reflexivity; by destruct Hc.
Qed.

Lemma Join_cleanParts (parts : list string) :
  Forall cleanPart parts -> filepath.Join parts = joinNonEmpty parts.
Proof.
  unfold joinNonEmpty. induction 1 as [|part l Hpart Hl IH]; [done|]. simpl.
  destruct (String.eqb_spec part "") as [->|Hne].
  - rewrite IH. by rewrite filter_cons_False by (intros H; by apply H).
  - apply Clean_concat; [done|]. by constructor.
Qed.

Lemma noSlash_app a b : noSlash (a +:+ b) = noSlash a && noSlash b.
Proof.
  induction a as [|c a IH]; [reflexivity|].
  rewrite append_cons. simpl. rewrite IH. by rewrite andb_assoc.
Qed.

Lemma noSlash_elements s : noSlash s = true -> filepath.elements s = [s].
Proof.
  unfold filepath.elements. induction s as [|c s IH]; [done|]. simpl.
  intros [Hc Hs]%andb_true_iff. apply negb_true_iff in Hc. rewrite Hc.
  by rewrite IH.
Qed.

Lemma noSlash_pretty_N_char d : noSlash (String (pretty_N_char d) "") = true.
Proof. unfold pretty_N_char. by repeat case_match. Qed.

Lemma noSlash_pretty_N_go (x : N) : forall s,
  noSlash s = true -> noSlash (pretty_N_go x s) = true.
Proof.
  induction (N.lt_wf_0 x) as [x _ IH]. intros s Hs.
  destruct (decide (x = 0)%N) as [->|Hx]; [by rewrite pretty_N_go_0|].
  rewrite pretty_N_go_step by lia. apply IH.
  - apply N.div_lt; lia.
  - change (String ?c s) with (String c "" +:+ s).
    by rewrite noSlash_app, noSlash_pretty_N_char, Hs.
Qed.

Lemma noSlash_pretty_Z (x : Z) : noSlash (pretty x) = true.
Proof.
  assert (forall p : positive, noSlash (pretty p) = true) as Hpos.
  { intros p. unfold pretty, pretty_positive, pretty, pretty_N.
    destruct (decide _); [done|]. by apply noSlash_pretty_N_go. }
  destruct x as [|p|p]; unfold pretty, pretty_Z; [done|apply Hpos|].
  by rewrite noSlash_app, Hpos.
Qed.

Lemma noSlash_zeros n : noSlash (String.concat "" (replicate n "0")) = true.
Proof.
  induction n as [|n IH]; [done|]. simpl replicate.
  destruct n as [|n]; [done|].
  change (replicate (S n) "0") with ("0" :: replicate n "0") in *.
  rewrite concat_cons_cons. by rewrite !noSlash_app, IH.
Qed.

Lemma noSlash_appendInt x width : noSlash (time.appendInt x width) = true.
Proof.
  unfold time.appendInt. destruct (x <? 0);
    by rewrite ?noSlash_app, noSlash_zeros, noSlash_pretty_Z.
Qed.

Lemma noSlash_FormatDate t : noSlash (time.FormatDate t) = true.
Proof.
  unfold time.FormatDate. destruct (time.Date t) as [[y m] d].
  by rewrite !noSlash_app, !noSlash_appendInt.
Qed.

Lemma noSlash_FormatStamp t : noSlash (time.FormatStamp t) = true.
Proof.
  unfold time.FormatStamp. destruct (time.Date t) as [[y m] d].
  destruct (time.Clock t) as [[hh mm] ss].
  by rewrite !noSlash_app, !noSlash_appendInt.
Qed.

(** A string with a dash in it is not one of the special path elements. *)
Lemma append_not_nil (a : string) c b : a +:+ String c b <> "".
Proof. destruct a; [|rewrite append_cons]; discriminate. Qed.

Lemma plainElement_dash a b : plainElement (a +:+ String "-" b).
Proof.
  destruct a as [|c1 [|c2 a]]; repeat split; intros H;
    rewrite ?append_cons in H; try discriminate H.
  all: try (cbv in H; congruence).
  injection H as _ _ H. by apply append_not_nil in H.
Qed.

Lemma cleanPart_dashed s a b :
  s = a +:+ String "-" b -> noSlash s = true -> cleanPart s.
Proof.
  intros Hs Hn. right. rewrite noSlash_elements by done.
  constructor; [|constructor]. rewrite Hs. apply plainElement_dash.
Qed.

Lemma FormatDate_dashed t : exists a b, time.FormatDate t = a +:+ String "-" b.
Proof.
  unfold time.FormatDate. destruct (time.Date t) as [[y m] d]. by eexists _, _.
Qed.

Lemma metadata_labels_frame (base : gmap string string)
    (labels : list (string * string)) (k : string) :
  (forall l, k <> "pod-label-" +:+ l) ->
  foldr (fun kv metadata => <["pod-label-" +:+ kv.1 := kv.2]> metadata) base labels !! k
  = base !! k.
Proof.
  intros Hk. induction labels as [|[l v] labels IH]; [done|]. simpl.
  rewrite lookup_insert_ne; [done|]. intros H. by apply (Hk l).
Qed.

Lemma partElements_mjoin (parts : list string) :
  mjoin (filepath.elements <$> filter (fun part => part <> "") parts)
  = mjoin (partElements <$> parts).
Proof.
  induction parts as [|part parts IH]; [done|].
  destruct (decide (part = "")) as [->|Hne].
  - rewrite filter_cons_False by (intros H; by apply H). by rewrite IH.
  - rewrite filter_cons_True by done.
    change (filepath.elements part
              ++ mjoin (filepath.elements <$> filter (fun part => part <> "") parts)
            = partElements part ++ mjoin (partElements <$> parts))%list.
    rewrite IH. f_equal. unfold partElements.
    by replace (String.eqb part "") with false
      by (symmetry; by apply String.eqb_neq).
Qed.

(** C6 (as amended).  Every upload carries the metadata entries
    [profile-type = kind] and [timestamp = rfc3339(ts)], and its key is
    [filepath.Join] of the prefix, the date of [ts], the service name and
    [<YYYYMMDD-HHMMSS>-<kind>.pprof].  When the prefix and the service name are
    each empty or a relative path of plain elements (none empty, [.] or [..])
    and the kind has no slash, that key is the four parts joined by slashes
    with the empty ones left out, and the element of the key that follows the
    elements of the prefix is the date of [ts]. *)
Theorem generateKey_layout (u : uploader.S3Uploader) (pod : corev1.Pod)
    (profile : profiler.Profile) (reason : string) :
  let ts := profiler.Timestamp profile in
  let kind := profiler.Type_ profile in
  let serviceName := uploader.getServiceName pod in
  let file := time.FormatStamp ts +:+ "-" +:+ kind +:+ ".pprof" in
  let parts := [uploader.prefix u; time.FormatDate ts; serviceName; file] in
  let put := uploader.putObjectInput u pod profile reason in
  uploader.Metadata put !! "profile-type" = Some kind
  /\ uploader.Metadata put !! "timestamp" = Some (time.FormatRFC3339 ts)
  /\ uploader.Key put = filepath.Join parts
  /\ (cleanPart (uploader.prefix u) -> cleanPart serviceName -> noSlash kind = true ->
      uploader.Key put = joinNonEmpty parts
      /\ filepath.elements (uploader.Key put)
         = (partElements (uploader.prefix u) ++ [time.FormatDate ts]
            ++ partElements serviceName ++ [file])%list).
Proof.
  intros ts kind serviceName file parts put.
  split; [|split; [|split]].
  - unfold put, uploader.putObjectInput, uploader.metadataOf. simpl.
    rewrite metadata_labels_frame by (intros l; discriminate). done.
  - unfold put, uploader.putObjectInput, uploader.metadataOf. simpl.
    rewrite metadata_labels_frame by (intros l; discriminate). done.
  - reflexivity.
  - intros Hprefix Hservice Hkind.
    assert (noSlash file = true) as Hfile.
    { unfold file. by rewrite !noSlash_app, noSlash_FormatStamp, Hkind. }
    destruct (FormatDate_dashed ts) as (a & b & Hdate).
    assert (Forall cleanPart parts) as Hparts.
    { unfold parts. repeat (apply Forall_cons; split); [done| |done| |constructor].
      - eapply cleanPart_dashed; [done|apply noSlash_FormatDate].
      - by eapply (cleanPart_dashed file (time.FormatStamp ts) (kind +:+ ".pprof")). }
    assert (uploader.Key put = joinNonEmpty parts) as Hkey
      by by apply Join_cleanParts.
    split; [done|]. rewrite Hkey. unfold joinNonEmpty.
    rewrite elements_concat.
    + rewrite partElements_mjoin. simpl. rewrite app_nil_r.
      unfold partElements at 2 4.
      replace (String.eqb (time.FormatDate ts) "") with false.
      2:{ symmetry. apply String.eqb_neq. rewrite Hdate. apply append_not_nil. }
      replace (String.eqb file "") with false.
      2:{ symmetry. apply String.eqb_neq. apply append_not_nil. }
      by rewrite !noSlash_elements by (done || apply noSlash_FormatDate).
    + intros Hnil. assert (time.FormatDate ts ∈ filter (fun part => part <> "") parts) as Hin.
      { apply list_elem_of_filter. split.
        - rewrite Hdate. apply append_not_nil.
        - unfold parts. set_solver. }
      rewrite Hnil in Hin. by apply elem_of_nil in Hin.
Qed.

(** ** Instance registry *)

Lemma time_Seconds_small (n : Z) :
  0 <= n < 9223372036 -> time.Seconds n = n * 1000000000.
Proof.
  intros Hn. unfold time.Seconds, time.wrap64, time.Second.
  rewrite (Z.mod_small (n + 2 ^ 63)) by lia.
  replace (n + 2 ^ 63 - 2 ^ 63) with n by lia.
  rewrite Z.mod_small by lia. lia.
Qed.

(** Within the cooldown after [UpdateLastProfileTime], and as long as the
    entry of the pod is still there, [CanProfile] refuses. *)
Lemma CanProfile_within_cooldown (pw : controller.PodWatcher) (pod : corev1.Pod)
    (cooldownSeconds : Z) (last now : time.Time) :
  controller.lastProfileTime pw !! controller.getPodKey pod = Some last ->
  0 <= cooldownSeconds < 9223372036 ->
  time.unixNano now <= time.unixNano last + cooldownSeconds * 1000000000 ->
  controller.CanProfile pw pod cooldownSeconds now = false.
Proof.
  intros Hlast Hcool Hnow. unfold controller.CanProfile. rewrite Hlast.
  rewrite time_Seconds_small by done. apply Z.ltb_ge.
  unfold time.Sub, time.minDuration, time.maxDuration.
  repeat case_match; lia.
Qed.

(** X25.  The last-profile timestamp of a key is set by
    [UpdateLastProfileTime] and removed by [StopTrackingPod] of a tracked
    instance with that key; both leave the timestamps of all other keys alone,
    and [StopTrackingPod] of an instance that is not tracked changes nothing.
    [TrackPod] records the new entry under the key of the instance, leaves the
    timestamps of all other keys alone, and, when the instance was not tracked
    before, leaves every timestamp alone. *)
Theorem lastProfileTime_mutators (pw : controller.PodWatcher) (pod : corev1.Pod) :
  let key := controller.getPodKey pod in
  (forall now,
     let pw' := controller.UpdateLastProfileTime pw pod now in
     controller.lastProfileTime pw' !! key = Some now
     /\ controller.trackedPods pw' = controller.trackedPods pw
     /\ forall k, k <> key ->
          controller.lastProfileTime pw' !! k = controller.lastProfileTime pw !! k)
  /\ (let pw' := controller.StopTrackingPod pw pod in
      (is_Some (controller.trackedPods pw !! key) ->
         controller.lastProfileTime pw' !! key = None
         /\ controller.trackedPods pw' !! key = None)
      /\ (controller.trackedPods pw !! key = None -> pw' = pw)
      /\ forall k, k <> key ->
           controller.lastProfileTime pw' !! k = controller.lastProfileTime pw !! k)
  /\ (forall config,
        let pw' := controller.TrackPod pw pod config in
        controller.trackedPods pw' !! key = Some (controller.mkTrackedPod pod config)
        /\ (controller.trackedPods pw !! key = None ->
            controller.lastProfileTime pw' = controller.lastProfileTime pw)
        /\ forall k, k <> key ->
             controller.lastProfileTime pw' !! k = controller.lastProfileTime pw !! k).
Proof.
  intros key. split; [|split].
  - intros now pw'. subst pw'. unfold controller.UpdateLastProfileTime. simpl.
    fold key. split; [apply lookup_insert_eq|]. split; [done|].
    intros k Hk. by rewrite lookup_insert_ne.
  - unfold controller.StopTrackingPod. fold key. split; [|split].
    + intros [tracked ->]. simpl. by rewrite !lookup_delete_eq.
    + by intros ->.
    + intros k Hk. destruct (controller.trackedPods pw !! key); [|done].
      simpl. by rewrite lookup_delete_ne.
  - intros config pw'. subst pw'. unfold controller.TrackPod. fold key.
    split; [|split].
    + simpl. apply lookup_insert_eq.
    + by intros ->.
    + intros k Hk. destruct (controller.trackedPods pw !! key); [|done].
      simpl. by rewrite lookup_delete_ne.
Qed.

(** ** Intent reconciler *)

Section ReconcilerFacts.
Variable fmt_f2 : float -> string.
Variable http_get : string -> time.Time -> profiler.HttpReply * time.Time.
Variable setupPortForward :
  corev1.Pod -> Z -> time.Time -> option (result Z * time.Time).
Variable waitReady : time.Time -> profiler.WaitOutcome * time.Time.
Variable listPods : string -> gmap string string -> time.Time -> result (list corev1.Pod).
Variable getPodMetricses : string -> string -> time.Time -> result v1beta1.PodMetrics.
Variable getError : string -> time.Time -> option string.
Variable statusUpdateError : string -> time.Time -> option string.
Variable loadConfigError : time.Time -> option string.
Variable putObject : uploader.PutObjectInput -> time.Time -> result unit.

Local Abbreviation captureAndUpload :=
  (controller.captureAndUpload http_get setupPortForward waitReady
     loadConfigError putObject).
Local Abbreviation updateProfileStats :=
  (controller.updateProfileStats getError statusUpdateError).
Local Abbreviation profileOnDemand :=
  (controller.profileOnDemand http_get setupPortForward waitReady
     getError statusUpdateError loadConfigError putObject).
Local Abbreviation onDemandTick :=
  (controller.onDemandTick http_get setupPortForward waitReady
     getError statusUpdateError loadConfigError putObject).
Local Abbreviation Reconcile :=
  (controller.Reconcile listPods getError statusUpdateError).
Local Abbreviation setPodWatcher := controller.setPodWatcher.

Lemma setPodWatcher_same s : setPodWatcher (controller.podWatcher s) s = s.
Proof. by destruct s. Qed.

Lemma ignoresPodWatcher_frame f s :
  ignoresPodWatcher f -> controller.podWatcher (f s) = controller.podWatcher s.
Proof.
  intros Hf. rewrite <- (setPodWatcher_same s) at 1. by rewrite Hf.
Qed.

Lemma PutObject_ignores input :
  ignoresPodWatcherR (controller.PutObject putObject input).
Proof.
  intros pw s. unfold controller.PutObject.
  change (controller.now (setPodWatcher pw s)) with (controller.now s).
  by destruct (putObject input (controller.now s)).
Qed.

Lemma UploadProfiles_ignores u pod profiles reason :
  ignoresPodWatcherR
    (uploader.UploadProfiles controller.State (controller.PutObject putObject)
       u pod profiles reason).
Proof.
  induction profiles as [|profile profiles IH]; intros pw s; [done|].
  simpl. unfold uploader.UploadProfile. rewrite PutObject_ignores.
  destruct (controller.PutObject putObject _ s) as [[[]|msg] s']; simpl; [|done].
  apply IH.
Qed.

Lemma ignoresPodWatcherC_frame {A} (f : controller.State -> controller.Call A) s :
  ignoresPodWatcherC f ->
  controller.podWatcher (stateOf (f s)) = controller.podWatcher s.
Proof.
  intros Hf. rewrite <- (setPodWatcher_same s) at 1. rewrite Hf.
  by destruct (f s).
Qed.

Lemma captureAndUpload_ignores pod config reason :
  ignoresPodWatcherC (captureAndUpload pod config reason).
Proof.
  intros pw s. unfold controller.captureAndUpload.
  change (controller.net (controller.beginCapture pod reason (setPodWatcher pw s)))
    with (controller.net (controller.beginCapture pod reason s)).
  destruct (profiler.CaptureProfiles _ _ _ _ _ _) as [[[profiles|msg] w]|];
    [|done|done].
  change (controller.now (controller.setNet w
            (controller.beginCapture pod reason (setPodWatcher pw s))))
    with (controller.now (controller.setNet w (controller.beginCapture pod reason s))).
  destruct (loadConfigError _); [done|].
  change (controller.setNet w (controller.beginCapture pod reason (setPodWatcher pw s)))
    with (setPodWatcher pw (controller.setNet w (controller.beginCapture pod reason s))).
  rewrite UploadProfiles_ignores.
  by destruct (uploader.UploadProfiles _ _ _ _ _ _ _) as [[[]|msg] s'].
Qed.

Lemma StatusUpdate_ignores config :
  ignoresPodWatcherR (controller.StatusUpdate statusUpdateError config).
Proof.
  intros pw s. unfold controller.StatusUpdate.
  change (controller.now (setPodWatcher pw s)) with (controller.now s).
  destruct (statusUpdateError _ _); [done|].
  change (controller.configs (setPodWatcher pw s)) with (controller.configs s).
  by destruct (controller.configs s !! _).
Qed.

Lemma updateProfileStats_ignores config :
  ignoresPodWatcher (updateProfileStats config).
Proof.
  intros pw s. unfold controller.updateProfileStats, controller.Get.
  change (controller.now (setPodWatcher pw s)) with (controller.now s).
  change (controller.configs (setPodWatcher pw s)) with (controller.configs s).
  destruct (getError _ _); [done|].
  destruct (controller.configs s !! _); [|done].
  by rewrite StatusUpdate_ignores.
Qed.

Lemma profileOnDemand_ignores config tracked :
  ignoresPodWatcherC (fun s => profileOnDemand config s tracked).
Proof.
  intros pw s. unfold controller.profileOnDemand.
  rewrite captureAndUpload_ignores.
  destruct (captureAndUpload _ _ _ s) as [[[]|msg] s'|s']; simpl; [|done|done].
  by rewrite updateProfileStats_ignores.
Qed.

Lemma forEach_ignores {A} (body : controller.State -> A -> controller.Call unit)
    (items : list A) :
  (forall item, ignoresPodWatcherC (fun s => body s item)) ->
  ignoresPodWatcherC (controller.forEach body items).
Proof.
  intros Hbody. induction items as [|item items IH]; intros pw s; [done|].
  simpl. rewrite (Hbody item pw s).
  destruct (body s item) as [[] s'|s']; simpl; [apply IH|done].
Qed.

End ReconcilerFacts.

Section OnDemandFacts.
Variable http_get : string -> time.Time -> profiler.HttpReply * time.Time.
Variable setupPortForward :
  corev1.Pod -> Z -> time.Time -> option (result Z * time.Time).
Variable waitReady : time.Time -> profiler.WaitOutcome * time.Time.
Variable getError : string -> time.Time -> option string.
Variable statusUpdateError : string -> time.Time -> option string.
Variable loadConfigError : time.Time -> option string.
Variable putObject : uploader.PutObjectInput -> time.Time -> result unit.

Local Abbreviation captureAndUpload :=
  (controller.captureAndUpload http_get setupPortForward waitReady
     loadConfigError putObject).
Local Abbreviation updateProfileStats :=
  (controller.updateProfileStats getError statusUpdateError).
Local Abbreviation profileOnDemand :=
  (controller.profileOnDemand http_get setupPortForward waitReady
     getError statusUpdateError loadConfigError putObject).
Local Abbreviation onDemandTick :=
  (controller.onDemandTick http_get setupPortForward waitReady
     getError statusUpdateError loadConfigError putObject).

Lemma PutObject_captures input s :
  controller.captures (controller.PutObject putObject input s).2
  = controller.captures s.
Proof. unfold controller.PutObject. by destruct (putObject _ _). Qed.

Lemma UploadProfiles_captures u pod profiles reason : forall s,
  controller.captures
    (uploader.UploadProfiles controller.State (controller.PutObject putObject)
       u pod profiles reason s).2
  = controller.captures s.
Proof.
  induction profiles as [|profile profiles IH]; intros s; [done|].
  simpl. unfold uploader.UploadProfile.
  pose proof (PutObject_captures (uploader.putObjectInput u pod profile reason) s) as H.
  destruct (controller.PutObject putObject _ s) as [[[]|msg] s']; simpl in *; [|done].
  by rewrite IH.
Qed.

Lemma captureAndUpload_captures pod config reason s :
  controller.captures (stateOf (captureAndUpload pod config reason s))
  = (controller.captures s
     ++ [controller.mkCapture (controller.getPodKey pod) reason (controller.now s)])%list.
Proof.
  unfold controller.captureAndUpload.
  destruct (profiler.CaptureProfiles _ _ _ _ _ _) as [[[profiles|msg] w]|];
    [|done|done].
  destruct (loadConfigError _); [done|].
  match goal with
  | |- context [uploader.UploadProfiles _ _ ?u ?pod ?ps ?reason ?s0] =>
      pose proof (UploadProfiles_captures u pod ps reason s0) as H;
      destruct (uploader.UploadProfiles _ _ u pod ps reason s0) as [[[]|msg] s']
  end; simpl in *; by rewrite H.
Qed.

Lemma updateProfileStats_captures config s :
  controller.captures (updateProfileStats config s) = controller.captures s.
Proof.
  unfold controller.updateProfileStats, controller.Get.
  destruct (getError _ _); [done|]. destruct (controller.configs s !! _); [|done].
  unfold controller.StatusUpdate. destruct (statusUpdateError _ _); [done|].
  simpl. by destruct (controller.configs s !! _).
Qed.

Lemma profileOnDemand_captures config s tracked :
  controller.captures (stateOf (profileOnDemand config s tracked))
  = (controller.captures s
     ++ [controller.mkCapture (controller.getPodKey (controller.Pod tracked))
           "on-demand" (controller.now s)])%list.
Proof.
  unfold controller.profileOnDemand.
  pose proof (captureAndUpload_captures (controller.Pod tracked) config "on-demand" s)
    as H.
  destruct (captureAndUpload _ _ _ s) as [[[]|msg] s'|s']; simpl in *; [|done|done].
  by rewrite updateProfileStats_captures.
Qed.

Lemma forEach_profileOnDemand_captures config
    (trackedPods : list controller.TrackedPod) :
  forall s,
    let out := controller.forEach (profileOnDemand config) trackedPods s in
    exists n begun,
      (n <= length trackedPods)%nat
      /\ controller.captures (stateOf out) = (controller.captures s ++ begun)%list
      /\ map (fun c => (controller.capturePod c, controller.captureReason c)) begun
         = map (fun tracked =>
                  (controller.getPodKey (controller.Pod tracked), "on-demand"))
               (take n trackedPods)
      /\ (returns out = true -> n = length trackedPods).
Proof.
  induction trackedPods as [|tracked trackedPods IH]; intros s; cbv zeta.
  - exists 0%nat, []. simpl. by rewrite app_nil_r.
  - cbn [controller.forEach].
    pose proof (profileOnDemand_captures config s tracked) as Hone.
    destruct (profileOnDemand config s tracked) as [[] s1|s1]; simpl in Hone.
    + destruct (IH s1) as (n & begun & Hn & Hc & Hm & Hr).
      exists (S n). eexists (_ :: begun). split; [simpl; lia|]. split.
      { rewrite Hc, Hone, <- app_assoc. reflexivity. }
      split; [simpl; by rewrite Hm|]. intros H. simpl. by rewrite Hr.
    + exists 1%nat. eexists [_]. split; [simpl; lia|]. split; [exact Hone|].
      split; [done|done].
Qed.

Lemma forEach_profileOnDemand_sequences config
    (trackedPods : list controller.TrackedPod) :
  forall s,
    sequences (fun pod => captureAndUpload pod config "on-demand")
      (updateProfileStats config) trackedPods s
      (controller.forEach (profileOnDemand config) trackedPods s).
Proof.
  induction trackedPods as [|tracked trackedPods IH]; intros s; [constructor|].
  cbn [controller.forEach]. unfold controller.profileOnDemand at 1.
  destruct (captureAndUpload (controller.Pod tracked) config "on-demand" s)
    as [[[]|msg] s1|s1] eqn:Hsequence.
  - eapply sequences_published; [exact Hsequence|apply IH].
  - eapply sequences_failed; [exact Hsequence|apply IH].
  - by apply sequences_blocked.
Qed.

Lemma onDemandTick_podWatcher config s :
  controller.podWatcher (stateOf (onDemandTick config s)) = controller.podWatcher s.
Proof.
  unfold controller.onDemandTick.
  apply (ignoresPodWatcherC_frame
           (controller.forEach (profileOnDemand config)
              (controller.GetTrackedPods (controller.podWatcher s))) s).
  apply forEach_ignores. intros tracked.
  apply (profileOnDemand_ignores http_get setupPortForward waitReady
           getError statusUpdateError loadConfigError putObject).
Qed.

Lemma onDemandLoop_podWatcher config (events : list controller.Event) : forall s,
  controller.podWatcher
    (exitState
       (controller.onDemandLoop http_get setupPortForward waitReady
          getError statusUpdateError loadConfigError putObject config events s))
  = controller.podWatcher s.
Proof.
  induction events as [|[t|] events IH]; intros s; simpl; [done| |done].
  pose proof (onDemandTick_podWatcher config (controller.atTime t s)) as Htick.
  destruct (onDemandTick config (controller.atTime t s)) as [[] s'|s'];
    simpl in Htick; [by rewrite IH|done].
Qed.

(** X24.  What a tick of the on-demand monitor does.  It runs a
    capture-and-publish sequence with reason [on-demand] for one tracked pod
    after the other, in the order of its snapshot, with the update of the
    counters after each that succeeds, and it does so for every tracked pod
    unless one of the sequences never returns.  It hands the pod watcher
    back as it was, last-profile timestamps included, and it does the same
    whatever those timestamps are.  Over any run of the monitor, whatever
    events it receives, the pod watcher is left as it was. *)
Theorem onDemandTick_runs (config : v1alpha1.ProfilingConfig) (s : controller.State) :
  let pw := controller.podWatcher s in
  let snapshot := controller.GetTrackedPods pw in
  let out := onDemandTick config s in
  controller.podWatcher (stateOf out) = pw
  /\ sequences (fun pod => captureAndUpload pod config "on-demand")
       (updateProfileStats config) snapshot s out
  /\ (exists n,
        (n <= length snapshot)%nat
        /\ map (fun c => (controller.capturePod c, controller.captureReason c))
               (begunBetween s (stateOf out))
           = map (fun tracked =>
                    (controller.getPodKey (controller.Pod tracked), "on-demand"))
                 (take n snapshot)
        /\ (returns out = true -> n = length snapshot))
  /\ (forall lastProfileTime : gmap string time.Time,
        let pw' := controller.mkPodWatcher (controller.trackedPods pw) lastProfileTime in
        onDemandTick config (controller.setPodWatcher pw' s)
        = inState (controller.setPodWatcher pw') out)
  /\ (forall events : list controller.Event,
        controller.podWatcher
          (exitState
             (controller.monitorOnDemand http_get setupPortForward waitReady
                getError statusUpdateError loadConfigError putObject config events s))
        = pw).
Proof.
  intros pw snapshot out. subst out.
  split; [apply onDemandTick_podWatcher|]. split; [|split; [|split]].
  - apply forEach_profileOnDemand_sequences.
  - unfold controller.onDemandTick. fold pw snapshot.
    destruct (forEach_profileOnDemand_captures config snapshot s)
      as (n & begun & Hn & Hc & Hm & Hr).
    exists n. split; [done|]. unfold begunBetween. rewrite Hc, drop_app_length.
    by split.
  - intros last. unfold controller.onDemandTick.
    apply (forEach_ignores (profileOnDemand config) snapshot).
    intros tracked.
    apply (profileOnDemand_ignores http_get setupPortForward waitReady
             getError statusUpdateError loadConfigError putObject).
  - intros events. unfold controller.monitorOnDemand.
    destruct (v1alpha1.OnDemand (v1alpha1.Spec config)) as [onDemand|]; [|done].
    destruct (time.Seconds _ <=? 0); [done|]. apply onDemandLoop_podWatcher.
Qed.
End OnDemandFacts.

Section ReconcileFacts.
Variable listPods : string -> gmap string string -> time.Time -> result (list corev1.Pod).
Variable getError : string -> time.Time -> option string.
Variable statusUpdateError : string -> time.Time -> option string.

Local Abbreviation Reconcile :=
  (controller.Reconcile listPods getError statusUpdateError).

Lemma trackAll_shape config (pods : list corev1.Pod) : forall s,
  exists pw,
    fold_left (fun s pod =>
                 controller.setPodWatcher
                   (controller.TrackPod (controller.podWatcher s) pod config) s)
              pods s
    = controller.setPodWatcher pw s.
Proof.
  induction pods as [|pod pods IH]; intros s; simpl.
  - exists (controller.podWatcher s). by destruct s.
  - destruct (IH (controller.setPodWatcher
                    (controller.TrackPod (controller.podWatcher s) pod config) s))
      as [pw ->].
    by exists pw.
Qed.

Lemma StatusUpdate_shape config s :
  exists cs,
    (controller.StatusUpdate statusUpdateError config s).2 = controller.setConfigs cs s.
Proof.
  unfold controller.StatusUpdate.
  destruct (statusUpdateError _ _); [exists (controller.configs s); by destruct s|].
  destruct (controller.configs s !! _); [by eexists|].
  exists (controller.configs s). by destruct s.
Qed.

Lemma stopMonitoring_keeps key s :
  controller.goroutines (controller.stopMonitoring key s) = controller.goroutines s
  /\ controller.nextContext (controller.stopMonitoring key s) = controller.nextContext s.
Proof. unfold controller.stopMonitoring. by destruct (controller.activeMonitors s !! key). Qed.

(** C7 (as amended).  Reconciling an intent whose bucket is empty fails with
    "s3 bucket is required", and one whose region alone is empty fails with
    "s3 region is required"; either way the state is left as it was: no
    monitor is started and no status is written.  Reconciling an intent with
    both present, once its matching pods have been listed, starts its
    monitors exactly once: one threshold monitor, and one on-demand monitor
    if on-demand is enabled, under one fresh context that is registered for
    the intent. *)
Theorem Reconcile_validation (namespace name : string) (s : controller.State)
    (config : v1alpha1.ProfilingConfig) :
  controller.Get getError (controller.namespacedName namespace name) s
    = controller.Found config ->
  let s3 := v1alpha1.S3Config (v1alpha1.Spec config) in
  let r := Reconcile namespace name s in
  (v1alpha1.Bucket s3 = "" -> r = (Err "s3 bucket is required", s))
  /\ (v1alpha1.Bucket s3 <> "" -> v1alpha1.Region s3 = "" ->
      r = (Err "s3 region is required", s))
  /\ (v1alpha1.Bucket s3 <> "" -> v1alpha1.Region s3 <> "" ->
      forall pods, controller.ListMatchingPods listPods config s = Ok pods ->
        r.1 = Ok controller.RequeueAfter
        /\ map controller.monitorKind (startedBetween s r.2)
           = controller.ThresholdMonitor
             :: (if onDemandEnabled config then [controller.OnDemandMonitor] else [])
        /\ Forall (fun m =>
                     controller.monitorContext m = controller.nextContext s
                     /\ v1alpha1.Spec (controller.monitorConfig m) = v1alpha1.Spec config)
                  (startedBetween s r.2)
        /\ controller.activeMonitors r.2
             !! (v1alpha1.Namespace config +:+ "/" +:+ v1alpha1.Name config)
           = Some (controller.nextContext s)).
Proof.
  intros HGet s3 r. subst r. unfold controller.Reconcile. rewrite HGet.
  unfold controller.validateConfig. fold s3.
  split; [|split].
  - by intros ->.
  - intros Hb ->. by destruct (String.eqb_spec (v1alpha1.Bucket s3) "").
  - intros Hb Hr pods ->.
    destruct (String.eqb_spec (v1alpha1.Bucket s3) ""); [done|].
    destruct (String.eqb_spec (v1alpha1.Region s3) ""); [done|].
    cbv zeta.
    destruct (trackAll_shape config pods s) as [pw ->].
    match goal with
    | |- context [controller.StatusUpdate _ ?c ?s0] =>
        destruct (StatusUpdate_shape c s0) as [cs ->]
    end.
    match goal with
    | |- context [controller.stopMonitoring ?k ?s0] =>
        pose proof (stopMonitoring_keeps k s0) as [Hg Hn];
        set (stopped := controller.stopMonitoring k s0) in *
    end.
    simpl in Hg, Hn. unfold startedBetween.
    split; [done|]. simpl. rewrite Hg, Hn, drop_app_length.
    unfold onDemandEnabled.
    split; [|split].
    + destruct (v1alpha1.OnDemand (v1alpha1.Spec config)) as [[[] ?]|]; reflexivity.
    + destruct (v1alpha1.OnDemand (v1alpha1.Spec config)) as [[[] ?]|];
        repeat constructor.
    + apply lookup_insert_eq.
Qed.
End ReconcileFacts.

(** ** The scenarios, run *)


Lemma generateKey_layout_witness :
  uploader.Key
    (uploader.putObjectInput (uploader.mkS3Uploader "test-bucket" "profiles")
       scenario.webPod
       (profiler.mkProfile "heap" [] (scenario.at_ scenario.t0)) "on-demand")
  = "profiles/2024-01-15/svc/20240115-123045-heap.pprof".
Proof.
  destruct (generateKey_layout (uploader.mkS3Uploader "test-bucket" "profiles")
              scenario.webPod
              (profiler.mkProfile "heap" [] (scenario.at_ scenario.t0)) "on-demand")
    as (_ & _ & _ & H).
  destruct H as [Hkey _].
  - right. vm_compute. repeat constructor; discriminate.
  - right. vm_compute. repeat constructor; discriminate.
  - reflexivity.
  - rewrite Hkey. vm_compute. reflexivity.
Defined.

(** The claim as written fails: a [.] element of the prefix is cleaned away,
    and [..] elements of a kind remove the date from the key. *)
Lemma generateKey_counterexample :
  let ts := scenario.at_ scenario.t0 in
  let date := time.FormatDate ts in
  let dotted := uploader.mkS3Uploader "test-bucket" "./profiles" in
  let plain := uploader.mkS3Uploader "test-bucket" "profiles" in
  uploader.generateKey dotted scenario.webPod (profiler.mkProfile "heap" [] ts)
    = "profiles/2024-01-15/svc/20240115-123045-heap.pprof"
  /\ uploader.generateKey dotted scenario.webPod (profiler.mkProfile "heap" [] ts)
     <> joinNonEmpty ["./profiles"; date; "svc"; "20240115-123045-heap.pprof"]
  /\ filepath.elements
       (uploader.generateKey plain scenario.webPod (profiler.mkProfile "x/../../../y" [] ts))
     = ["profiles"; "y.pprof"].
Proof. vm_compute. repeat split. discriminate. Qed.

Lemma lastProfileTime_mutators_witness :
  let pw :=
    controller.UpdateLastProfileTime controller.NewPodWatcher scenario.webPod
      (scenario.at_ scenario.t0) in
  controller.lastProfileTime
    (controller.TrackPod pw scenario.webPod (scenario.intent "b" "us-west-2"))
  = controller.lastProfileTime pw.
Proof.
  intros pw.
  destruct (lastProfileTime_mutators pw scenario.webPod) as (_ & _ & H).
  destruct (H (scenario.intent "b" "us-west-2")) as (_ & Hnew & _).
  apply Hnew. vm_compute. reflexivity.
Defined.

(** C2, at the failing input.  [TrackPod] of an instance that is already
    tracked goes through [stopTrackingLocked], which deletes the last-profile
    timestamp of its key: the timestamp is lost on a path that is not the
    capture path, while the tracking entry is replaced.  For the scenario's
    pod, tracked and profiled at the start of the run, tracking it again for
    the same intent leaves the registry as it was but for the timestamp, which
    is gone. *)
Theorem TrackPod_erases_last_profile_time :
  (forall (pw : controller.PodWatcher) (pod : corev1.Pod)
          (config : v1alpha1.ProfilingConfig),
     is_Some (controller.trackedPods pw !! controller.getPodKey pod) ->
     controller.lastProfileTime (controller.TrackPod pw pod config)
     = delete (controller.getPodKey pod) (controller.lastProfileTime pw))
  /\ (let config := scenario.intent "b" "us-west-2" in
      let pw :=
        controller.UpdateLastProfileTime
          (controller.TrackPod controller.NewPodWatcher scenario.webPod config)
          scenario.webPod (scenario.at_ scenario.t0) in
      let pw' := controller.TrackPod pw scenario.webPod config in
      controller.lastProfileTime pw !! scenario.webPodKey
        = Some (scenario.at_ scenario.t0)
      /\ controller.trackedPods pw' = controller.trackedPods pw
      /\ controller.lastProfileTime pw' !! scenario.webPodKey = None).
Proof.
  split.
  - intros pw pod config [tracked Htracked]. unfold controller.TrackPod.
    by rewrite Htracked.
  - vm_compute. repeat split.
Qed.

(** Tracking a tracked instance again lifts its cooldown, whatever it was. *)
Lemma TrackPod_lifts_cooldown (pw : controller.PodWatcher) (pod : corev1.Pod)
    (config : v1alpha1.ProfilingConfig) (cooldownSeconds : Z) (now : time.Time) :
  is_Some (controller.trackedPods pw !! controller.getPodKey pod) ->
  controller.CanProfile (controller.TrackPod pw pod config) pod cooldownSeconds now = true.
Proof.
  intros [tracked Htracked]. unfold controller.CanProfile, controller.TrackPod.
  rewrite Htracked. simpl. by rewrite lookup_delete_eq.
Qed.

(** C1, at the failing input.  Cooldown 60 s, a pod at 85% CPU against a
    threshold of 30%.  The tick at 10 s captures and records the capture at
    11 s; the periodic reconcile at 30 s tracks the pod again, which removes
    the record; the tick at 40 s captures again, 29 s after the first capture
    completed.  Without the reconcile in between, the tick at 40 s captures
    nothing. *)
Theorem cooldown_reset_by_reconcile :
  let started (s : controller.State) :=
    map (fun c => (controller.capturePod c, controller.captureStart c))
        (controller.captures s) in
  let s1 := scenario.reconcile (scenario.initial (scenario.intent "b" "us-west-2")) in
  let s2 := scenario.thresholdTick 10 s1 in
  let s3 := scenario.reconcile
              (controller.atTime (scenario.at_ (scenario.t0 + 30)) s2) in
  let s4 := scenario.thresholdTick 40 s3 in
  controller.lastProfileTime (controller.podWatcher s2) !! scenario.webPodKey
    = Some (scenario.at_ (scenario.t0 + 11))
  /\ controller.lastProfileTime (controller.podWatcher s3) !! scenario.webPodKey = None
  /\ started s4 = [(scenario.webPodKey, scenario.at_ (scenario.t0 + 10));
                   (scenario.webPodKey, scenario.at_ (scenario.t0 + 40))]
  /\ started (scenario.thresholdTick 40 s2)
     = [(scenario.webPodKey, scenario.at_ (scenario.t0 + 10))].
Proof. vm_compute. repeat split. Qed.

(** C3, at the failing input.  Two replicas are tracked for an intent with
    on-demand profiling every 35 s; one of them is gone when the monitor
    runs, so [ForwardPorts] fails for it and the tunnel set-up never returns.
    The monitor receives two ticks.  In the first it begins the sequence for
    the replica that is gone and waits for ever: the other tracked pod gets
    no capture in that tick, nothing is published, and the second tick is
    never served.  With a tunnel that comes up for both, the same two ticks
    give each pod a capture and an object in the store per tick. *)
Theorem onDemand_monitor_waits_for_ever :
  let s :=
    (controller.Reconcile scenario.clusterOfTwo scenario.noError scenario.noError
       "default" "cfg" (scenario.initial scenario.onDemandIntent)).2 in
  let ticks :=
    [controller.Tick (scenario.at_ (scenario.t0 + 35));
     controller.Tick (scenario.at_ (scenario.t0 + 70))] in
  let monitor tunnel :=
    controller.monitorOnDemand scenario.target tunnel scenario.ready scenario.noError
      scenario.noError scenario.awsReady scenario.store scenario.onDemandIntent
      ticks s in
  let begun (e : controller.Exit) :=
    map (fun c => (controller.capturePod c, controller.captureReason c,
                   controller.captureStart c))
        (controller.captures (exitState e)) in
  map (fun tracked => controller.getPodKey (controller.Pod tracked))
      (controller.GetTrackedPods (controller.podWatcher s))
    = [scenario.gonePodKey; scenario.webPodKey]
  /\ hung (monitor scenario.tunnelToLive) = true
  /\ begun (monitor scenario.tunnelToLive)
     = [(scenario.gonePodKey, "on-demand", scenario.at_ (scenario.t0 + 35))]
  /\ controller.puts (exitState (monitor scenario.tunnelToLive)) = []
  /\ hung (monitor scenario.tunnel) = false
  /\ begun (monitor scenario.tunnel)
     = [(scenario.gonePodKey, "on-demand", scenario.at_ (scenario.t0 + 35));
        (scenario.webPodKey, "on-demand", scenario.at_ (scenario.t0 + 36));
        (scenario.gonePodKey, "on-demand", scenario.at_ (scenario.t0 + 70));
        (scenario.webPodKey, "on-demand", scenario.at_ (scenario.t0 + 71))]
  /\ length (controller.puts (exitState (monitor scenario.tunnel))) = 4%nat.
Proof. vm_compute. repeat split. Qed.

Lemma Reconcile_validation_witness :
  let s := scenario.initial (scenario.intent "b" "us-west-2") in
  let r := controller.Reconcile scenario.cluster scenario.noError scenario.noError
             "default" "cfg" s in
  r.1 = Ok controller.RequeueAfter
  /\ map controller.monitorKind (startedBetween s r.2) = [controller.ThresholdMonitor].
Proof.
  intros s r.
  assert (controller.Get scenario.noError (controller.namespacedName "default" "cfg") s
          = controller.Found (scenario.intent "b" "us-west-2")) as HGet
    by (vm_compute; reflexivity).
  destruct (Reconcile_validation scenario.cluster scenario.noError scenario.noError
              "default" "cfg" s (scenario.intent "b" "us-west-2") HGet)
    as (_ & _ & H).
  destruct (H ltac:(discriminate) ltac:(discriminate) [scenario.webPod])
    as (Hr & Hstarted & _); [vm_compute; reflexivity|].
  split; [exact Hr | exact Hstarted].
Defined.

(** The claim as written fails: with bucket and region present, a reconcile
    whose pod listing fails returns that failure and starts no monitor. *)
Lemma Reconcile_counterexample :
  let config := scenario.intent "b" "us-west-2" in
  let s := scenario.initial config in
  let r := controller.Reconcile scenario.clusterDown scenario.noError scenario.noError
             "default" "cfg" s in
  v1alpha1.Bucket (v1alpha1.S3Config (v1alpha1.Spec config)) <> ""
  /\ v1alpha1.Region (v1alpha1.S3Config (v1alpha1.Spec config)) <> ""
  /\ r.1 = Err "pods is forbidden"
  /\ startedBetween s r.2 = [].
Proof. vm_compute. repeat split; discriminate. Qed.

(** A tracked pod that is within its cooldown is passed over by the threshold
    monitor: nothing is sampled, captured or written for it. *)
Lemma checkPodThresholds_in_cooldown
    (fmt_f2 : float -> string)
    (http_get : string -> time.Time -> profiler.HttpReply * time.Time)
    (setupPortForward : corev1.Pod -> Z -> time.Time -> option (result Z * time.Time))
    (waitReady : time.Time -> profiler.WaitOutcome * time.Time)
    (getPodMetricses : string -> string -> time.Time -> result v1beta1.PodMetrics)
    (getError statusUpdateError : string -> time.Time -> option string)
    (loadConfigError : time.Time -> option string)
    (putObject : uploader.PutObjectInput -> time.Time -> result unit)
    (config : v1alpha1.ProfilingConfig) (s : controller.State)
    (tracked : controller.TrackedPod) :
  controller.CanProfile (controller.podWatcher s) (controller.Pod tracked)
    (v1alpha1.CooldownSeconds (v1alpha1.Thresholds (v1alpha1.Spec config)))
    (controller.now s) = false ->
  controller.checkPodThresholds fmt_f2 http_get setupPortForward waitReady
    getPodMetricses getError statusUpdateError loadConfigError putObject
    config s tracked = controller.Returned tt s.
Proof. intros H. unfold controller.checkPodThresholds. by rewrite H. Qed.

(** ** The repository's own test tables, run on the embedding *)

Example test_GetServiceName :
  let pod name labels owners := corev1.mkPod name "" labels ∅ owners [] "" in
  map uploader.getServiceName
    [ pod "test-pod-abc123-xyz456"
        (<["app.kubernetes.io/name" := "my-service"]> (<["app" := "other-app"]> ∅)) [];
      pod "test-pod-abc123-xyz456" (<["app" := "payment-service"]> ∅) [];
      pod "test-pod-abc123-xyz456" (<["k8s-app" := "auth-service"]> ∅) [];
      pod "web-app-7d8f9c5b6d-xyz456" ∅
        [corev1.mkOwnerReference "ReplicaSet" "web-app-7d8f9c5b6d"];
      pod "database-0" ∅ [corev1.mkOwnerReference "StatefulSet" "database"];
      pod "standalone-service-abc123-xyz456" ∅ [];
      pod "simple-pod" ∅ [] ]
  = [ "my-service"; "payment-service"; "auth-service"; "web-app"; "database";
      "standalone-service"; "simple-pod" ].
Proof. vm_compute. reflexivity. Qed.

Example test_GenerateKey :
  uploader.generateKey (uploader.mkS3Uploader "test-bucket" "profiles")
    (corev1.mkPod "test-app-abc123-xyz456" "production" (<["app" := "test-app"]> ∅)
       ∅ [] [] "")
    (profiler.mkProfile "heap" [] (scenario.at_ 1705321845))
  = "profiles/2024-01-15/test-app/20240115-123045-heap.pprof".
Proof. vm_compute. reflexivity. Qed.

Example test_GenerateKeyDifferentDates :
  let pod := corev1.mkPod "service-abc" ""
               (<["app.kubernetes.io/name" := "my-service"]> ∅) ∅ [] [] "" in
  map (fun seconds =>
         uploader.generateKey (uploader.mkS3Uploader "test-bucket" "data") pod
           (profiler.mkProfile "cpu" [] (scenario.at_ seconds)))
      [1705312800; 1735689599; 1738368000]
  = [ "data/2024-01-15/my-service/20240115-100000-cpu.pprof";
      "data/2024-12-31/my-service/20241231-235959-cpu.pprof";
      "data/2025-02-01/my-service/20250201-000000-cpu.pprof" ].
Proof. vm_compute. reflexivity. Qed.

Example test_CheckThresholds :
  map (fun '(cpu, mem) =>
         (metrics.CheckThresholds scenario.fmt_f2 (metrics.mkPodMetrics cpu mem 0 0) 80 90).1)
      [ (85, 50); (50, 95); (70, 80); (90, 95); (80, 90) ]%float
  = [ true; true; false; true; false ].
Proof. vm_compute. reflexivity. Qed.

Example test_CalculateMetrics :
  let sample cpuUsage memUsage cpuRequest memRequest :=
    metrics.calculateMetrics
      (corev1.mkPod "p" "" ∅ ∅ []
         [corev1.mkContainer "c"
            (<["cpu" := cpuRequest]> (<["memory" := memRequest]> ∅))] "")
      (v1beta1.mkPodMetrics
         [v1beta1.mkContainerMetrics
            (<["cpu" := cpuUsage]> (<["memory" := memUsage]> ∅))]) in
  let percents r :=
    match r with
    | Ok pm => Some (metrics.CPUUsagePercent pm, metrics.MemoryUsagePercent pm)
    | Err _ => None
    end in
  percents (sample 500000000 268435456000000000 1000000000 536870912000000000)
    = Some (50, 50)%float
  /\ percents (sample 800000000 104857600000000000 1000000000 536870912000000000)
    = Some (80, 19.53125)%float
  /\ percents (sample 500000000 268435456000000000 0 0) = Some (0, 0)%float.
Proof. vm_compute. repeat split. Qed.

(* ===================================================================== *)
(** * Further properties of the code *)
(* ===================================================================== *)

(** ** Profile acquirer: the target port *)

Lemma digit_pretty_N_char (d : N) :
  (d < 10)%N -> profiler.digit (pretty_N_char d) = Some (Z.of_N d).
Proof.
  intros Hd.
  assert (d = 0 \/ d = 1 \/ d = 2 \/ d = 3 \/ d = 4 \/ d = 5 \/ d = 6 \/ d = 7
          \/ d = 8 \/ d = 9)%N as H by lia.
  repeat destruct H as [->|H]; try subst d; reflexivity.
Qed.

Lemma digits_pretty_N_go (x : N) :
  exists k, 0 <= k /\ forall s acc,
    profiler.digits (pretty_N_go x s) acc
    = profiler.digits s (acc * 10 ^ k + Z.of_N x).
Proof.
  induction (N.lt_wf_0 x) as [x _ IH].
  destruct (decide (x = 0)%N) as [->|Hx].
  - exists 0. split; [lia|]. intros s acc. rewrite pretty_N_go_0. f_equal. lia.
  - destruct (IH (x `div` 10)%N) as (k & Hk & Hgo); [apply N.div_lt; lia|].
    exists (k + 1). split; [lia|]. intros s acc.
    rewrite pretty_N_go_step, Hgo by lia. simpl.
    rewrite digit_pretty_N_char by (apply N.mod_lt; lia). f_equal.
    rewrite Z.pow_add_r, Z.pow_1_r by lia.
    pose proof (N.div_mod x 10 ltac:(lia)) as Hdm.
    rewrite N2Z.inj_div, N2Z.inj_mod. change (Z.of_N 10) with 10.
    pose proof (Z.div_mod (Z.of_N x) 10 ltac:(lia)) as Hx10.
    clear Hdm Hgo IH.
    set (P := 10 ^ k) in *. set (q := Z.of_N x `div` 10) in *.
    set (r := Z.of_N x `mod` 10) in *. clearbody P q r.
    rewrite Hx10. ring.
Qed.

Lemma pretty_N_go_first_digit (x : N) s :
  (0 < x)%N ->
  exists c rest, pretty_N_go x s = String c rest /\ is_Some (profiler.digit c).
Proof.
  revert s. induction (N.lt_wf_0 x) as [x _ IH]. intros s Hx.
  rewrite pretty_N_go_step by done.
  destruct (decide (x `div` 10 = 0)%N) as [->|Hd].
  - rewrite pretty_N_go_0. eexists _, _. split; [done|].
    rewrite digit_pretty_N_char by (apply N.mod_lt; lia). done.
  - apply IH; [apply N.div_lt; lia | by apply N.neq_0_lt_0].
Qed.

Lemma Atoi_pretty (n : Z) :
  0 < n <= profiler.maxInt -> profiler.Atoi (pretty n) = Some n.
Proof.
  intros Hn. destruct n as [|p|p]; try lia.
  unfold pretty, pretty_Z, pretty, pretty_positive, pretty, pretty_N.
  destruct (decide _) as [|_]; [done|].
  destruct (pretty_N_go_first_digit (N.pos p) "" ltac:(lia)) as (c & rest & Hs & [d Hd]).
  destruct (digits_pretty_N_go (N.pos p)) as (k & _ & Hgo).
  specialize (Hgo "" 0). simpl in Hgo. rewrite Hs in Hgo.
  replace (0 * 10 ^ k + Z.pos p) with (Z.pos p) in Hgo by lia.
  unfold profiler.Atoi. rewrite Hs.
  assert (c <> "-"%char /\ c <> "+"%char) as [H1 H2].
  { split; intros ->; discriminate Hd. }
  replace (match String c rest with
           | String "-"%char s' => (true, s')
           | String "+"%char s' => (false, s')
           | _ => (false, String c rest)
           end) with (false, String c rest).
  2:{ destruct c as [[] [] [] [] [] [] [] []]; try reflexivity; congruence. }
  rewrite Hgo. unfold profiler.minInt, profiler.maxInt in *.
  replace ((- 2 ^ 63 <=? Z.pos p) && (Z.pos p <=? 2 ^ 63 - 1)) with true; [done|].
  symmetry. apply andb_true_iff. split; apply Z.leb_le; lia.
Qed.

(** X1.  The port [getPprofPort] answers is always a valid TCP port, and it
    is the default 6060 when the pod has no port annotation or one that
    [strconv.Atoi] rejects. *)
Theorem getPprofPort_range (pod : corev1.Pod) :
  1 <= profiler.getPprofPort pod <= 65535
  /\ (corev1.Annotations pod !! profiler.PprofPortAnnotation = None ->
      profiler.getPprofPort pod = 6060)
  /\ (forall portStr,
        corev1.Annotations pod !! profiler.PprofPortAnnotation = Some portStr ->
        profiler.Atoi portStr = None -> profiler.getPprofPort pod = 6060).
Proof.
  unfold profiler.getPprofPort, profiler.DefaultPprofPort.
  split; [|split].
  - destruct (corev1.Annotations pod !! _) as [portStr|]; [|lia].
    destruct (profiler.Atoi portStr) as [port|]; [|lia].
    destruct (port <=? 0) eqn:H0; simpl; [lia|].
    destruct (65535 <? port) eqn:H1; lia.
  - by intros ->.
  - by intros portStr -> ->.
Qed.

Lemma getPprofPort_range_witness :
  profiler.getPprofPort
    (corev1.mkPod "web-0" "default" ∅ (<["bolometer.io/port" := "http"]> ∅) [] [] "Running")
  = 6060.
Proof.
  apply (proj2 (proj2 (getPprofPort_range _)) "http"); reflexivity.
Defined.

(** X2.  A pod annotated with the decimal form of a port between 1 and 65535
    is profiled on that port; an annotated number outside that range falls
    back to 6060. *)
Theorem getPprofPort_annotated (pod : corev1.Pod) (port : Z) :
  corev1.Annotations pod !! profiler.PprofPortAnnotation = Some (pretty port) ->
  (1 <= port <= 65535 -> profiler.getPprofPort pod = port)
  /\ (65535 < port <= profiler.maxInt -> profiler.getPprofPort pod = 6060).
Proof.
  intros Hann. unfold profiler.getPprofPort. rewrite Hann.
  split; intros Hport.
  - rewrite Atoi_pretty by (unfold profiler.maxInt; lia).
    replace (port <=? 0) with false by (symmetry; apply Z.leb_gt; lia).
    by replace (65535 <? port) with false by (symmetry; apply Z.ltb_ge; lia).
  - rewrite Atoi_pretty by lia.
    replace (port <=? 0) with false by (symmetry; apply Z.leb_gt; lia).
    by replace (65535 <? port) with true by (symmetry; apply Z.ltb_lt; lia).
Qed.

Lemma getPprofPort_annotated_witness :
  profiler.getPprofPort
    (corev1.mkPod "web-0" "default" ∅ (<["bolometer.io/port" := "8080"]> ∅) [] [] "Running")
  = 8080.
Proof.
  assert (corev1.Annotations
            (corev1.mkPod "web-0" "default" ∅ (<["bolometer.io/port" := "8080"]> ∅)
               [] [] "Running") !! profiler.PprofPortAnnotation
          = Some (pretty 8080)) as Hann by (vm_compute; reflexivity).
  apply (proj1 (getPprofPort_annotated _ 8080 Hann)). lia.
Defined.

(** ** Profile acquirer: the requests of a capture *)

Section RequestFacts.
Variable http_get : string -> time.Time -> profiler.HttpReply * time.Time.
Variable setupPortForward :
  corev1.Pod -> Z -> time.Time -> option (result Z * time.Time).
Variable waitReady : time.Time -> profiler.WaitOutcome * time.Time.

Lemma captureProfile_request localPort kind w r w' :
  profiler.captureProfile http_get localPort kind w = (r, w') ->
  exists e,
    profiler.requests w' = (profiler.requests w ++ [e])%list
    /\ profiler.url e = pprofURL localPort kind
    /\ (is_ok r = true <-> succeeded e).
Proof.
  unfold profiler.captureProfile, succeeded.
  destruct (http_get _ _) as [rep t].
  destruct rep as [msg|status [data|msg]]; simpl.
  - intros [= <- <-]. eexists. repeat split; simpl; [done|]. by intros [? ?].
  - destruct (Z.eqb_spec status profiler.StatusOK) as [->|Hne]; simpl;
      intros [= <- <-]; eexists; repeat split; simpl; eauto; try done.
    intros [? [=]]. done.
  - destruct (Z.eqb_spec status profiler.StatusOK) as [->|Hne]; simpl;
      intros [= <- <-]; eexists; repeat split; simpl; try done; by intros [? ?].
Qed.

Lemma captureEach_requests localPort kinds : forall acc w r w',
  profiler.captureEach http_get localPort kinds acc w = (r, w') ->
  exists good rest,
    profiler.requests w' = (profiler.requests w ++ good ++ rest)%list
    /\ Forall succeeded good
    /\ map profiler.url (good ++ rest)
       = take (length (good ++ rest)) (map (pprofURL localPort) kinds)
    /\ (length (good ++ rest) <= length kinds)%nat
    /\ (is_ok r = true -> rest = [] /\ length good = length kinds)
    /\ (is_ok r = false -> exists e, rest = [e] /\ ~ succeeded e).
Proof.
  induction kinds as [|kind kinds IH]; intros acc w r w'; simpl.
  - intros [= <- <-]. exists [], []. rewrite app_nil_r. by repeat split.
  - destruct (profiler.captureProfile _ _ _ _) as [r1 w1] eqn:H1.
    apply captureProfile_request in H1 as (e & Hreq & Hurl & Hok).
    destruct r1 as [p|msg].
    + intros Hrest. apply IH in Hrest as (good & rest & Hreq' & Hgood & Hurls & Hlen & Hr & Hf).
      exists (e :: good), rest. split.
      { rewrite Hreq', Hreq, <- app_assoc. reflexivity. }
      split; [constructor; [by apply Hok|done]|].
      split; [simpl; by rewrite Hurl, Hurls|].
      split; [simpl; lia|]. split.
      * intros Hr'. destruct (Hr Hr') as [-> Hl]. split; [done|simpl; lia].
      * done.
    + intros [= <- <-]. exists [], [e]. split; [done|]. split; [constructor|].
      split; [simpl; by rewrite Hurl, take_0|]. split; [simpl; lia|].
      split; [done|]. intros _. exists e. split; [done|].
      intros He. by apply Hok in He.
Qed.

(** X3.  The requests of a capture that returns go to the local end of the
    tunnel, one per requested kind, in the requested order, and stop at the
    first one that does not succeed: every request but the last one made was
    answered 200 with a readable body, at most one was not, and it is the
    last; a successful capture made exactly one request per kind, and a
    capture whose tunnel set-up returned an error made none. *)
Theorem CaptureProfiles_requests (pod : corev1.Pod) (kinds : list string)
    (w w' : profiler.World) (r : result (list profiler.Profile)) :
  profiler.CaptureProfiles http_get setupPortForward waitReady pod kinds w
    = Some (r, w') ->
  exists good rest,
    profiler.requests w' = (profiler.requests w ++ good ++ rest)%list
    /\ Forall succeeded good
    /\ (length rest <= 1)%nat
    /\ (length (good ++ rest) <= length kinds)%nat
    /\ (is_ok r = true -> rest = [] /\ length good = length kinds)
    /\ (forall e, e ∈ rest -> ~ succeeded e /\ is_ok r = false)
    /\ (forall localPort t,
          setupPortForward pod (profiler.getPprofPort pod) (profiler.clock w)
            = Some (Ok localPort, t) ->
          map profiler.url (good ++ rest)
          = take (length (good ++ rest)) (map (pprofURL localPort) kinds))
    /\ (forall msg t,
          setupPortForward pod (profiler.getPprofPort pod) (profiler.clock w)
            = Some (Err msg, t) ->
          good = [] /\ rest = [] /\ is_ok r = false).
Proof.
  unfold profiler.CaptureProfiles.
  destruct (setupPortForward _ _ _) as [[[localPort|msg] t]|]; [| |done].
  - destruct (waitReady t) as [[| |msg] t'].
    + intros [= H]. apply captureEach_requests in H
        as (good & rest & Hreq & Hgood & Hurls & Hlen & Hr & Hf).
      exists good, rest. simpl in Hreq.
      split; [done|]. split; [done|]. split.
      { destruct (is_ok r) eqn:E.
        - destruct Hr as [-> _]; [done|]. simpl. lia.
        - destruct Hf as (e' & -> & _); [done|]. simpl. lia. }
      split; [done|]. split; [done|]. split; [|split].
      * intros e He. destruct (is_ok r) eqn:E.
        -- destruct Hr as [-> _]; [done|]. by apply elem_of_nil in He.
        -- destruct Hf as (e' & -> & He'); [done|].
           apply list_elem_of_singleton in He as ->. done.
      * by intros ? ? [= <- <-].
      * intros ? ? [=].
    + intros [= <- <-]. exists [], []. simpl. rewrite app_nil_r.
      split; [done|]. split; [done|]. split; [lia|]. split; [lia|]. split; [done|].
      split; [by intros ? ?%elem_of_nil|]. split; [done|intros ? ? [=]].
    + intros [= <- <-]. exists [], []. simpl. rewrite app_nil_r.
      split; [done|]. split; [done|]. split; [lia|]. split; [lia|]. split; [done|].
      split; [by intros ? ?%elem_of_nil|]. split; [done|intros ? ? [=]].
  - intros [= <- <-]. exists [], []. simpl. rewrite app_nil_r.
    split; [done|]. split; [done|]. split; [lia|]. split; [lia|]. split; [done|].
    split; [by intros ? ?%elem_of_nil|]. split; [intros ? ? [=]|done].
Qed.
End RequestFacts.

(** Against a target that serves the heap profile and refuses the CPU
    profile, a capture of heap, cpu and mutex makes two requests. *)
Lemma CaptureProfiles_requests_witness :
  let w := {| profiler.clock := scenario.at_ scenario.t0; profiler.requests := [] |} in
  exists r w',
    profiler.CaptureProfiles scenario.target scenario.tunnel scenario.ready
      scenario.webPod ["heap"; "cpu"; "mutex"] w = Some (r, w')
    /\ map profiler.url (profiler.requests w')
       = [ "http://localhost:40001/debug/pprof/heap";
           "http://localhost:40001/debug/pprof/profile?seconds=30" ].
Proof.
  intros w.
  assert (exists r w',
            profiler.CaptureProfiles scenario.target scenario.tunnel scenario.ready
              scenario.webPod ["heap"; "cpu"; "mutex"] w = Some (r, w'))
    as (r & w' & Hout) by (vm_compute; eauto).
  exists r, w'. split; [exact Hout|].
  destruct (CaptureProfiles_requests scenario.target scenario.tunnel scenario.ready
              scenario.webPod ["heap"; "cpu"; "mutex"] w w' r Hout)
    as (good & rest & Hreq & _ & _ & _ & _ & _ & Hurls & _).
  rewrite Hreq. simpl. rewrite (Hurls 40001 w.(profiler.clock) eq_refl).
  assert (length (good ++ rest) = 2%nat) as ->.
  { apply (f_equal length) in Hreq. vm_compute in Hout.
    injection Hout as _ <-. simpl in Hreq. done. }
  vm_compute. reflexivity.
Defined.

(** ** Instance registry: selection, counting, composition *)

(** X4.  [ListMatchingPods] asks for the pods of the selector's namespace, or
    of the intent's own namespace when the selector names none; it passes a
    failure of the listing on, and otherwise returns, in the order listed,
    exactly the listed pods that are Running and carry the opt-in annotation
    with value [true]. *)
Theorem ListMatchingPods_profileable
    (listPods : string -> gmap string string -> time.Time -> result (list corev1.Pod))
    (config : v1alpha1.ProfilingConfig) (s : controller.State) :
  let selector := v1alpha1.Selector (v1alpha1.Spec config) in
  let namespace :=
    if decide (v1alpha1.SelectorNamespace selector = "")
    then v1alpha1.Namespace config else v1alpha1.SelectorNamespace selector in
  match listPods namespace (v1alpha1.LabelSelector selector) (controller.now s) with
  | Err msg => controller.ListMatchingPods listPods config s = Err msg
  | Ok items =>
      exists pods,
        controller.ListMatchingPods listPods config s = Ok pods
        /\ pods `sublist_of` items
        /\ forall pod,
             pod ∈ pods <->
             pod ∈ items
             /\ corev1.Annotations pod !! "bolometer.io/enabled" = Some "true"
             /\ corev1.Phase pod = "Running"
  end.
Proof.
  intros selector namespace. unfold controller.ListMatchingPods. fold selector.
  replace (if String.eqb (v1alpha1.SelectorNamespace selector) ""
           then v1alpha1.Namespace config else v1alpha1.SelectorNamespace selector)
    with namespace.
  2:{ subst namespace. destruct (decide _) as [->|Hne]; [done|].
      by destruct (String.eqb_spec (v1alpha1.SelectorNamespace selector) ""). }
  destruct (listPods namespace _ _) as [items|msg]; [|done].
  eexists. split; [done|]. split.
  - induction items as [|pod items IH]; simpl; [constructor|].
    destruct (_ && _); [by constructor|by apply sublist_cons].
  - intros pod. rewrite !list_elem_of_In, List.filter_In.
    unfold controller.isPodProfilingEnabled, controller.ProfilingEnabledAnnotation,
      corev1.PodRunning.
    rewrite andb_true_iff, String.eqb_eq.
    destruct (corev1.Annotations pod !! "bolometer.io/enabled") as [value|].
    + rewrite String.eqb_eq.
      split; [intros (? & -> & ?)|intros (? & [= ->] & ?)]; done.
    + split; intros (? & ? & ?); done.
Qed.

(** X5.  The registry counts keys, not calls: the snapshot has one entry per
    tracked key; tracking adds one to the count only when the key was not
    tracked, untracking takes one off only when it was, and a new registry
    counts zero. *)
Theorem GetActivePodCount_tracking (pw : controller.PodWatcher) (pod : corev1.Pod)
    (config : v1alpha1.ProfilingConfig) :
  let tracked :=
    bool_decide (is_Some (controller.trackedPods pw !! controller.getPodKey pod)) in
  Z.of_nat (length (controller.GetTrackedPods pw)) = controller.GetActivePodCount pw
  /\ controller.GetActivePodCount (controller.TrackPod pw pod config)
     = controller.GetActivePodCount pw + (if tracked then 0 else 1)
  /\ controller.GetActivePodCount (controller.StopTrackingPod pw pod)
     = controller.GetActivePodCount pw - (if tracked then 1 else 0)
  /\ controller.GetActivePodCount controller.NewPodWatcher = 0.
Proof.
  intros tracked. subst tracked. unfold controller.GetActivePodCount.
  split; [|split; [|split]].
  - unfold controller.GetTrackedPods. by rewrite length_fmap, length_map_to_list.
  - unfold controller.TrackPod.
    destruct (controller.trackedPods pw !! controller.getPodKey pod) as [existing|] eqn:E.
    + rewrite bool_decide_eq_true_2 by done. simpl.
      rewrite map_size_insert, lookup_delete_eq, map_size_delete, E. simpl.
      assert (size (controller.trackedPods pw) <> 0%nat).
      { intros H0. apply map_size_empty_iff in H0. rewrite H0 in E. done. }
      lia.
    + rewrite bool_decide_eq_false_2 by (intros [? ?]; done). simpl.
      rewrite map_size_insert, E. simpl. lia.
  - unfold controller.StopTrackingPod.
    destruct (controller.trackedPods pw !! controller.getPodKey pod) as [existing|] eqn:E.
    + rewrite bool_decide_eq_true_2 by done. simpl.
      rewrite map_size_delete, E. simpl.
      assert (size (controller.trackedPods pw) <> 0%nat).
      { intros H0. apply map_size_empty_iff in H0. rewrite H0 in E. done. }
      lia.
    + rewrite bool_decide_eq_false_2 by (intros [? ?]; done). lia.
  - done.
Qed.

(** X6.  Untracking a pod after tracking it forgets the pod altogether, its
    entry and its last-profile timestamp, whether or not it was tracked
    before; untracking twice is untracking once; and of two trackings of the
    same pod the later configuration is the one recorded. *)
Theorem StopTrackingPod_forgets (pw : controller.PodWatcher) (pod : corev1.Pod)
    (config config' : v1alpha1.ProfilingConfig) :
  let key := controller.getPodKey pod in
  controller.StopTrackingPod (controller.TrackPod pw pod config) pod
    = {| controller.trackedPods := delete key (controller.trackedPods pw);
         controller.lastProfileTime := delete key (controller.lastProfileTime pw) |}
  /\ controller.StopTrackingPod (controller.StopTrackingPod pw pod) pod
     = controller.StopTrackingPod pw pod
  /\ controller.trackedPods
       (controller.TrackPod (controller.TrackPod pw pod config) pod config')
     = controller.trackedPods (controller.TrackPod pw pod config').
Proof.
  intros key. unfold controller.StopTrackingPod, controller.TrackPod. fold key.
  split; [|split].
  - destruct (controller.trackedPods pw !! key) eqn:E; simpl;
      rewrite lookup_insert_eq; unfold controller.stopTrackingLocked; simpl; f_equal.
    + by rewrite delete_insert_eq, delete_delete_eq.
    + by rewrite delete_delete_eq.
    + by rewrite delete_insert_eq.
  - destruct (controller.trackedPods pw !! key) eqn:E; simpl; [|by rewrite E].
    by rewrite lookup_delete_eq.
  - destruct (controller.trackedPods pw !! key) eqn:E; simpl;
      rewrite lookup_insert_eq; simpl.
    + by rewrite delete_insert_eq, delete_delete_eq.
    + rewrite delete_insert_eq. by rewrite delete_id by done.
Qed.

(** X7.  For a cooldown the duration type can hold, [CanProfile] answers yes
    exactly when the pod has no recorded profile time or strictly more than the
    cooldown has passed since the recorded one; in particular it answers no at
    the instant recorded, and at the instant the cooldown ends. *)
Theorem CanProfile_elapsed (pw : controller.PodWatcher) (pod : corev1.Pod)
    (cooldownSeconds : Z) (now : time.Time) :
  0 <= cooldownSeconds < 9223372036 ->
  controller.CanProfile pw pod cooldownSeconds now = true
  <-> forall last,
        controller.lastProfileTime pw !! controller.getPodKey pod = Some last ->
        time.unixNano last + cooldownSeconds * 1000000000 < time.unixNano now.
Proof.
  intros Hcool. unfold controller.CanProfile.
  destruct (controller.lastProfileTime pw !! controller.getPodKey pod) as [last|].
  - rewrite time_Seconds_small by done. rewrite Z.ltb_lt.
    unfold time.Sub, time.minDuration, time.maxDuration.
    split.
    + intros H ? [= <-]. repeat case_match; lia.
    + intros H. specialize (H _ eq_refl). repeat case_match; lia.
  - split; [by intros _ ? [=]|done].
Qed.

Lemma CanProfile_elapsed_witness :
  controller.CanProfile
    (controller.UpdateLastProfileTime controller.NewPodWatcher scenario.webPod
       (scenario.at_ scenario.t0))
    scenario.webPod 60 (scenario.at_ (scenario.t0 + 61)) = true.
Proof.
  apply CanProfile_elapsed; [lia|]. intros last Hlast.
  vm_compute in Hlast. injection Hlast as <-. vm_compute. reflexivity.
Defined.

Lemma append_slash_inj (a b c d : string) :
  noSlash a = true -> noSlash c = true ->
  a +:+ String "/" b = c +:+ String "/" d -> a = c /\ b = d.
Proof.
  revert c. induction a as [|x a IH]; intros [|y c] Ha Hc H.
  - by injection H as ->.
  - rewrite append_cons in H. injection H as <- _. discriminate Hc.
  - rewrite append_cons in H. injection H as -> _. discriminate Ha.
  - rewrite !append_cons in H. injection H as -> H.
    simpl in Ha, Hc. apply andb_true_iff in Ha as [_ Ha], Hc as [_ Hc].
    destruct (IH c Ha Hc H) as [-> ->]. done.
Qed.

(** X8.  Registry keys do not collide for pods of slash-free namespaces: two
    pods with the same key have the same namespace and the same name. *)
Theorem getPodKey_inj (p q : corev1.Pod) :
  noSlash (corev1.Namespace p) = true -> noSlash (corev1.Namespace q) = true ->
  controller.getPodKey p = controller.getPodKey q ->
  corev1.Namespace p = corev1.Namespace q /\ corev1.Name p = corev1.Name q.
Proof. intros Hp Hq H. by apply append_slash_inj. Qed.

Lemma getPodKey_inj_witness :
  corev1.Namespace scenario.webPod = "default"
  /\ corev1.Name scenario.webPod = "web-app-7d8f9c5b6d-xyz456".
Proof.
  apply (getPodKey_inj scenario.webPod
           (corev1.mkPod "web-app-7d8f9c5b6d-xyz456" "default" ∅ ∅ [] [] "Pending"));
    reflexivity.
Defined.

(** ** Intent reconciler: what a reconcile does to the registry, the store and
    the monitors *)

Section ReconcileMore.
Variable listPods : string -> gmap string string -> time.Time -> result (list corev1.Pod).
Variable getError : string -> time.Time -> option string.
Variable statusUpdateError : string -> time.Time -> option string.

Local Abbreviation Reconcile :=
  (controller.Reconcile listPods getError statusUpdateError).

Lemma trackAll_tracked config (pods : list corev1.Pod) : forall s,
  let s' :=
    fold_left (fun s pod =>
                 controller.setPodWatcher
                   (controller.TrackPod (controller.podWatcher s) pod config) s)
              pods s in
  (forall key, isTracked s key -> isTracked s' key)
  /\ forall pod, pod ∈ pods ->
       exists tracked,
         controller.trackedPods (controller.podWatcher s') !! controller.getPodKey pod
           = Some tracked
         /\ controller.Config tracked = config
         /\ controller.getPodKey (controller.Pod tracked) = controller.getPodKey pod.
Proof.
  unfold isTracked.
  induction pods as [|pod pods IH]; intros s; simpl.
  - split; [done|]. by intros pod Hpod%elem_of_nil.
  - set (s1 := controller.setPodWatcher
                 (controller.TrackPod (controller.podWatcher s) pod config) s).
    destruct (IH s1) as [Hkeep Hall].
    assert (forall key, is_Some (controller.trackedPods (controller.podWatcher s) !! key) ->
                        is_Some (controller.trackedPods (controller.podWatcher s1) !! key))
      as Hstep.
    { intros key Hkey. subst s1. simpl. unfold controller.TrackPod.
      destruct (decide (key = controller.getPodKey pod)) as [->|Hne].
      - simpl. rewrite lookup_insert_eq. done.
      - simpl. rewrite lookup_insert_ne by done.
        destruct (controller.trackedPods (controller.podWatcher s)
                    !! controller.getPodKey pod); [|done].
        simpl. by rewrite lookup_delete_ne. }
    split; [by eauto|].
    intros pod' [->|Hin]%elem_of_cons; [|by apply Hall].
    destruct (decide (Exists (fun q => controller.getPodKey q = controller.getPodKey pod) pods))
      as [Hex|Hnex].
    + apply Exists_exists in Hex as (q & Hq & Hkey).
      destruct (Hall q Hq) as (tracked & Ht & Hc & Hk).
      exists tracked. rewrite <- Hkey. split; [done|]. split; [done|]. congruence.
    + assert (forall s0,
                controller.trackedPods
                  (controller.podWatcher
                     (fold_left (fun s pod =>
                        controller.setPodWatcher
                          (controller.TrackPod (controller.podWatcher s) pod config) s)
                        pods s0)) !! controller.getPodKey pod
                = controller.trackedPods (controller.podWatcher s0)
                    !! controller.getPodKey pod) as Hframe.
      { clear -Hnex. induction pods as [|q pods IH]; intros s0; [done|]. simpl.
        rewrite IH.
        - simpl. unfold controller.TrackPod. simpl.
          assert (controller.getPodKey q <> controller.getPodKey pod) as Hne.
          { intros Heq. apply Hnex. by constructor. }
          rewrite lookup_insert_ne by done.
          destruct (controller.trackedPods (controller.podWatcher s0)
                      !! controller.getPodKey q); [|done].
          simpl. by rewrite lookup_delete_ne.
        - intros Hex. apply Hnex. by constructor 2. }
      rewrite Hframe. subst s1. simpl. unfold controller.TrackPod. simpl.
      rewrite lookup_insert_eq. by eexists.
Qed.

Lemma reconcile_tail_podWatcher key config config' s :
  controller.podWatcher
    (controller.startMonitoring config'
       (controller.stopMonitoring key
          (controller.StatusUpdate statusUpdateError config s).2))
  = controller.podWatcher s.
Proof.
  destruct (StatusUpdate_shape statusUpdateError config s) as [cs ->].
  unfold controller.startMonitoring, controller.stopMonitoring. simpl.
  by destruct (controller.activeMonitors s !! key).
Qed.

Lemma writeConfig_lookup keys config pw key :
  controller.trackedPods (controller.writeConfig keys config pw) !! key
  = if decide (key ∈ keys)
    then (fun tracked => controller.mkTrackedPod (controller.Pod tracked) config)
           <$> controller.trackedPods pw !! key
    else controller.trackedPods pw !! key.
Proof.
  unfold controller.writeConfig. cbn [controller.trackedPods].
  generalize (controller.trackedPods pw). clear pw.
  induction keys as [|k keys IH]; intros m; simpl.
  - by destruct (decide (key ∈ [])) as [?%elem_of_nil|].
  - rewrite IH. destruct (decide (key = k)) as [->|Hne].
    + rewrite lookup_alter_eq.
      destruct (decide (k ∈ k :: keys)) as [_|Hout]; [|by destruct Hout; left].
      destruct (decide (k ∈ keys)); [|done]. by destruct (m !! k).
    + rewrite lookup_alter_ne by done.
      destruct (decide (key ∈ keys)) as [Hin|Hout].
      * destruct (decide (key ∈ k :: keys)) as [_|Hout']; [done|].
        destruct Hout'. by right.
      * destruct (decide (key ∈ k :: keys)) as [[?|?]%elem_of_cons|_]; done.
Qed.

(** X9.  A reconcile never untracks: whatever its outcome, every pod tracked
    before it is tracked after it, also a pod that no longer matches or no
    longer exists.  When it lists the matching pods of a valid intent, every
    one of them is tracked afterwards, for that intent: its entry points to
    the object that the reconcile read and then wrote the number of matching
    pods to. *)
Theorem Reconcile_tracks (namespace name : string) (s : controller.State) :
  let s' := (Reconcile namespace name s).2 in
  (forall key, isTracked s key -> isTracked s' key)
  /\ forall config pods,
       controller.Get getError (controller.namespacedName namespace name) s
         = controller.Found config ->
       controller.validateConfig config = None ->
       controller.ListMatchingPods listPods config s = Ok pods ->
       forall pod, pod ∈ pods ->
         exists tracked,
           controller.trackedPods (controller.podWatcher s') !! controller.getPodKey pod
             = Some tracked
           /\ controller.Config tracked
              = controller.withStatus config
                  {| v1alpha1.ActivePods := Z.of_nat (length pods);
                     v1alpha1.LastProfileTime :=
                       v1alpha1.LastProfileTime (v1alpha1.Status config);
                     v1alpha1.TotalProfiles :=
                       v1alpha1.TotalProfiles (v1alpha1.Status config);
                     v1alpha1.TotalUploads :=
                       v1alpha1.TotalUploads (v1alpha1.Status config) |}
           /\ controller.getPodKey (controller.Pod tracked) = controller.getPodKey pod.
Proof.
  intros s'. subst s'. unfold controller.Reconcile.
  destruct (controller.Get _ _ s) as [config| |msg] eqn:HGet.
  - destruct (controller.validateConfig config) as [msg|] eqn:Hvalid.
    { split; [done|]. intros ? ? [= <-] ?. congruence. }
    destruct (controller.ListMatchingPods _ config s) as [pods|msg] eqn:Hlist.
    2:{ split; [done|]. intros ? ? [= <-] _ ?. congruence. }
    cbv zeta. cbn [snd]. unfold isTracked.
    rewrite reconcile_tail_podWatcher. cbn [controller.podWatcher controller.setPodWatcher].
    destruct (trackAll_tracked config pods s) as [Hkeep Hall].
    split.
    + intros key Hkey. rewrite writeConfig_lookup.
      destruct (decide _); [apply fmap_is_Some|]; by apply Hkeep.
    + intros ? pods' [= <-] _ Hpods.
      rewrite Hlist in Hpods. injection Hpods as <-.
      intros pod Hpod. destruct (Hall pod Hpod) as (tracked & Htracked & _ & Hkey).
      rewrite writeConfig_lookup, Htracked.
      destruct (decide _) as [_|Hout].
      * eexists. split; [reflexivity|]. by split.
      * destruct Hout. apply list_elem_of_In, in_map, list_elem_of_In, Hpod.
  - split; [|by intros]. simpl. unfold isTracked, controller.stopMonitoring.
    by destruct (controller.activeMonitors s !! _).
  - split; [done|by intros].
Qed.

Lemma stopMonitoring_accounted key s :
  monitorsAccounted s ->
  monitorsAccounted (controller.stopMonitoring key s)
  /\ controller.activeMonitors (controller.stopMonitoring key s) !! key = None.
Proof.
  intros Hacc. unfold controller.stopMonitoring.
  destruct (controller.activeMonitors s !! key) as [cancel|] eqn:E; [|done].
  split; [|simpl; apply lookup_delete_eq].
  intros m Hm. simpl in *. destruct (Hacc m Hm) as [Hc|Ha].
  - left. apply elem_of_app. by left.
  - destruct (decide (configKey (controller.monitorConfig m) = key)) as [Hk|Hk].
    + left. apply elem_of_app. right. apply list_elem_of_singleton. congruence.
    + right. by rewrite lookup_delete_ne.
Qed.

Lemma startMonitoring_accounted config s :
  monitorsAccounted s ->
  controller.activeMonitors s !! configKey config = None ->
  monitorsAccounted (controller.startMonitoring config s).
Proof.
  intros Hacc Hfree m Hm. unfold controller.startMonitoring in *. simpl in *.
  fold (configKey config).
  apply elem_of_app in Hm as [Hm|Hm].
  - destruct (Hacc m Hm) as [Hc|Ha]; [by left|]. right.
    rewrite lookup_insert_ne; [done|]. intros Heq. rewrite <- Heq in Ha. congruence.
  - right.
    assert (controller.monitorContext m = controller.nextContext s
            /\ controller.monitorConfig m = config) as [-> ->].
    { destruct (v1alpha1.OnDemand (v1alpha1.Spec config)) as [[[] ?]|];
        repeat (apply elem_of_cons in Hm as [->|Hm]; [done|]);
        by apply elem_of_nil in Hm. }
    apply lookup_insert_eq.
Qed.

Lemma StatusUpdate_storeNamed config s :
  storeNamed s -> storeNamed (controller.StatusUpdate statusUpdateError config s).2.
Proof.
  intros Hnamed. unfold controller.StatusUpdate.
  destruct (statusUpdateError _ _); [done|].
  destruct (controller.configs s !! _) as [stored|] eqn:E; [|done].
  intros key c. simpl.
  destruct (decide (controller.namespacedName (v1alpha1.Namespace config)
                      (v1alpha1.Name config) = key)) as [<-|Hne].
  - rewrite lookup_insert_eq. intros [= <-]. apply (Hnamed _ _ E).
  - rewrite lookup_insert_ne by done. apply Hnamed.
Qed.

(** X10.  Reconciling never leaks a monitor.  In a store whose objects sit
    under their own namespace and name, if every monitor goroutine started so
    far either runs under the context registered for its intent or has been
    cancelled, the same holds after a reconcile, whatever its outcome. *)
Theorem Reconcile_no_leak (namespace name : string) (s : controller.State) :
  storeNamed s -> monitorsAccounted s ->
  let s' := (Reconcile namespace name s).2 in
  storeNamed s' /\ monitorsAccounted s'.
Proof.
  intros Hnamed Hacc s'. subst s'. unfold controller.Reconcile.
  destruct (controller.Get _ _ s) as [config| |msg] eqn:HGet; [| |done].
  - destruct (controller.validateConfig config); [done|].
    destruct (controller.ListMatchingPods _ config s) as [pods|msg]; [|done].
    cbv zeta. cbn [snd].
    destruct (trackAll_shape config pods s) as [pw ->].
    set (config' := controller.withStatus config _).
    set (s1 := controller.setPodWatcher (controller.writeConfig _ _ _) _).
    assert (storeNamed s1) as Hnamed1 by done.
    assert (monitorsAccounted s1) as Hacc1 by done.
    pose proof (StatusUpdate_storeNamed config' s1 Hnamed1) as Hnamed2.
    destruct (StatusUpdate_shape statusUpdateError config' s1) as [cs Hcs].
    rewrite Hcs in *.
    assert (monitorsAccounted (controller.setConfigs cs s1)) as Hacc2 by done.
    destruct (stopMonitoring_accounted (controller.namespacedName namespace name) _ Hacc2)
      as [Hacc3 Hfree].
    assert (configKey config' = controller.namespacedName namespace name) as Hkey.
    { unfold controller.Get in HGet. destruct (getError _ _); [done|].
      destruct (controller.configs s !! _) eqn:E; [|done].
      injection HGet as ->. apply (Hnamed _ _ E). }
    split.
    + unfold controller.startMonitoring, controller.stopMonitoring, storeNamed in *.
      simpl in *. by destruct (controller.activeMonitors s !! _).
    + apply startMonitoring_accounted; [done|]. by rewrite Hkey.
  - cbn [snd]. split.
    + unfold controller.stopMonitoring, storeNamed in *.
      by destruct (controller.activeMonitors s !! _).
    + by apply stopMonitoring_accounted.
Qed.

(** X11.  A reconcile that goes through restarts the monitors of the intent:
    the context registered for it before, if any, is cancelled, a context
    never used before is registered in its place, and the contexts registered
    for all other intents stay as they are. *)
Theorem Reconcile_restarts (namespace name : string) (s : controller.State)
    (config : v1alpha1.ProfilingConfig) (pods : list corev1.Pod) :
  let key := controller.namespacedName namespace name in
  controller.Get getError key s = controller.Found config ->
  configKey config = key ->
  controller.validateConfig config = None ->
  controller.ListMatchingPods listPods config s = Ok pods ->
  let s' := (Reconcile namespace name s).2 in
  controller.activeMonitors s' !! key = Some (controller.nextContext s)
  /\ controller.nextContext s' = S (controller.nextContext s)
  /\ controller.cancelled s'
     = (controller.cancelled s
        ++ match controller.activeMonitors s !! key with
           | Some previous => [previous]
           | None => []
           end)%list
  /\ forall other, other <> key ->
       controller.activeMonitors s' !! other = controller.activeMonitors s !! other.
Proof.
  intros key HGet Hkey Hvalid Hlist s'. subst s'. unfold controller.Reconcile.
  fold key. rewrite HGet, Hvalid, Hlist. cbv zeta. cbn [snd].
  destruct (trackAll_shape config pods s) as [pw0 ->].
  set (pw := controller.writeConfig _ _ _).
  change (controller.setPodWatcher pw (controller.setPodWatcher pw0 s))
    with (controller.setPodWatcher pw s).
  clearbody pw. clear pw0.
  set (config' := controller.withStatus config _).
  destruct (StatusUpdate_shape statusUpdateError config' (controller.setPodWatcher pw s))
    as [cs ->].
  unfold controller.startMonitoring, controller.stopMonitoring. simpl.
  change (v1alpha1.Namespace config +:+ "/" +:+ v1alpha1.Name config)
    with (configKey config). rewrite Hkey.
  destruct (controller.activeMonitors s !! key) as [previous|] eqn:E; simpl.
  - split; [apply lookup_insert_eq|]. split; [done|]. split; [done|].
    intros other Hother. by rewrite lookup_insert_ne, lookup_delete_ne.
  - split; [apply lookup_insert_eq|]. split; [done|]. split; [by rewrite app_nil_r|].
    intros other Hother. by rewrite lookup_insert_ne.
Qed.

(** X12.  Reconciling an intent that is gone stops its monitors and nothing
    else: the context registered for it, if any, is cancelled and
    unregistered, no requeue is asked for, no monitor is started, and the
    registry keeps every pod it tracked, those of the deleted intent too.  A
    read of the intent that fails otherwise is returned and changes nothing. *)
Theorem Reconcile_deleted (namespace name : string) (s : controller.State) :
  let key := controller.namespacedName namespace name in
  let r := Reconcile namespace name s in
  (controller.Get getError key s = controller.NotFound ->
     r.1 = Ok 0
     /\ controller.activeMonitors r.2 = delete key (controller.activeMonitors s)
     /\ controller.cancelled r.2
        = (controller.cancelled s
           ++ match controller.activeMonitors s !! key with
              | Some previous => [previous]
              | None => []
              end)%list
     /\ controller.goroutines r.2 = controller.goroutines s
     /\ controller.podWatcher r.2 = controller.podWatcher s
     /\ controller.configs r.2 = controller.configs s)
  /\ (forall msg, controller.Get getError key s = controller.GetFailed msg ->
        r = (Err msg, s)).
Proof.
  intros key r. subst r. unfold controller.Reconcile. fold key. split.
  - intros ->. cbn [fst snd]. unfold controller.stopMonitoring.
    destruct (controller.activeMonitors s !! key) as [previous|] eqn:E; simpl.
    + done.
    + rewrite app_nil_r. by rewrite delete_id.
  - by intros msg ->.
Qed.

(** X13.  The status a reconcile writes.  When the reconcile of a valid
    intent goes through and the API server accepts the status update, the
    stored intent gets [ActivePods] set to the number of matching pods listed
    in this reconcile, with the rest of its status and its specification as
    they were, and no other object is written.  When the server refuses the
    update, the reconcile goes through all the same and the store is as it
    was. *)
Theorem Reconcile_status (namespace name : string) (s : controller.State)
    (config : v1alpha1.ProfilingConfig) (pods : list corev1.Pod) :
  let key := controller.namespacedName namespace name in
  controller.Get getError key s = controller.Found config ->
  configKey config = key ->
  controller.validateConfig config = None ->
  controller.ListMatchingPods listPods config s = Ok pods ->
  let r := Reconcile namespace name s in
  let status := v1alpha1.Status config in
  r.1 = Ok controller.RequeueAfter
  /\ (statusUpdateError key (controller.now s) = None ->
      controller.configs r.2
      = <[key := controller.withStatus config
                   {| v1alpha1.ActivePods := Z.of_nat (length pods);
                      v1alpha1.LastProfileTime := v1alpha1.LastProfileTime status;
                      v1alpha1.TotalProfiles := v1alpha1.TotalProfiles status;
                      v1alpha1.TotalUploads := v1alpha1.TotalUploads status |}]>
          (controller.configs s))
  /\ (is_Some (statusUpdateError key (controller.now s)) ->
      controller.configs r.2 = controller.configs s).
Proof.
  intros key HGet Hkey Hvalid Hlist r status. subst r. unfold controller.Reconcile.
  fold key. rewrite HGet, Hvalid, Hlist. cbv zeta. cbn [fst snd].
  split; [done|].
  destruct (trackAll_shape config pods s) as [pw0 ->].
  set (pw := controller.writeConfig _ _ _).
  change (controller.setPodWatcher pw (controller.setPodWatcher pw0 s))
    with (controller.setPodWatcher pw s).
  clearbody pw. clear pw0.
  assert (controller.configs s !! key = Some config) as Hstored.
  { unfold controller.Get in HGet. destruct (getError _ _); [done|].
    by destruct (controller.configs s !! key) eqn:E; [injection HGet as ->|]. }
  unfold controller.StatusUpdate. cbn [v1alpha1.Namespace v1alpha1.Name controller.withStatus].
  change (controller.namespacedName (v1alpha1.Namespace config) (v1alpha1.Name config))
    with (configKey config). rewrite Hkey.
  change (controller.now (controller.setPodWatcher pw s)) with (controller.now s).
  change (controller.configs (controller.setPodWatcher pw s)) with (controller.configs s).
  rewrite Hstored.
  destruct (statusUpdateError key (controller.now s)) as [msg|].
  - split; [done|]. intros _. cbn [snd].
    unfold controller.startMonitoring, controller.stopMonitoring. simpl.
    by destruct (controller.activeMonitors s !! key).
  - split; [|by intros [? ?]]. intros _. cbn [snd].
    unfold controller.startMonitoring, controller.stopMonitoring. simpl.
    by destruct (controller.activeMonitors s !! key).
Qed.
End ReconcileMore.
(** The scenario's pod after the reconcile: tracked, its entry showing
    the intent with one active pod. *)
Lemma Reconcile_tracks_witness :
  exists tracked,
    controller.trackedPods
      (controller.podWatcher
         (controller.Reconcile scenario.cluster scenario.noError scenario.noError
            "default" "cfg" (scenario.initial (scenario.intent "b" "us-west-2"))).2)
      !! controller.getPodKey scenario.webPod = Some tracked
    /\ v1alpha1.ActivePods (v1alpha1.Status (controller.Config tracked)) = 1
    /\ controller.getPodKey (controller.Pod tracked) = controller.getPodKey scenario.webPod.
Proof.
  destruct (proj2 (Reconcile_tracks scenario.cluster scenario.noError scenario.noError
                     "default" "cfg" (scenario.initial (scenario.intent "b" "us-west-2")))
              (scenario.intent "b" "us-west-2") [scenario.webPod])
    with (pod := scenario.webPod) as (tracked & Htracked & Hconfig & Hkey).
  - vm_compute. reflexivity.
  - reflexivity.
  - vm_compute. reflexivity.
  - apply list_elem_of_singleton. reflexivity.
  - exists tracked. split; [exact Htracked|]. split; [|exact Hkey].
    rewrite Hconfig. reflexivity.
Defined.

Lemma Reconcile_no_leak_witness :
  let s' := scenario.reconcile (scenario.initial (scenario.intent "b" "us-west-2")) in
  storeNamed s' /\ monitorsAccounted s'.
Proof.
  apply (Reconcile_no_leak scenario.cluster scenario.noError scenario.noError
           "default" "cfg" (scenario.initial (scenario.intent "b" "us-west-2"))).
  - intros key config Hkey. simpl in Hkey.
    apply lookup_singleton_Some in Hkey as [<- <-]. reflexivity.
  - intros m Hm. simpl in Hm. by apply elem_of_nil in Hm.
Defined.

(** Reconciled a second time, the scenario's intent has its first context
    cancelled and a second one registered. *)
Lemma Reconcile_restarts_witness :
  let s := scenario.reconcile (scenario.initial (scenario.intent "b" "us-west-2")) in
  let s' := scenario.reconcile s in
  controller.activeMonitors s' !! "default/cfg" = Some 1%nat
  /\ controller.cancelled s' = [0%nat].
Proof.
  intros s s'.
  destruct (Reconcile_restarts scenario.cluster scenario.noError scenario.noError
              "default" "cfg" s
              (controller.withStatus (scenario.intent "b" "us-west-2")
                 (v1alpha1.mkProfilingConfigStatus 1 None 0 0))
              [scenario.webPod])
    as (Hactive & _ & Hcancelled & _).
  - vm_compute. reflexivity.
  - reflexivity.
  - reflexivity.
  - vm_compute. reflexivity.
  - split; [exact Hactive | exact Hcancelled].
Defined.

(** The intent deleted after a first reconcile: its context is cancelled and
    the pod stays tracked. *)
Lemma Reconcile_deleted_witness :
  let s := controller.setConfigs ∅
             (scenario.reconcile (scenario.initial (scenario.intent "b" "us-west-2"))) in
  let r := controller.Reconcile scenario.cluster scenario.noError scenario.noError
             "default" "cfg" s in
  r.1 = Ok 0
  /\ controller.cancelled r.2 = [0%nat]
  /\ controller.podWatcher r.2 = controller.podWatcher s.
Proof.
  intros s r.
  destruct (proj1 (Reconcile_deleted scenario.cluster scenario.noError scenario.noError
                     "default" "cfg" s))
    as (Hr & _ & Hcancelled & _ & Hpw & _).
  - vm_compute. reflexivity.
  - split; [exact Hr|]. split; [exact Hcancelled | exact Hpw].
Defined.

Lemma Reconcile_status_witness :
  let s := scenario.initial (scenario.intent "b" "us-west-2") in
  v1alpha1.ActivePods <$> (v1alpha1.Status <$> controller.configs (scenario.reconcile s)
                                                 !! "default/cfg")
  = Some 1.
Proof.
  intros s.
  destruct (Reconcile_status scenario.cluster scenario.noError scenario.noError
              "default" "cfg" s (scenario.intent "b" "us-west-2") [scenario.webPod])
    as (_ & Hstored & _).
  - vm_compute. reflexivity.
  - reflexivity.
  - reflexivity.
  - vm_compute. reflexivity.
  - unfold scenario.reconcile. rewrite Hstored by reflexivity.
    rewrite lookup_insert_eq. reflexivity.
Defined.

(** ** Object-store publisher: the metadata of an object *)

Lemma metadata_labels_lookup (base : gmap string string)
    (labels : list (string * string)) (k : string) :
  foldr (fun kv metadata => <["pod-label-" +:+ kv.1 := kv.2]> metadata) base labels
    !! ("pod-label-" +:+ k)
  = match (list_to_map labels : gmap string string) !! k with
    | Some v => Some v
    | None => base !! ("pod-label-" +:+ k)
    end.
Proof.
  induction labels as [|[l v] labels IH]; [done|]. simpl.
  destruct (decide (l = k)) as [->|Hne].
  - by rewrite !lookup_insert_eq.
  - rewrite !lookup_insert_ne; [done|done|].
    intros Heq. by apply String.app_inj in Heq.
Qed.

(** X14.  The metadata of an uploaded object is the pod's name and namespace,
    the reason given, the kind and the timestamp of the profile, and one entry
    [pod-label-<k>] per label [k] of the pod with the label's value; it has no
    other entry. *)
Theorem metadataOf_entries (pod : corev1.Pod) (profile : profiler.Profile)
    (reason : string) :
  let m := uploader.metadataOf pod profile reason in
  m !! "pod-name" = Some (corev1.Name pod)
  /\ m !! "pod-namespace" = Some (corev1.Namespace pod)
  /\ m !! "profile-type" = Some (profiler.Type_ profile)
  /\ m !! "reason" = Some reason
  /\ m !! "timestamp" = Some (time.FormatRFC3339 (profiler.Timestamp profile))
  /\ (forall k, m !! ("pod-label-" +:+ k) = corev1.Labels pod !! k)
  /\ (forall q,
        q ∉ ["pod-name"; "pod-namespace"; "profile-type"; "reason"; "timestamp"] ->
        (forall k, q <> "pod-label-" +:+ k) -> m !! q = None).
Proof.
  intros m. subst m. unfold uploader.metadataOf.
  repeat (split; [by rewrite metadata_labels_frame by (intros l; discriminate)|]).
  split.
  - intros k. rewrite metadata_labels_lookup, list_to_map_to_list.
    destruct (corev1.Labels pod !! k); [done|].
    repeat (rewrite lookup_insert_ne by discriminate). done.
  - intros q Hq Hlabel. rewrite metadata_labels_frame by done.
    repeat (rewrite lookup_insert_ne by (intros <-; apply Hq; set_solver)). done.
Qed.

Lemma metadataOf_entries_witness :
  uploader.metadataOf scenario.webPod
    (profiler.mkProfile "heap" [] (scenario.at_ scenario.t0)) "on-demand"
    !! "bucket" = None.
Proof.
  apply (proj2 (proj2 (proj2 (proj2 (proj2 (proj2
           (metadataOf_entries scenario.webPod
              (profiler.mkProfile "heap" [] (scenario.at_ scenario.t0)) "on-demand")))))) "bucket").
  - intros H. repeat (apply elem_of_cons in H as [H|H]; [discriminate H|]).
    by apply elem_of_nil in H.
  - intros k. discriminate.
Defined.

(** ** Capture and publish *)

Section PublishFacts.
Variable fmt_f2 : float -> string.
Variable http_get : string -> time.Time -> profiler.HttpReply * time.Time.
Variable setupPortForward :
  corev1.Pod -> Z -> time.Time -> option (result Z * time.Time).
Variable waitReady : time.Time -> profiler.WaitOutcome * time.Time.
Variable getPodMetricses : string -> string -> time.Time -> result v1beta1.PodMetrics.
Variable getError : string -> time.Time -> option string.
Variable statusUpdateError : string -> time.Time -> option string.
Variable loadConfigError : time.Time -> option string.
Variable putObject : uploader.PutObjectInput -> time.Time -> result unit.

Local Abbreviation UploadProfiles :=
  (uploader.UploadProfiles controller.State (controller.PutObject putObject)).
Local Abbreviation captureAndUpload :=
  (controller.captureAndUpload http_get setupPortForward waitReady
     loadConfigError putObject).
Local Abbreviation updateProfileStats :=
  (controller.updateProfileStats getError statusUpdateError).
Local Abbreviation checkPodThresholds :=
  (controller.checkPodThresholds fmt_f2 http_get setupPortForward waitReady
     getPodMetricses getError statusUpdateError loadConfigError putObject).
Local Abbreviation checkPodsThresholds :=
  (controller.checkPodsThresholds fmt_f2 http_get setupPortForward waitReady
     getPodMetricses getError statusUpdateError loadConfigError putObject).

Lemma withPuts_nil s : withPuts s [] = s.
Proof. destruct s. unfold withPuts. simpl. by rewrite app_nil_r. Qed.

Lemma withPuts_app s a b : withPuts (withPuts s a) b = withPuts s (a ++ b).
Proof. unfold withPuts. simpl. by rewrite app_assoc. Qed.

Lemma PutObject_cases input s :
  controller.PutObject putObject input s
  = match putObject input (controller.now s) with
    | Ok _ => (Ok tt, withPuts s [input])
    | Err msg => (Err msg, s)
    end.
Proof. unfold controller.PutObject. by destruct (putObject _ _). Qed.

(** X15.  A batch is uploaded in order and abandoned at the first object the
    store refuses: the objects written are those of the first [n] profiles of
    the batch, nothing else in the state changes, the batch succeeds only if
    [n] is all of them, and when it fails the profile after those [n] is the
    one that was refused. *)
Theorem UploadProfiles_in_order (u : uploader.S3Uploader) (pod : corev1.Pod)
    (profiles : list profiler.Profile) (reason : string) (s : controller.State) :
  let out := UploadProfiles u pod profiles reason s in
  exists n,
    (n <= length profiles)%nat
    /\ out.2 = withPuts s ((fun profile => uploader.putObjectInput u pod profile reason)
                             <$> take n profiles)
    /\ (is_ok out.1 = true -> n = length profiles)
    /\ (is_ok out.1 = false ->
        exists profile,
          profiles !! n = Some profile
          /\ is_ok (putObject (uploader.putObjectInput u pod profile reason)
                      (controller.now s)) = false).
Proof.
  cbv zeta. revert s. induction profiles as [|profile profiles IH]; intros s.
  - exists 0%nat. simpl. by rewrite withPuts_nil.
  - cbn [uploader.UploadProfiles]. unfold uploader.UploadProfile.
    rewrite PutObject_cases.
    destruct (putObject _ (controller.now s)) as [[]|msg] eqn:Hput.
    + destruct (IH (withPuts s [uploader.putObjectInput u pod profile reason]))
        as (n & Hn & Hout & Hok & Herr).
      exists (S n). split; [simpl; lia|]. split.
      { cbv beta iota. rewrite Hout. by rewrite withPuts_app. }
      split; [intros H; simpl; by rewrite Hok|].
      intros H. destruct (Herr H) as (p & Hp & Hrefused). exists p. done.
    + exists 0%nat. simpl. rewrite withPuts_nil.
      split; [lia|]. split; [done|]. split; [done|].
      intros _. exists profile. by rewrite Hput.
Qed.

Lemma UploadProfiles_written (u : uploader.S3Uploader) (pod : corev1.Pod)
    (profiles : list profiler.Profile) (reason : string) : forall s,
  exists n,
    (UploadProfiles u pod profiles reason s).2
    = withPuts s ((fun profile => uploader.putObjectInput u pod profile reason)
                    <$> take n profiles)
    /\ (is_ok (UploadProfiles u pod profiles reason s).1 = true -> n = length profiles).
Proof.
  induction profiles as [|profile profiles IH]; intros s.
  - exists 0%nat. simpl. by rewrite withPuts_nil.
  - cbn [uploader.UploadProfiles]. unfold uploader.UploadProfile.
    rewrite PutObject_cases.
    destruct (putObject _ (controller.now s)) as [[]|msg].
    + destruct (IH (withPuts s [uploader.putObjectInput u pod profile reason]))
        as (n & Hout & Hok).
      exists (S n). cbv beta iota. rewrite Hout, withPuts_app.
      split; [done|]. intros H. simpl. by rewrite Hok.
    + exists 0%nat. simpl. by rewrite withPuts_nil.
Qed.

Lemma metadataOf_fixed pod profile reason :
  uploader.metadataOf pod profile reason !! "reason" = Some reason
  /\ uploader.metadataOf pod profile reason !! "pod-name" = Some (corev1.Name pod)
  /\ uploader.metadataOf pod profile reason !! "profile-type"
     = Some (profiler.Type_ profile).
Proof.
  unfold uploader.metadataOf.
  repeat split; by rewrite metadata_labels_frame by (intros l; discriminate).
Qed.

Lemma CaptureProfiles_types pod kinds w profiles w' :
  profiler.CaptureProfiles http_get setupPortForward waitReady pod kinds w
    = Some (Ok profiles, w') ->
  map profiler.Type_ profiles = kinds.
Proof.
  unfold profiler.CaptureProfiles.
  destruct (setupPortForward _ _ _) as [[[localPort|msg] t]|]; [|done|done].
  destruct (waitReady t) as [[| |msg] t']; [|done|done].
  intros [= H]. apply captureEach_inv in H as (made & _ & _ & Hgood).
  by destruct (Hgood _ eq_refl) as (new & -> & Htypes & _).
Qed.

(** X16.  What a capture-and-publish sequence writes to the store.  Of
    everything the reconciler and its monitors keep, the sequence touches
    only the clock with its request log, the store and the list of captures
    begun, whether it returns or not.  Every object it writes goes to the
    intent's bucket with the given reason and the pod's name; it writes none
    when acquiring the profiles or setting up the uploader fails, or when the
    acquisition never returns, which is the one way for it not to return; and
    when it succeeds it has written one object per kind asked for, in that
    order. *)
Theorem captureAndUpload_puts (pod : corev1.Pod) (config : v1alpha1.ProfilingConfig)
    (reason : string) (s : controller.State) :
  let out := captureAndUpload pod config reason s in
  let capture :=
    profiler.CaptureProfiles http_get setupPortForward waitReady pod
      (effectiveKinds config) (controller.net s) in
  let s3 := v1alpha1.S3Config (v1alpha1.Spec config) in
  exists new,
    controller.puts (stateOf out) = (controller.puts s ++ new)%list
    /\ controller.podWatcher (stateOf out) = controller.podWatcher s
    /\ controller.configs (stateOf out) = controller.configs s
    /\ controller.activeMonitors (stateOf out) = controller.activeMonitors s
    /\ controller.goroutines (stateOf out) = controller.goroutines s
    /\ Forall (fun put =>
                 uploader.Bucket put = v1alpha1.Bucket s3
                 /\ uploader.ContentType put = "application/octet-stream"
                 /\ uploader.Metadata put !! "reason" = Some reason
                 /\ uploader.Metadata put !! "pod-name" = Some (corev1.Name pod))
              new
    /\ (succeeds out = true ->
        (fun put => uploader.Metadata put !! "profile-type") <$> new
        = Some <$> effectiveKinds config)
    /\ (acquired capture = false -> new = [] /\ succeeds out = false)
    /\ (returns out = false <-> capture = None).
Proof.
  intros out capture s3. subst out capture. unfold controller.captureAndUpload.
  fold (effectiveKinds config). fold s3.
  change (controller.net (controller.beginCapture pod reason s)) with (controller.net s).
  destruct (profiler.CaptureProfiles _ _ _ _ _ _) as [[[profiles|msg] w]|] eqn:Hcap.
  2:{ exists []. rewrite app_nil_r. simpl. repeat split; try done. }
  2:{ exists []. rewrite app_nil_r. simpl. repeat split; try done. }
  apply CaptureProfiles_types in Hcap.
  destruct (loadConfigError _).
  { exists []. rewrite app_nil_r. simpl. repeat split; try done. }
  set (u := {| uploader.bucket := _ |}).
  set (s1 := controller.setNet w (controller.beginCapture pod reason s)).
  destruct (UploadProfiles_written u pod profiles reason s1) as (n & Hout & Hok).
  destruct (UploadProfiles u pod profiles reason s1) as [[[]|msg] s2]; simpl in *;
    subst s2; eexists; (split; [reflexivity|]); simpl.
  - repeat (split; [done|]). split; [|split; [|done]].
    + apply Forall_fmap, Forall_forall. intros p _. simpl.
      by destruct (metadataOf_fixed pod p reason) as (Hreason & Hname & _).
    + intros _. rewrite Hok by done. rewrite firstn_all, <- list_fmap_compose.
      rewrite <- Hcap. rewrite <- list_fmap_compose. apply list_fmap_ext.
      intros i p _. simpl.
      by destruct (metadataOf_fixed pod p reason) as (_ & _ & Htype).
  - repeat (split; [done|]). split; [|split; [done|done]].
    apply Forall_fmap, Forall_forall. intros p _. simpl.
    by destruct (metadataOf_fixed pod p reason) as (Hreason & Hname & _).
Qed.

Lemma wrap64_small (n : Z) : - 2 ^ 63 <= n < 2 ^ 63 -> time.wrap64 n = n.
Proof. intros Hn. unfold time.wrap64. rewrite Z.mod_small by lia. lia. Qed.

(** X17.  One successful capture-and-publish sequence counts as one capture
    and one upload, however many profiles it published: when the intent is
    still there and the API server accepts the update, [updateProfileStats]
    stores it with both counters one higher, the last-profile time set to the
    present and the rest as it was.  When the intent cannot be read or the
    update is refused, nothing changes at all. *)
Theorem updateProfileStats_counts (config : v1alpha1.ProfilingConfig)
    (s : controller.State) :
  let key := configKey config in
  let s' := updateProfileStats config s in
  (forall latest,
     controller.Get getError key s = controller.Found latest ->
     configKey latest = key ->
     statusUpdateError key (controller.now s) = None ->
     let status := v1alpha1.Status latest in
     0 <= v1alpha1.TotalProfiles status < 2 ^ 63 - 1 ->
     0 <= v1alpha1.TotalUploads status < 2 ^ 63 - 1 ->
     controller.configs s'
     = <[key := controller.withStatus latest
                  {| v1alpha1.ActivePods := v1alpha1.ActivePods status;
                     v1alpha1.LastProfileTime := Some (controller.now s);
                     v1alpha1.TotalProfiles := v1alpha1.TotalProfiles status + 1;
                     v1alpha1.TotalUploads := v1alpha1.TotalUploads status + 1 |}]>
         (controller.configs s))
  /\ (forall latest,
        controller.Get getError key s = controller.Found latest ->
        is_Some (statusUpdateError (configKey latest) (controller.now s)) -> s' = s)
  /\ ((forall latest, controller.Get getError key s <> controller.Found latest) -> s' = s)
  /\ s' = controller.setConfigs (controller.configs s') s.
Proof.
  intros key s'. subst s'. unfold controller.updateProfileStats.
  change (controller.namespacedName (v1alpha1.Namespace config) (v1alpha1.Name config))
    with key.
  split; [|split; [|split]].
  - intros latest HGet Hkey Hstatus. cbv zeta. intros Hp Hu. rewrite HGet.
    unfold controller.StatusUpdate.
    cbn [v1alpha1.Namespace v1alpha1.Name controller.withStatus].
    change (controller.namespacedName (v1alpha1.Namespace latest) (v1alpha1.Name latest))
      with (configKey latest).
    rewrite Hkey, Hstatus.
    assert (controller.configs s !! key = Some latest) as ->.
    { unfold controller.Get in HGet. destruct (getError _ _); [done|].
      by destruct (controller.configs s !! key) eqn:E; [injection HGet as ->|]. }
    simpl. by rewrite !wrap64_small by lia.
  - intros latest HGet [msg Hmsg]. rewrite HGet. unfold controller.StatusUpdate.
    cbn [v1alpha1.Namespace v1alpha1.Name controller.withStatus].
    change (controller.namespacedName (v1alpha1.Namespace latest) (v1alpha1.Name latest))
      with (configKey latest).
    by rewrite Hmsg.
  - intros Hnone. destruct (controller.Get getError key s) as [latest| |msg] eqn:E;
      [|done|done]. by destruct (Hnone latest).
  - destruct (controller.Get getError key s) as [latest| |msg]; [|by destruct s..].
    match goal with
    | |- context [controller.StatusUpdate _ ?c s] =>
        destruct (StatusUpdate_shape statusUpdateError c s) as [cs ->]
    end.
    done.
Qed.

Lemma checkPodThresholds_quiet config s tracked :
  quietPod fmt_f2 getPodMetricses config s tracked ->
  checkPodThresholds config s tracked = controller.Returned tt s.
Proof.
  unfold quietPod, controller.checkPodThresholds.
  intros [Hcool|[Hmetrics|(sample & podMetrics & Hsample & Hcalc & Hunder)]].
  - by rewrite Hcool.
  - destruct (controller.CanProfile _ _ _ _); [|done]. cbn [negb].
    by destruct (getPodMetricses _ _ _).
  - destruct (controller.CanProfile _ _ _ _); [|done]. cbn [negb].
    rewrite Hsample, Hcalc.
    destruct (metrics.CheckThresholds _ _ _ _) as [exceeded reason].
    simpl in Hunder. by subst exceeded.
Qed.

(** X18.  A threshold tick in which every tracked pod is within its cooldown,
    cannot be sampled, or is at or under both thresholds returns and does
    nothing: no capture is begun, nothing is written, no timestamp moves. *)
Theorem checkPodsThresholds_quiet (config : v1alpha1.ProfilingConfig)
    (s : controller.State) :
  (forall tracked, tracked ∈ controller.GetTrackedPods (controller.podWatcher s) ->
     quietPod fmt_f2 getPodMetricses config s tracked) ->
  checkPodsThresholds config s = controller.Returned tt s.
Proof.
  unfold controller.checkPodsThresholds.
  generalize (controller.GetTrackedPods (controller.podWatcher s)).
  intros trackedPods Hquiet.
  induction trackedPods as [|tracked trackedPods IH]; [done|]. simpl.
  rewrite checkPodThresholds_quiet by (apply Hquiet; by left).
  apply IH. intros t Ht. apply Hquiet. by right.
Qed.

Lemma captureAndUpload_shape pod config reason s :
  exists w new,
    stateOf (captureAndUpload pod config reason s)
    = {| controller.podWatcher := controller.podWatcher s;
         controller.activeMonitors := controller.activeMonitors s;
         controller.configs := controller.configs s;
         controller.goroutines := controller.goroutines s;
         controller.cancelled := controller.cancelled s;
         controller.nextContext := controller.nextContext s;
         controller.net := w;
         controller.puts := controller.puts s ++ new;
         controller.captures :=
           controller.captures s
           ++ [controller.mkCapture (controller.getPodKey pod) reason (controller.now s)] |}.
Proof.
  unfold controller.captureAndUpload.
  destruct (profiler.CaptureProfiles _ _ _ _ _ _) as [[[profiles|msg] w]|].
  2:{ exists w, []. simpl. by rewrite app_nil_r. }
  2:{ exists (controller.net s), []. simpl. by rewrite app_nil_r. }
  destruct (loadConfigError _).
  { exists w, []. simpl. by rewrite app_nil_r. }
  match goal with
  | |- context [uploader.UploadProfiles _ _ ?u pod profiles reason ?s0] =>
      destruct (UploadProfiles_written u pod profiles reason s0) as (n & Hout & _);
      destruct (uploader.UploadProfiles _ _ u pod profiles reason s0) as [[[]|msg] s2]
  end; simpl in Hout; subst s2; by eexists _, _.
Qed.

Lemma updateProfileStats_shape config s :
  exists cs, updateProfileStats config s = controller.setConfigs cs s.
Proof.
  unfold controller.updateProfileStats.
  destruct (controller.Get _ _ s) as [latest| |msg];
    [|exists (controller.configs s); by destruct s..].
  apply StatusUpdate_shape.
Qed.

Lemma checkPodThresholds_step config s tracked :
  let s1 := stateOf (checkPodThresholds config s tracked) in
  let key := controller.getPodKey (controller.Pod tracked) in
  controller.trackedPods (controller.podWatcher s1)
    = controller.trackedPods (controller.podWatcher s)
  /\ controller.activeMonitors s1 = controller.activeMonitors s
  /\ controller.goroutines s1 = controller.goroutines s
  /\ exists begun,
       controller.captures s1 = (controller.captures s ++ begun)%list
       /\ (length begun <= 1)%nat
       /\ Forall (fun c => controller.capturePod c = key) begun
       /\ forall k,
            controller.lastProfileTime (controller.podWatcher s1) !! k
              <> controller.lastProfileTime (controller.podWatcher s) !! k ->
            k = key /\ begun <> [].
Proof.
  intros s1 key. subst s1.
  assert (forall s0 : controller.State, s0 = s ->
            controller.trackedPods (controller.podWatcher s0)
              = controller.trackedPods (controller.podWatcher s)
            /\ controller.activeMonitors s0 = controller.activeMonitors s
            /\ controller.goroutines s0 = controller.goroutines s
            /\ exists begun,
                 controller.captures s0 = (controller.captures s ++ begun)%list
                 /\ (length begun <= 1)%nat
                 /\ Forall (fun c => controller.capturePod c = key) begun
                 /\ forall k,
                      controller.lastProfileTime (controller.podWatcher s0) !! k
                        <> controller.lastProfileTime (controller.podWatcher s) !! k ->
                      k = key /\ begun <> []) as Hsame.
  { intros s0 ->. repeat split. exists []. rewrite app_nil_r.
    repeat split; [simpl; lia|constructor|done|done]. }
  unfold controller.checkPodThresholds.
  destruct (negb _); [by apply Hsame|].
  destruct (getPodMetricses _ _ _) as [sample|msg]; [|by apply Hsame].
  destruct (metrics.calculateMetrics _ sample) as [podMetrics|msg]; [|by apply Hsame].
  destruct (metrics.CheckThresholds _ _ _ _) as [[] reason]; [|by apply Hsame].
  destruct (captureAndUpload_shape (controller.Pod tracked) config reason s)
    as (w & new & Hshape).
  destruct (captureAndUpload _ _ _ s) as [[[]|msg] s2|s2]; simpl in Hshape; subst s2.
  - match goal with
    | |- context [controller.updateProfileStats _ _ config ?s0] =>
        destruct (updateProfileStats_shape config s0) as [cs ->]
    end.
    simpl. repeat split. eexists [_]. split; [done|]. split; [simpl; lia|].
    split; [by constructor|]. fold key.
    intros k Hk. split; [|done].
    destruct (decide (k = key)) as [->|Hne]; [done|].
    by rewrite lookup_insert_ne in Hk.
  - simpl. repeat split. eexists [_]. split; [done|]. split; [simpl; lia|].
    split; [by constructor|]. done.
  - simpl. repeat split. eexists [_]. split; [done|]. split; [simpl; lia|].
    split; [by constructor|]. done.
Qed.

Lemma sublist_at_most_one {A} (x : A) (l : list A) :
  (length l <= 1)%nat -> Forall (fun y => y = x) l -> l `sublist_of` [x].
Proof.
  destruct l as [|y [|z l]]; simpl; intros Hl Hall.
  - apply sublist_nil_l.
  - apply Forall_cons in Hall as [-> _]. done.
  - lia.
Qed.

Lemma forEach_checkPodThresholds_frame config
    (trackedPods : list controller.TrackedPod) :
  forall s,
    let s' := stateOf (controller.forEach (checkPodThresholds config) trackedPods s) in
    controller.trackedPods (controller.podWatcher s')
      = controller.trackedPods (controller.podWatcher s)
    /\ controller.activeMonitors s' = controller.activeMonitors s
    /\ controller.goroutines s' = controller.goroutines s
    /\ exists begun,
         controller.captures s' = (controller.captures s ++ begun)%list
         /\ controller.capturePod <$> begun
            `sublist_of` (fun tracked => controller.getPodKey (controller.Pod tracked))
                           <$> trackedPods
         /\ forall k,
              controller.lastProfileTime (controller.podWatcher s') !! k
                <> controller.lastProfileTime (controller.podWatcher s) !! k ->
              exists c, c ∈ begun /\ controller.capturePod c = k.
Proof.
  induction trackedPods as [|tracked trackedPods IH]; intros s; cbv zeta.
  - simpl. repeat split. exists []. rewrite app_nil_r.
    split; [done|]. split; [done|done].
  - cbn [controller.forEach].
    destruct (checkPodThresholds_step config s tracked)
      as (Ht1 & Ha1 & Hg1 & begun1 & Hc1 & Hl1 & Hp1 & Hk1).
    assert (controller.capturePod <$> begun1
            `sublist_of` [controller.getPodKey (controller.Pod tracked)]) as Hsub1.
    { apply sublist_at_most_one; [by rewrite length_fmap|].
      by apply Forall_fmap. }
    destruct (checkPodThresholds config s tracked) as [[] s1|s1]; cbn [stateOf] in *.
    + destruct (IH s1) as (Ht2 & Ha2 & Hg2 & begun2 & Hc2 & Hs2 & Hk2).
      split; [congruence|]. split; [congruence|]. split; [congruence|].
      exists (begun1 ++ begun2)%list. split; [by rewrite Hc2, Hc1, app_assoc|].
      split.
      * rewrite fmap_app, fmap_cons.
        change (?x :: ?l) with ([x] ++ l)%list. by apply sublist_app.
      * intros k Hk.
        destruct (decide (controller.lastProfileTime (controller.podWatcher s1) !! k
                          = controller.lastProfileTime (controller.podWatcher s) !! k))
          as [Heq|Hne].
        -- destruct (Hk2 k) as (c & Hc & Hpod); [congruence|].
           exists c. split; [apply elem_of_app; by right|done].
        -- destruct (Hk1 k Hne) as [-> Hbegun].
           destruct begun1 as [|c begun1]; [done|].
           exists c. split; [apply elem_of_app; left; by left|].
           by apply Forall_cons in Hp1 as [? _].
    + split; [done|]. split; [done|]. split; [done|].
      exists begun1. split; [done|]. split.
      * rewrite fmap_cons. etrans; [exact Hsub1|].
        apply sublist_skip, sublist_nil_l.
      * intros k Hk. destruct (Hk1 k Hk) as [-> Hbegun].
        destruct begun1 as [|c begun1]; [done|].
        exists c. split; [by left|]. by apply Forall_cons in Hp1 as [? _].
Qed.

(** X19.  What a threshold tick can change, whether it returns or not.  It
    never tracks or untracks a pod and never starts or stops a monitor.  The
    captures it begins are for pods of its snapshot, in the order of the
    snapshot and at most one for each entry.  A last-profile timestamp that
    differs after the tick belongs to a pod for which the tick began a
    capture. *)
Theorem checkPodsThresholds_frame (config : v1alpha1.ProfilingConfig)
    (s : controller.State) :
  let s' := stateOf (checkPodsThresholds config s) in
  let snapshot := controller.GetTrackedPods (controller.podWatcher s) in
  controller.trackedPods (controller.podWatcher s')
    = controller.trackedPods (controller.podWatcher s)
  /\ controller.activeMonitors s' = controller.activeMonitors s
  /\ controller.goroutines s' = controller.goroutines s
  /\ controller.capturePod <$> begunBetween s s'
     `sublist_of` (fun tracked => controller.getPodKey (controller.Pod tracked))
                    <$> snapshot
  /\ forall key,
       controller.lastProfileTime (controller.podWatcher s') !! key
         <> controller.lastProfileTime (controller.podWatcher s) !! key ->
       exists c, c ∈ begunBetween s s' /\ controller.capturePod c = key.
Proof.
  intros s' snapshot. subst s'. unfold controller.checkPodsThresholds. fold snapshot.
  destruct (forEach_checkPodThresholds_frame config snapshot s)
    as (Ht & Ha & Hg & begun & Hc & Hs & Hk).
  unfold begunBetween. rewrite Hc, drop_app_length.
  by repeat (split; [done|]).
Qed.

(** X20.  A threshold check that fires.  For a tracked pod that is out of its
    cooldown and whose sample exceeds a threshold, the check begins exactly one
    capture, for that pod, with the reason [CheckThresholds] gave, and writes
    what that capture-and-publish sequence writes; it returns exactly when the
    sequence does.  If the sequence does not succeed the registry stays as it
    was, so no cooldown starts and the next tick tries again; if it succeeds
    the last-profile time of the pod becomes the time at which the upload had
    finished, and nobody else's changes. *)
Theorem checkPodThresholds_fires (config : v1alpha1.ProfilingConfig)
    (s : controller.State) (tracked : controller.TrackedPod)
    (sample : v1beta1.PodMetrics) (podMetrics : metrics.PodMetrics) (reason : string) :
  let pod := controller.Pod tracked in
  let thresholds := v1alpha1.Thresholds (v1alpha1.Spec config) in
  controller.CanProfile (controller.podWatcher s) pod
    (v1alpha1.CooldownSeconds thresholds) (controller.now s) = true ->
  getPodMetricses (corev1.Namespace pod) (corev1.Name pod) (controller.now s)
    = Ok sample ->
  metrics.calculateMetrics pod sample = Ok podMetrics ->
  metrics.CheckThresholds fmt_f2 podMetrics
    (v1alpha1.CPUThresholdPercent thresholds)
    (v1alpha1.MemoryThresholdPercent thresholds) = (true, reason) ->
  let out := captureAndUpload pod config reason s in
  let check := checkPodThresholds config s tracked in
  let s1 := stateOf check in
  begunBetween s s1
    = [controller.mkCapture (controller.getPodKey pod) reason (controller.now s)]
  /\ controller.puts s1 = controller.puts (stateOf out)
  /\ returns check = returns out
  /\ (succeeds out = false ->
      s1 = stateOf out /\ controller.podWatcher s1 = controller.podWatcher s)
  /\ (succeeds out = true ->
      controller.trackedPods (controller.podWatcher s1)
        = controller.trackedPods (controller.podWatcher s)
      /\ controller.lastProfileTime (controller.podWatcher s1)
         = <[controller.getPodKey pod := controller.now (stateOf out)]>
             (controller.lastProfileTime (controller.podWatcher s))).
Proof.
  intros pod thresholds Hcan Hsample Hmetrics Hcheck out check s1. subst out check s1.
  unfold controller.checkPodThresholds. fold pod thresholds.
  rewrite Hcan, Hsample, Hmetrics, Hcheck. cbn [negb].
  destruct (captureAndUpload_shape pod config reason s) as (w & new & Hshape).
  unfold begunBetween.
  destruct (captureAndUpload pod config reason s) as [[[]|msg] s2|s2];
    cbn [stateOf returns succeeds] in *; subst s2.
  - match goal with
    | |- context [controller.updateProfileStats _ _ config ?s0] =>
        destruct (updateProfileStats_shape config s0) as [cs ->]
    end.
    cbn. rewrite drop_app_length. done.
  - cbn. rewrite drop_app_length. done.
  - cbn. rewrite drop_app_length. done.
Qed.

Lemma thresholdLoop_run config (ticks : list time.Time) (rest : list controller.Event) :
  forall s,
    let run := controller.forEach
                 (fun s t => checkPodsThresholds config (controller.atTime t s))
                 ticks s in
    controller.thresholdLoop fmt_f2 http_get setupPortForward waitReady getPodMetricses
      getError statusUpdateError loadConfigError putObject
      config (controller.Tick <$> ticks) s
    = (if returns run then controller.Waiting (stateOf run)
       else controller.Hung (stateOf run))
    /\ controller.thresholdLoop fmt_f2 http_get setupPortForward waitReady getPodMetricses
         getError statusUpdateError loadConfigError putObject
         config ((controller.Tick <$> ticks) ++ controller.Done :: rest)%list s
       = (if returns run then controller.Stopped (stateOf run)
          else controller.Hung (stateOf run))
    /\ controller.trackedPods (controller.podWatcher (stateOf run))
       = controller.trackedPods (controller.podWatcher s)
    /\ controller.activeMonitors (stateOf run) = controller.activeMonitors s
    /\ controller.goroutines (stateOf run) = controller.goroutines s.
Proof.
  induction ticks as [|t ticks IH]; intros s; cbv zeta; [done|].
  cbn [fmap list_fmap app controller.thresholdLoop controller.forEach].
  destruct (forEach_checkPodThresholds_frame config
              (controller.GetTrackedPods (controller.podWatcher (controller.atTime t s)))
              (controller.atTime t s))
    as (Ht' & Ha' & Hg' & _).
  fold (checkPodsThresholds config (controller.atTime t s)) in Ht', Ha', Hg'.
  destruct (checkPodsThresholds config (controller.atTime t s)) as [[] s1|s1];
    cbn [stateOf returns] in *; [|done].
  destruct (IH s1) as (Hwait & Hstop & Ht & Ha & Hg).
  split; [exact Hwait|]. split; [exact Hstop|].
  split; [by rewrite Ht, Ht'|]. split; [by rewrite Ha, Ha'|]. by rewrite Hg, Hg'.
Qed.

(** X21.  The threshold monitor of an intent whose check interval the schema
    admits (at least ten seconds) and a duration can hold.  It does not
    panic; it runs one check per tick, in order, each at the time of its tick,
    for as long as the checks return, and waits for ever in the first one that
    does not; it stops at the cancellation of its context and looks at
    nothing that comes after; and however long it runs it tracks or untracks
    no pod and starts or stops no monitor. *)
Theorem monitorThresholds_runs (config : v1alpha1.ProfilingConfig)
    (ticks : list time.Time) (rest : list controller.Event) (s : controller.State) :
  10 <= v1alpha1.CheckIntervalSeconds (v1alpha1.Thresholds (v1alpha1.Spec config))
     < 9223372036 ->
  let monitorThresholds :=
    controller.monitorThresholds fmt_f2 http_get setupPortForward waitReady
      getPodMetricses getError statusUpdateError loadConfigError putObject config in
  let run := controller.forEach
               (fun s t => checkPodsThresholds config (controller.atTime t s))
               ticks s in
  monitorThresholds (controller.Tick <$> ticks) s
  = (if returns run then controller.Waiting (stateOf run)
     else controller.Hung (stateOf run))
  /\ monitorThresholds ((controller.Tick <$> ticks) ++ controller.Done :: rest)%list s
     = (if returns run then controller.Stopped (stateOf run)
        else controller.Hung (stateOf run))
  /\ controller.trackedPods (controller.podWatcher (stateOf run))
     = controller.trackedPods (controller.podWatcher s)
  /\ controller.activeMonitors (stateOf run) = controller.activeMonitors s
  /\ controller.goroutines (stateOf run) = controller.goroutines s.
Proof.
  intros Hinterval monitorThresholds run. subst monitorThresholds.
  unfold controller.monitorThresholds.
  rewrite time_Seconds_small by lia.
  destruct (Z.leb_spec
              (v1alpha1.CheckIntervalSeconds (v1alpha1.Thresholds (v1alpha1.Spec config))
               * 1000000000) 0) as [Hle|_]; [lia|].
  apply thresholdLoop_run.
Qed.
End PublishFacts.

(** A sequence for the scenario's pod against the scenario's target publishes
    one object, the heap profile. *)
Lemma captureAndUpload_puts_witness :
  let s := scenario.reconcile (scenario.initial (scenario.intent "b" "us-west-2")) in
  let out := controller.captureAndUpload scenario.target scenario.tunnel scenario.ready
               scenario.awsReady scenario.store scenario.webPod
               (scenario.intent "b" "us-west-2") "on-demand" s in
  exists new,
    controller.puts (stateOf out) = new
    /\ (fun put => uploader.Metadata put !! "profile-type") <$> new = [Some "heap"].
Proof.
  intros s out.
  destruct (captureAndUpload_puts scenario.target scenario.tunnel scenario.ready
              scenario.awsReady scenario.store scenario.webPod
              (scenario.intent "b" "us-west-2") "on-demand" s)
    as (new & Hputs & _ & _ & _ & _ & _ & Hok & _).
  exists new. split; [exact Hputs|]. apply Hok. vm_compute. reflexivity.
Defined.

Lemma updateProfileStats_counts_witness :
  let s := scenario.initial (scenario.intent "b" "us-west-2") in
  let s' := controller.updateProfileStats scenario.noError scenario.noError
              (scenario.intent "b" "us-west-2") s in
  v1alpha1.TotalProfiles <$> (v1alpha1.Status <$> controller.configs s' !! "default/cfg")
  = Some 1.
Proof.
  intros s s'.
  destruct (updateProfileStats_counts scenario.noError scenario.noError
              (scenario.intent "b" "us-west-2") s) as (Hstored & _).
  pose proof (Hstored (scenario.intent "b" "us-west-2")) as H. cbv zeta in H.
  subst s'. rewrite H.
  - rewrite lookup_insert_eq. reflexivity.
  - vm_compute. reflexivity.
  - reflexivity.
  - reflexivity.
  - simpl. lia.
  - simpl. lia.
Defined.

(** The scenario's pod was profiled eleven seconds into the run; the tick at
    forty seconds finds it within its cooldown of sixty and does nothing. *)
Lemma checkPodsThresholds_quiet_witness :
  let s := controller.atTime (scenario.at_ (scenario.t0 + 40))
             (scenario.thresholdTick 10
                (scenario.reconcile (scenario.initial (scenario.intent "b" "us-west-2")))) in
  controller.checkPodsThresholds scenario.fmt_f2 scenario.target scenario.tunnel
    scenario.ready scenario.busy scenario.noError scenario.noError scenario.awsReady
    scenario.store (scenario.intent "b" "us-west-2") s = controller.Returned tt s.
Proof.
  intros s.
  apply (checkPodsThresholds_quiet scenario.fmt_f2 scenario.target scenario.tunnel
           scenario.ready scenario.busy scenario.noError scenario.noError
           scenario.awsReady scenario.store (scenario.intent "b" "us-west-2") s).
  intros tracked Hin.
  assert (controller.GetTrackedPods (controller.podWatcher s)
          = [controller.mkTrackedPod scenario.webPod
               (controller.withStatus (scenario.intent "b" "us-west-2")
                  (v1alpha1.mkProfilingConfigStatus 1 None 0 0))])
    as Hsnapshot by (vm_compute; reflexivity).
  rewrite Hsnapshot in Hin. apply list_elem_of_singleton in Hin. subst tracked.
  left. vm_compute. reflexivity.
Defined.

(** Ten seconds into the run the scenario's pod is at 85% of its CPU request
    against a threshold of 30: the check begins one capture, for that pod. *)
Lemma checkPodThresholds_fires_witness :
  let s := controller.atTime (scenario.at_ (scenario.t0 + 10))
             (scenario.reconcile (scenario.initial (scenario.intent "b" "us-west-2"))) in
  let check := controller.checkPodThresholds scenario.fmt_f2 scenario.target
                 scenario.tunnel scenario.ready scenario.busy scenario.noError
                 scenario.noError scenario.awsReady scenario.store
                 (scenario.intent "b" "us-west-2") s
                 (controller.mkTrackedPod scenario.webPod
                    (scenario.intent "b" "us-west-2")) in
  controller.capturePod <$> begunBetween s (stateOf check) = [scenario.webPodKey].
Proof.
  intros s check.
  edestruct (checkPodThresholds_fires scenario.fmt_f2 scenario.target scenario.tunnel
               scenario.ready scenario.busy scenario.noError scenario.noError
               scenario.awsReady scenario.store (scenario.intent "b" "us-west-2") s
               (controller.mkTrackedPod scenario.webPod (scenario.intent "b" "us-west-2")))
    as (Hbegun & _).
  - vm_compute. reflexivity.
  - reflexivity.
  - reflexivity.
  - reflexivity.
  - subst check. rewrite Hbegun. reflexivity.
Defined.

(** The scenario's interval is ten seconds: two ticks and a cancellation. *)
Lemma monitorThresholds_runs_witness :
  let s := scenario.reconcile (scenario.initial (scenario.intent "b" "us-west-2")) in
  exists s',
    controller.monitorThresholds scenario.fmt_f2 scenario.target scenario.tunnel
      scenario.ready scenario.busy scenario.noError scenario.noError scenario.awsReady
      scenario.store (scenario.intent "b" "us-west-2")
      [controller.Tick (scenario.at_ (scenario.t0 + 10));
       controller.Tick (scenario.at_ (scenario.t0 + 20));
       controller.Done;
       controller.Tick (scenario.at_ (scenario.t0 + 30))] s
    = controller.Stopped s'
    /\ controller.goroutines s' = controller.goroutines s.
Proof.
  intros s.
  destruct (monitorThresholds_runs scenario.fmt_f2 scenario.target scenario.tunnel
              scenario.ready scenario.busy scenario.noError scenario.noError
              scenario.awsReady scenario.store (scenario.intent "b" "us-west-2")
              [scenario.at_ (scenario.t0 + 10); scenario.at_ (scenario.t0 + 20)]
              [controller.Tick (scenario.at_ (scenario.t0 + 30))] s)
    as (_ & Hstop & _ & _ & Hg).
  - simpl. lia.
  - eexists. split; [|exact Hg]. etrans; [exact Hstop|].
    vm_compute. reflexivity.
Defined.

(** ** Service names: an owner without a dash *)

(** X22.  The one case of the owner branch that has no dash to cut at.  For a
    pod without service label whose first owner is a ReplicaSet with a name
    that contains no dash, [getServiceName] answers the owner's name less its
    last character when the name has two characters or more, and the name as
    it is when it has fewer. *)
Theorem getServiceName_dashless_owner (pod : corev1.Pod)
    (owner : corev1.OwnerReference) (others : list corev1.OwnerReference) :
  noLabel pod "app.kubernetes.io/name" -> noLabel pod "app" -> noLabel pod "k8s-app" ->
  corev1.OwnerReferences pod = owner :: others ->
  corev1.Kind owner = "ReplicaSet" ->
  (forall i, ~ dashAt (corev1.OwnerName owner) i) ->
  let name := corev1.OwnerName owner in
  uploader.getServiceName pod
  = if (2 <=? String.length name)%nat
    then String.substring 0 (String.length name - 1) name
    else name.
Proof.
  intros H1 H2 H3 Howner Hkind Hno name. unfold uploader.getServiceName.
  rewrite !nonEmptyLabel_None by done. rewrite Howner, Hkind, String.eqb_refl.
  cbv zeta. fold name. rewrite lastDashBelow_none by (intros m _; apply Hno).
  destruct (Nat.leb_spec 2 (String.length name)) as [Hlen|Hlen].
  - destruct (Z.ltb_spec 0 (Z.of_nat (String.length name) - 1)) as [_|?]; [|lia].
    unfold uploader.upTo. f_equal. lia.
  - by destruct (Z.ltb_spec 0 (Z.of_nat (String.length name) - 1)) as [?|_]; [lia|].
Qed.

Lemma getServiceName_dashless_owner_witness :
  uploader.getServiceName
    (corev1.mkPod "myapp-x1" "default" ∅ ∅ [corev1.mkOwnerReference "ReplicaSet" "myapp"]
       [] "Running")
  = "myap".
Proof.
  apply (getServiceName_dashless_owner
           (corev1.mkPod "myapp-x1" "default" ∅ ∅
              [corev1.mkOwnerReference "ReplicaSet" "myapp"] [] "Running")
           (corev1.mkOwnerReference "ReplicaSet" "myapp") []).
  - by left.
  - by left.
  - by left.
  - reflexivity.
  - reflexivity.
  - intros i. unfold dashAt. simpl.
    do 5 (destruct i as [|i]; [discriminate|]). discriminate.
Defined.

(** ** Utilization sampler: the order of the containers *)

Lemma sum_permutation (A : Type) (f : A -> Z) (l l' : list A) :
  l ≡ₚ l' -> foldr Z.add 0 (map f l) = foldr Z.add 0 (map f l').
Proof. induction 1; simpl; lia. Qed.

(** X23.  The sampler matches no container of the sample with a container of
    the pod: only the four totals count, so listing the containers of the pod
    or of the sample in another order gives the same metrics. *)
Theorem calculateMetrics_order (pod pod' : corev1.Pod)
    (sample sample' : v1beta1.PodMetrics) :
  corev1.Containers pod ≡ₚ corev1.Containers pod' ->
  v1beta1.Containers sample ≡ₚ v1beta1.Containers sample' ->
  metrics.calculateMetrics pod sample = metrics.calculateMetrics pod' sample'.
Proof.
  intros Hpod Hsample. unfold metrics.calculateMetrics, metrics.totalUsage,
    metrics.totalRequest.
  rewrite !fold_addResource_sum.
  rewrite !(sum_permutation _ _ _ _ Hpod), !(sum_permutation _ _ _ _ Hsample).
  reflexivity.
Qed.

Lemma calculateMetrics_order_witness :
  let app := corev1.mkContainer "app" {[ "cpu" := 1000000000 ]} in
  let sidecar := corev1.mkContainer "sidecar" {[ "cpu" := 250000000 ]} in
  let pod containers := corev1.mkPod "web" "default" ∅ ∅ [] containers "Running" in
  let sample := v1beta1.mkPodMetrics [v1beta1.mkContainerMetrics {[ "cpu" := 500000000 ]}] in
  metrics.calculateMetrics (pod [app; sidecar]) sample
  = metrics.calculateMetrics (pod [sidecar; app]) sample.
Proof.
  intros app sidecar pod sample.
  apply (calculateMetrics_order (pod [app; sidecar]) (pod [sidecar; app]) sample sample).
  - apply perm_swap.
  - reflexivity.
Defined.
